(** * PLTU simulator: the physics engine and its store, embedded in Rocq

    The development follows [utils/calculation.ts] (the variant that smooths
    with [smoothApproach]) and the zustand store that drives it, then the
    lever registry of the store, the lever component, [formatTime], the
    efficiency indicators of the variant that smooths with
    [interpolateValue], and the first, stateless version of the engine.

    Numbers.  A JavaScript [number] is modelled by a real number: rounding,
    overflow and signed zeros of IEEE doubles are not represented.  The two
    non-real values the engine can meet are kept explicitly: a key that is
    absent from an object ([undefined], the [None] of an optional field) and
    [NaN], which the engine produces where it divides zero by zero or computes
    with [undefined].  The clock ([Date.now()]) is an explicit argument.

    One effect of rounding is more than a last-bit difference and is kept
    out of the statements: in doubles [1 - Math.exp(-x)] is exactly 1 once
    [x] exceeds about 37.4, so a smoothed value then lands on its target
    exactly.  The contract of [smoothApproach] is therefore stated with the
    end points included, and the statement about the idle turbine, which
    needs the smoothed speed to stay off its target of 0, bounds the tick. *)

From Stdlib Require Import Reals Lra Psatz List Bool.
From Stdlib Require Import ZArith Lia.
From Stdlib Require String Ascii DecimalString.
Import ListNotations.
Import String.StringSyntax Ascii.AsciiSyntax.
Delimit Scope char_scope with char.
Open Scope R_scope.

(** ** JavaScript values *)

Inductive jsnum : Type :=
| NaN
| Num (r : R).

Definition Rgtb (a b : R) : bool := if Rlt_dec b a then true else false.
Definition Rltb (a b : R) : bool := if Rlt_dec a b then true else false.
Definition Rzerob (a : R) : bool := if Req_dec_T a 0 then true else false.

(** [v || d] where [d] is a number: [undefined], [NaN] and [0] are falsy. *)
Definition orElse (v : option jsnum) (d : R) : R :=
  match v with
  | Some (Num r) => if Rzerob r then d else r
  | _ => d
  end.

(** [v || d] for an optional boolean. *)
Definition orElseB (v : option bool) (d : bool) : bool :=
  match v with
  | Some true => true
  | _ => d
  end.

(** ** The SystemState object ([types/index.ts]) *)

Inductive TurbineStatus := running | stopped | emergency.
Inductive GeneratorStatus := online | offline | synchronizing.
Inductive CondenserStatus := cs_normal | cs_high_temp | cs_low_pressure.
Inductive HeaterStatus := hs_normal | hs_high_temp | hs_low_flow.

(** The keys of [SystemState], in the order of the interface. *)
Inductive field : Type :=
| mainSteamFlow | mainSteamPressure | mainSteamTemp | turbineSpeed
| condensateWaterFlow | oilTankLevel | load | frequency
| targetMainSteamFlow | targetMainSteamPressure | targetMainSteamTemp
| targetTurbineSpeed | targetLoad
| previousMainSteamFlow | previousMainSteamPressure | previousMainSteamTemp
| previousTurbineSpeed | previousLoad
| lastUpdateTime
| temperature | pressure | turbineRPM | powerOutput
| steamOutTurbineTemp | surgeTankTemp | condenserOutTemp | coolingWaterTemp
| condenserPressure | feedwaterTemp | feedwaterPressure
| heater1Temp | heater2Temp | heater3Temp | heater4Temp
| generatorTemp | oilCoolerTemp | circulatingWaterFlow | generatorAirCoolerTemp
| totalWattageProduced | coalLoadingRate | combustionSpeed | waterLoadingRate
| waterBoilingRate | steamGenerationRate | fuelConsumptionRate | efficiency
| emissionsRate | heatRate
| isRunning | startTime | totalEarnings
| trip | shutdownTime
| turbineStatus | generatorStatus | condenserStatus | heaterStatus.

(** The type of the value stored under each key; [startTime] is
    [number | null], with [None] for [null]. *)
Definition ftype (f : field) : Type :=
  match f with
  | isRunning | trip => bool
  | startTime => option R
  | turbineStatus => TurbineStatus
  | generatorStatus => GeneratorStatus
  | condenserStatus => CondenserStatus
  | heaterStatus => HeaterStatus
  | _ => jsnum
  end.

(** [Partial<SystemState>]: every key is optional; [None] is an absent key. *)
Definition PartialState : Type := forall f : field, option (ftype f).

(** Object spread [{ ...a, ...b }]: the keys of [b] override those of [a]. *)
Definition spread (a b : PartialState) : PartialState :=
  fun f => match b f with
           | Some v => Some v
           | None => a f
           end.

(** [currentState?.f] *)
Definition getOpt (currentState : option PartialState) (f : field)
  : option (ftype f) :=
  match currentState with
  | Some st => st f
  | None => None
  end.

(** ** Constants of [utils/calculation.ts] *)

Definition BOILER_EFFICIENCY_BASE : R := 0.85.
Definition TURBINE_EFFICIENCY_BASE : R := 0.88.
Definition GENERATOR_EFFICIENCY : R := 0.98.
Definition CONDENSER_PRESSURE_BASE : R := 5.0.
Definition STEAM_TEMP_BASE : R := 540.
Definition STEAM_PRESSURE_BASE : R := 16.5.
Definition COAL_CALORIFIC_VALUE : R := 25000.

(** The entries of [SMOOTH_FACTORS] that the engine reads. *)
Module SMOOTH_FACTORS.
Definition steamTurbine : R := 0.04.
Definition steamFlow : R := 0.05.
Definition rpm : R := 0.03.
Definition pressure : R := 0.05.
Definition temperature : R := 0.04.
End SMOOTH_FACTORS.

(** [smoothApproach]; the store file defines the same function with the
    same body.  Over the reals the weight [1 - exp (- smoothFactor * dt)]
    stays below 1; in doubles it is exactly 1 for [smoothFactor * dt] above
    about 37.4, and the function then returns [target]. *)
Definition smoothApproach (current target smoothFactor dt : R) : R :=
  current + (target - current) * (1 - exp (- smoothFactor * dt)).


(** ** Lever vector: [Record<LeverType, number>] *)

Module Lever.
Record t : Type := mk {
  coal_feed : R;
  feedwater : R;
  boiler_pressure : R;
  steam_turbine : R;
  condenser : R;
  cooling_water : R;
  air_supply : R;
  fuel_injection : R;
  steam_flow : R;
  water_level : R;
  exhaust_gas : R;
  emergency_valve : R
}.

(** [{ ...leverValues, coal_feed: 0, steam_turbine: 0 }] *)
Definition forceZero (lv : t) : t :=
  mk 0 (feedwater lv) (boiler_pressure lv) 0 (condenser lv)
     (cooling_water lv) (air_supply lv) (fuel_injection lv) (steam_flow lv)
     (water_level lv) (exhaust_gas lv) (emergency_valve lv).
End Lever.

(** ** [CalculationParams]: twelve required numbers and ten optional ones *)

Module Params.
Record t : Type := mk {
  coalFeed : R;
  feedwater : R;
  boilerPressure : R;
  steamTurbine : R;
  condenser : R;
  coolingWater : R;
  airSupply : R;
  fuelInjection : R;
  steamFlow : R;
  waterLevel : R;
  exhaustGas : R;
  emergencyValve : R;
  mainSteamPressure : option R;
  mainSteamTemp : option R;
  turbineSpeed : option R;
  generatorTemp : option R;
  heater1Temp : option R;
  heater2Temp : option R;
  heater3Temp : option R;
  heater4Temp : option R;
  condenserOutTemp : option R;
  load : option R
}.

(** The spreads [{ ...params, k: v }] used by [calculateSystemState]. *)
Definition set_steamFlow (p : t) (v : R) : t :=
  mk (coalFeed p) (feedwater p) (boilerPressure p) (steamTurbine p)
     (condenser p) (coolingWater p) (airSupply p) (fuelInjection p)
     v (waterLevel p) (exhaustGas p) (emergencyValve p)
     (mainSteamPressure p) (mainSteamTemp p) (turbineSpeed p)
     (generatorTemp p) (heater1Temp p) (heater2Temp p) (heater3Temp p)
     (heater4Temp p) (condenserOutTemp p) (load p).

Definition set_mainSteamPressure (p : t) (v : R) : t :=
  mk (coalFeed p) (feedwater p) (boilerPressure p) (steamTurbine p)
     (condenser p) (coolingWater p) (airSupply p) (fuelInjection p)
     (steamFlow p) (waterLevel p) (exhaustGas p) (emergencyValve p)
     (Some v) (mainSteamTemp p) (turbineSpeed p)
     (generatorTemp p) (heater1Temp p) (heater2Temp p) (heater3Temp p)
     (heater4Temp p) (condenserOutTemp p) (load p).

Definition set_mainSteamTemp (p : t) (v : R) : t :=
  mk (coalFeed p) (feedwater p) (boilerPressure p) (steamTurbine p)
     (condenser p) (coolingWater p) (airSupply p) (fuelInjection p)
     (steamFlow p) (waterLevel p) (exhaustGas p) (emergencyValve p)
     (mainSteamPressure p) (Some v) (turbineSpeed p)
     (generatorTemp p) (heater1Temp p) (heater2Temp p) (heater3Temp p)
     (heater4Temp p) (condenserOutTemp p) (load p).

Definition set_turbineSpeed (p : t) (v : R) : t :=
  mk (coalFeed p) (feedwater p) (boilerPressure p) (steamTurbine p)
     (condenser p) (coolingWater p) (airSupply p) (fuelInjection p)
     (steamFlow p) (waterLevel p) (exhaustGas p) (emergencyValve p)
     (mainSteamPressure p) (mainSteamTemp p) (Some v)
     (generatorTemp p) (heater1Temp p) (heater2Temp p) (heater3Temp p)
     (heater4Temp p) (condenserOutTemp p) (load p).

Definition set_condenserOutTemp (p : t) (v : R) : t :=
  mk (coalFeed p) (feedwater p) (boilerPressure p) (steamTurbine p)
     (condenser p) (coolingWater p) (airSupply p) (fuelInjection p)
     (steamFlow p) (waterLevel p) (exhaustGas p) (emergencyValve p)
     (mainSteamPressure p) (mainSteamTemp p) (turbineSpeed p)
     (generatorTemp p) (heater1Temp p) (heater2Temp p) (heater3Temp p)
     (heater4Temp p) (Some v) (load p).

Definition set_load (p : t) (v : R) : t :=
  mk (coalFeed p) (feedwater p) (boilerPressure p) (steamTurbine p)
     (condenser p) (coolingWater p) (airSupply p) (fuelInjection p)
     (steamFlow p) (waterLevel p) (exhaustGas p) (emergencyValve p)
     (mainSteamPressure p) (mainSteamTemp p) (turbineSpeed p)
     (generatorTemp p) (heater1Temp p) (heater2Temp p) (heater3Temp p)
     (heater4Temp p) (condenserOutTemp p) (Some v).

(** The [params] literal of [calculateSystemState]: the optional keys
    are absent. *)
Definition ofLevers (lv : Lever.t) : t :=
  mk (Lever.coal_feed lv) (Lever.feedwater lv) (Lever.boiler_pressure lv)
     (Lever.steam_turbine lv) (Lever.condenser lv) (Lever.cooling_water lv)
     (Lever.air_supply lv) (Lever.fuel_injection lv) (Lever.steam_flow lv)
     (Lever.water_level lv) (Lever.exhaust_gas lv) (Lever.emergency_valve lv)
     None None None None None None None None None None.
End Params.

(** A destructured optional parameter with a default, [{ k = d } = params]:
    the default replaces [undefined] only. *)
Definition withDefault (v : option R) (d : R) : R :=
  match v with
  | Some r => r
  | None => d
  end.

(** Arithmetic on an optional parameter read without a default: [undefined]
    turns the whole expression, and the [Math.max]/[Math.min] around it,
    into [NaN]. *)
Definition onNumber (v : option R) (k : R -> R) : jsnum :=
  match v with
  | Some r => Num (k r)
  | None => NaN
  end.

(** ** The indicator functions *)

Definition calculateBoilerEfficiency (params : Params.t) : R :=
  let coalFeed := Params.coalFeed params in
  let airSupply := Params.airSupply params in
  let waterLevel := Params.waterLevel params in
  let airFuelRatio := airSupply / Rmax coalFeed 1 in
  let optimalRatio := 15.5 in
  let ratioEfficiency :=
    Rmax 0.7 (1 - Rabs (airFuelRatio - optimalRatio) / optimalRatio) in
  let levelEfficiency := Rmin 1 (waterLevel / 50) in
  let feedEfficiency := Rmin 1 (coalFeed / 80) in
  BOILER_EFFICIENCY_BASE * ratioEfficiency * levelEfficiency * feedEfficiency.

Definition calculateSteamGeneration (params : Params.t) : R :=
  let coalEnergy := Params.coalFeed params * COAL_CALORIFIC_VALUE in
  let combustionEfficiency := calculateBoilerEfficiency params in
  let heatToSteam := coalEnergy * combustionEfficiency in
  let steamGeneration := heatToSteam / 2257 in
  steamGeneration.

Definition calculateFrequency (load baseLoad : R) : R :=
  let loadRatio := load / baseLoad in
  let frequencyDeviation := (loadRatio - 1) * 0.5 in
  50 + frequencyDeviation.

(** [calculateFrequency(load)] with the default [baseLoad = 600]. *)
Definition calculateFrequencyFromLoad (load : R) : R :=
  calculateFrequency load 600.

(** [Date.now()] is the argument [now]. *)
Definition calculateOilTankLevel (params : Params.t) (now : R) : R :=
  let baseLevel := 80 in
  let variation := sin (now / 10000) * 5 in
  Rmax 60 (Rmin 95 (baseLevel + variation)).

Definition calculateSteamOutTurbineTemp (params : Params.t) : R :=
  let mainSteamTemp := withDefault (Params.mainSteamTemp params) STEAM_TEMP_BASE in
  let turbineSpeed := withDefault (Params.turbineSpeed params) 0 in
  let tempDrop := (turbineSpeed / 3000) * 200 in
  let outletTemp := mainSteamTemp - tempDrop in
  Rmax 40 outletTemp.

Definition calculateSurgeTankTemp (params : Params.t) : R :=
  let mainSteamTemp := withDefault (Params.mainSteamTemp params) STEAM_TEMP_BASE in
  let tempDrop := (Params.steamFlow params / 100) * 20 in
  let surgeTemp := mainSteamTemp - tempDrop in
  Rmax 200 surgeTemp.

Definition calculateCondenserOutTemp (params : Params.t) : R :=
  let baseTemp := 40 in
  let coolingEffect := (Params.coolingWater params / 100) * 20 in
  let outletTemp := baseTemp - coolingEffect in
  Rmax 20 outletTemp.

Definition calculateCoolingWaterTemp (params : Params.t) : R :=
  let condenserOutTemp := withDefault (Params.condenserOutTemp params) 40 in
  let waterTemp := condenserOutTemp + 5 in
  Rmax 25 waterTemp.

Definition calculateCondenserPressure (params : Params.t) : R :=
  let basePressure := CONDENSER_PRESSURE_BASE in
  let coolingEffect := (Params.coolingWater params / 100) * 2 in
  let pressure := basePressure - coolingEffect in
  Rmax 1 pressure.

Definition calculateFeedwaterTemp (params : Params.t) : jsnum :=
  onNumber (Params.mainSteamTemp params) (fun mainSteamTemp =>
    let baseTemp := 150 in
    let steamEffect := (mainSteamTemp / STEAM_TEMP_BASE) * 50 in
    let feedwaterTemp := baseTemp + steamEffect in
    Rmax 50 (Rmin 250 feedwaterTemp)).

Definition calculateFeedwaterPressure (params : Params.t) : jsnum :=
  onNumber (Params.mainSteamPressure params) (fun mainSteamPressure =>
    let pressureRatio := Params.feedwater params / 100 in
    let feedwaterPressure := mainSteamPressure * pressureRatio * 1.2 in
    Rmax 0.1 feedwaterPressure).

Record HeaterTemps : Type := mkHeaterTemps {
  h1 : jsnum; h2 : jsnum; h3 : jsnum; h4 : jsnum
}.

Definition calculateHeaterTemps (params : Params.t) : HeaterTemps :=
  let mainSteamTemp := Params.mainSteamTemp params in
  mkHeaterTemps
    (onNumber mainSteamTemp (fun t => t * 0.9))
    (onNumber mainSteamTemp (fun t => t * 0.7))
    (onNumber mainSteamTemp (fun t => t * 0.5))
    (onNumber mainSteamTemp (fun t => t * 0.3)).

Definition calculateGeneratorTemp (params : Params.t) : jsnum :=
  onNumber (Params.load params) (fun load =>
    let baseTemp := 60 in
    let loadEffect := (load / 600) * 40 in
    let generatorTemp := baseTemp + loadEffect in
    Rmax 40 (Rmin 100 generatorTemp)).

Definition calculateOilCoolerTemp (params : Params.t) : jsnum :=
  onNumber (Params.turbineSpeed params) (fun turbineSpeed =>
    let baseTemp := 45 in
    let speedEffect := (turbineSpeed / 3000) * 15 in
    let oilTemp := baseTemp + speedEffect in
    Rmax 35 (Rmin 70 oilTemp)).

Definition calculateTotalWattageProduced (powerOutput durationSeconds : R) : R :=
  powerOutput * durationSeconds / 3600.

Definition calculateCoalLoadingRate (params : Params.t) : R :=
  Params.coalFeed params * 10.

Definition calculateCombustionSpeed (params : Params.t) : R :=
  let baseSpeed := 50 in
  let coalEffect := (Params.coalFeed params / 100) * 30 in
  let airEffect := (Params.airSupply params / 100) * 20 in
  let combustionSpeed := baseSpeed + coalEffect + airEffect in
  Rmax 0 (Rmin 100 combustionSpeed).

Definition calculateWaterLoadingRate (params : Params.t) : R :=
  Params.feedwater params * 5.

Definition calculateWaterBoilingRate (params : Params.t) : R :=
  let heatInput := Params.coalFeed params * COAL_CALORIFIC_VALUE in
  let waterAvailable := Params.feedwater params * 1000 in
  let boilingRate := Rmin (heatInput / 2257) waterAvailable in
  Rmax 0 boilingRate.

Definition calculateSteamGenerationRate (params : Params.t) : R :=
  calculateSteamGeneration params.

Definition calculateFuelConsumptionRate (params : Params.t) : R :=
  Params.coalFeed params * 0.1.

(** [electricalOutput / heatInput] divides by zero when [coalFeed] is 0:
    the quotient is then [NaN] (0/0), [+Infinity] or [-Infinity], and the
    clamp to [0, 50] maps these to [NaN], 50 and 0. *)
Definition calculateEfficiency (params : Params.t) : jsnum :=
  match Params.load params with
  | None => NaN
  | Some l =>
      let load := l in
      let electricalOutput := load * 3600 in
      let heatInput := Params.coalFeed params * COAL_CALORIFIC_VALUE in
      if Rzerob heatInput then
        if Rzerob electricalOutput then NaN
        else if Rgtb electricalOutput 0 then Num 50 else Num 0
      else
        let efficiency := (electricalOutput / heatInput) * 100 in
        Num (Rmax 0 (Rmin 50 efficiency))
  end.

Definition calculateEmissionsRate (params : Params.t) : R :=
  let combustionEfficiency := calculateBoilerEfficiency params in
  let baseEmissions := Params.coalFeed params * 2 in
  let efficiencyEffect := 1 - combustionEfficiency in
  let emissions := baseEmissions * efficiencyEffect in
  Rmax 0 emissions.

Definition calculateHeatRate (params : Params.t) : jsnum :=
  onNumber (Params.load params) (fun load =>
    let fuelConsumption := Params.coalFeed params * COAL_CALORIFIC_VALUE in
    let electricalOutput := load * 3600 in
    let heatRate := fuelConsumption / Rmax electricalOutput 1 in
    Rmax 8000 (Rmin 12000 heatRate)).

(** ** The three stages *)

(** Boiler stage.  The locals of step 7 (water level dynamics: [newLevel]
    from the constant [currentLevel = 60]) are computed by the source and
    dropped; they are not part of the returned object. *)
Definition calculateBoilerResponse
  (params : Params.t) (currentState : PartialState) (deltaTime : R)
  : PartialState :=
  let currentTemp := orElse (currentState mainSteamTemp) STEAM_TEMP_BASE in
  let currentPressure :=
    orElse (currentState mainSteamPressure) STEAM_PRESSURE_BASE in
  let currentFlow := orElse (currentState mainSteamFlow) 0 in
  let fuelRate := Params.coalFeed params / 100 in
  let airRate := Params.airSupply params / 100 in
  let stoichiometricRatio := 15.5 in
  let actualRatio := airRate / Rmax fuelRate 0.01 in
  let ratioEfficiency :=
    Rmax 0.4
      (1 - Rabs (actualRatio - stoichiometricRatio) / stoichiometricRatio) in
  let combustionEfficiency := ratioEfficiency * (0.7 + fuelRate * 0.3) in
  let heatInput := fuelRate * COAL_CALORIFIC_VALUE * combustionEfficiency in
  let heatLoss := currentTemp * 0.02 * deltaTime in
  let netHeat := heatInput - heatLoss in
  let tempChange := (netHeat / (4.186 * 1000)) * deltaTime / 3600 in
  let targetTemp := currentTemp + tempChange in
  let newTemp :=
    smoothApproach currentTemp targetTemp SMOOTH_FACTORS.temperature deltaTime in
  let saturationPressure := (newTemp / 100) ^ 4 * 0.1 in
  let targetPressure := saturationPressure * (1 + fuelRate * 0.5) in
  let newPressure :=
    smoothApproach currentPressure targetPressure SMOOTH_FACTORS.pressure
      deltaTime in
  let maxSteamFlow := fuelRate * 500 in
  let steamEfficiency :=
    Rmin 1 (newTemp / STEAM_TEMP_BASE) * combustionEfficiency in
  let targetSteamFlow := maxSteamFlow * steamEfficiency in
  let newSteamFlow :=
    smoothApproach currentFlow targetSteamFlow SMOOTH_FACTORS.steamFlow
      deltaTime in
  fun f =>
    match f as f0 return option (ftype f0) with
    | mainSteamFlow => Some (Num newSteamFlow)
    | mainSteamTemp => Some (Num newTemp)
    | mainSteamPressure => Some (Num newPressure)
    | targetMainSteamFlow => Some (Num targetSteamFlow)
    | targetMainSteamTemp => Some (Num (newTemp + tempChange))
    | targetMainSteamPressure =>
        Some (Num (saturationPressure * (1 + fuelRate * 0.5)))
    | _ => None
    end.

(** Step 6 of the turbine stage, [const frequency = 50 + (newRPM - 3000) / 60]:
    a local that the stage computes and does not return. *)
Definition turbineStageFrequency (newRPM : R) : R :=
  50 + (newRPM - 3000) / 60.

Definition calculateTurbineResponse
  (params : Params.t) (currentState : PartialState) (deltaTime : R)
  : PartialState :=
  let steamTurbine := Params.steamTurbine params in
  let steamFlow := Params.steamFlow params in
  let mainSteamPressure :=
    orElse (currentState mainSteamPressure) STEAM_PRESSURE_BASE in
  let mainSteamTemp := orElse (currentState mainSteamTemp) STEAM_TEMP_BASE in
  let mainSteamFlow := orElse (currentState mainSteamFlow) 0 in
  let currentRPM := orElse (currentState turbineSpeed) 1800 in
  let currentLoad := orElse (currentState load) 0 in
  let valveOpening := steamTurbine / 100 in
  let loadDemand := steamFlow / 100 in
  let steamEnthalpy := 2.0 * mainSteamTemp + 2500 in
  let condenserEnthalpy := 2.0 * 40 + 2500 in
  let availableWork := steamEnthalpy - condenserEnthalpy in
  let pressureRatio := mainSteamPressure / 5.0 in
  let isentropicEfficiency :=
    TURBINE_EFFICIENCY_BASE * (0.8 + valveOpening * 0.2) in
  let actualEfficiency := isentropicEfficiency * Rmin 1 (pressureRatio / 3) in
  let steamPower := mainSteamFlow * availableWork * actualEfficiency / 3600 in
  let maxMechanicalPower := steamPower * valveOpening in
  let targetRPM := 3000 * (maxMechanicalPower / 600) in
  let newRPM :=
    smoothApproach currentRPM targetRPM SMOOTH_FACTORS.rpm deltaTime in
  let maxElectricalPower := maxMechanicalPower * GENERATOR_EFFICIENCY in
  let targetLoad := Rmin maxElectricalPower (loadDemand * 600) in
  let newLoad :=
    smoothApproach currentLoad targetLoad SMOOTH_FACTORS.steamTurbine
      deltaTime in
  fun f =>
    match f as f0 return option (ftype f0) with
    | turbineSpeed => Some (Num newRPM)
    | load => Some (Num newLoad)
    | targetTurbineSpeed => Some (Num targetRPM)
    | targetLoad => Some (Num targetLoad)
    | _ => None
    end.

Definition calculateWaterSystemResponse
  (params : Params.t) (currentState : PartialState) (deltaTime : R)
  : PartialState :=
  let load := orElse (currentState load) 0 in
  let cool := Params.coolingWater params / 50 in
  let condensateFlow := load * 2 in
  let circulatingWater := 1000 * cool in
  fun f =>
    match f as f0 return option (ftype f0) with
    | condensateWaterFlow => Some (Num condensateFlow)
    | circulatingWaterFlow => Some (Num circulatingWater)
    | _ => None
    end.

(** ** [calculateSystemState] *)

(** [const waterLevel = 60], the local of [calculateSystemState] that the
    trip check reads. *)
Definition waterLevel : R := 60.

(** The condition of the trip [if]. *)
Definition tripCondition (boilerTemp waterLevel currentTurbineRPM : R) : bool :=
  Rgtb boilerTemp 620 || Rltb waterLevel 8 || Rgtb waterLevel 95
  || Rgtb currentTurbineRPM 3600.

(** Lines "Check for trip conditions": the value of [trip] after the [if]. *)
Definition tripCheck (currentState : option PartialState) : bool :=
  let boilerTemp := orElse (getOpt currentState mainSteamTemp) STEAM_TEMP_BASE in
  let currentTurbineRPM := orElse (getOpt currentState turbineSpeed) 1800 in
  let trip := orElseB (getOpt currentState trip) false in
  if tripCondition boilerTemp waterLevel currentTurbineRPM then true else trip.

(** The guard [currentState?.shutdownTime && currentState.shutdownTime > 0]:
    the running countdown when the guard holds. *)
Definition shutdownCountdown (currentState : option PartialState) : option R :=
  match getOpt currentState shutdownTime with
  | Some (Num t) => if negb (Rzerob t) && Rgtb t 0 then Some t else None
  | _ => None
  end.

(** The object returned in shutdown mode; [timer] is
    [currentState.shutdownTime]. *)
Definition shutdownTick
  (currentState : option PartialState) (timer deltaTime : R) : PartialState :=
  let boilerTemp := orElse (getOpt currentState mainSteamTemp) STEAM_TEMP_BASE in
  let shutdownTime := timer - deltaTime in
  let shutdownFactor := Rmax 0 (shutdownTime / 10) in
  fun f =>
    match f as f0 return option (ftype f0) with
    | trip => Some true
    | shutdownTime => Some (Num (Rmax 0 shutdownTime))
    | mainSteamTemp => Some (Num (boilerTemp * 0.995))
    | turbineSpeed =>
        Some (Num (orElse (getOpt currentState turbineSpeed) 1800 * 0.98))
    | load => Some (Num (orElse (getOpt currentState load) 0 * shutdownFactor))
    | mainSteamFlow =>
        Some (Num (orElse (getOpt currentState mainSteamFlow) 0 * shutdownFactor))
    | mainSteamPressure =>
        Some (Num (orElse (getOpt currentState mainSteamPressure)
                     STEAM_PRESSURE_BASE * shutdownFactor))
    | _ => None
    end.

(** The object literal of [currentState || { ... }], used when no state is
    passed. *)
Definition defaultCurrent : PartialState :=
  fun f =>
    match f as f0 return option (ftype f0) with
    | mainSteamFlow => Some (Num 0)
    | mainSteamPressure => Some (Num STEAM_PRESSURE_BASE)
    | mainSteamTemp => Some (Num STEAM_TEMP_BASE)
    | turbineSpeed => Some (Num 0)
    | load => Some (Num 0)
    | condensateWaterFlow => Some (Num 0)
    | circulatingWaterFlow => Some (Num 1000)
    | _ => None
    end.

Definition currentOrDefault (currentState : option PartialState)
  : PartialState :=
  match currentState with
  | Some st => st
  | None => defaultCurrent
  end.

Definition jsLt (a : jsnum) (b : R) : bool :=
  match a with
  | Num r => Rltb r b
  | NaN => false
  end.

(** The body of [calculateSystemState] from [const params] on; [leverValues]
    is the vector after the trip override and [trip] the flag after the trip
    check. *)
Definition normalTick
  (leverValues : Lever.t) (currentState : option PartialState)
  (deltaTime now : R) (trip : bool) : PartialState :=
  let params := Params.ofLevers leverValues in
  let current := currentOrDefault currentState in
  let boilerResponse := calculateBoilerResponse params current deltaTime in
  let turbineResponse :=
    calculateTurbineResponse params (spread current boilerResponse) deltaTime in
  let waterResponse :=
    calculateWaterSystemResponse params
      (spread (spread current boilerResponse) turbineResponse) deltaTime in
  let mainSteamFlow := orElse (boilerResponse mainSteamFlow) 0 in
  let mainSteamPressure :=
    orElse (boilerResponse mainSteamPressure) STEAM_PRESSURE_BASE in
  let mainSteamTemp := orElse (boilerResponse mainSteamTemp) STEAM_TEMP_BASE in
  let turbineSpeed := orElse (turbineResponse turbineSpeed) 0 in
  let load := orElse (turbineResponse load) 0 in
  let condensateWaterFlow := orElse (waterResponse condensateWaterFlow) 0 in
  let circulatingWaterFlow :=
    orElse (waterResponse circulatingWaterFlow) 1000 in
  let frequency := calculateFrequencyFromLoad load in
  let oilTankLevel := calculateOilTankLevel params now in
  let steamOutTurbineTemp :=
    calculateSteamOutTurbineTemp
      (Params.set_turbineSpeed (Params.set_mainSteamTemp params mainSteamTemp)
         turbineSpeed) in
  let surgeTankTemp :=
    calculateSurgeTankTemp
      (Params.set_steamFlow (Params.set_mainSteamTemp params mainSteamTemp)
         mainSteamFlow) in
  let condenserOutTemp := calculateCondenserOutTemp params in
  let coolingWaterTemp :=
    calculateCoolingWaterTemp
      (Params.set_condenserOutTemp params condenserOutTemp) in
  let condenserPressure := calculateCondenserPressure params in
  let feedwaterTemp := calculateFeedwaterTemp params in
  let feedwaterPressure :=
    calculateFeedwaterPressure
      (Params.set_mainSteamPressure params mainSteamPressure) in
  let heaterTemps :=
    calculateHeaterTemps (Params.set_mainSteamTemp params mainSteamTemp) in
  let generatorTemp := calculateGeneratorTemp (Params.set_load params load) in
  let oilCoolerTemp :=
    calculateOilCoolerTemp (Params.set_turbineSpeed params turbineSpeed) in
  let coalLoadingRate := calculateCoalLoadingRate params in
  let combustionSpeed := calculateCombustionSpeed params in
  let waterLoadingRate := calculateWaterLoadingRate params in
  let waterBoilingRate := calculateWaterBoilingRate params in
  let steamGenerationRate := calculateSteamGenerationRate params in
  let fuelConsumptionRate := calculateFuelConsumptionRate params in
  let efficiency := calculateEfficiency (Params.set_load params load) in
  let emissionsRate := calculateEmissionsRate params in
  let heatRate := calculateHeatRate (Params.set_load params load) in
  let totalWattageProduced := calculateTotalWattageProduced load deltaTime in
  let turbineStatus := if Rgtb turbineSpeed 0 then running else stopped in
  let generatorStatus := if Rgtb load 0 then online else offline in
  let condenserStatus :=
    if Rltb condenserOutTemp 50 then cs_normal else cs_high_temp in
  let heaterStatus :=
    if jsLt (h1 heaterTemps) 200 then hs_normal else hs_high_temp in
  fun f =>
    match f as f0 return option (ftype f0) with
    | mainSteamFlow => Some (Num mainSteamFlow)
    | mainSteamPressure => Some (Num mainSteamPressure)
    | mainSteamTemp => Some (Num mainSteamTemp)
    | turbineSpeed => Some (Num turbineSpeed)
    | load => Some (Num load)
    | frequency => Some (Num frequency)
    | condensateWaterFlow => Some (Num condensateWaterFlow)
    | circulatingWaterFlow => Some (Num circulatingWaterFlow)
    | oilTankLevel => Some (Num oilTankLevel)
    | steamOutTurbineTemp => Some (Num steamOutTurbineTemp)
    | surgeTankTemp => Some (Num surgeTankTemp)
    | condenserOutTemp => Some (Num condenserOutTemp)
    | coolingWaterTemp => Some (Num coolingWaterTemp)
    | condenserPressure => Some (Num condenserPressure)
    | feedwaterTemp => Some feedwaterTemp
    | feedwaterPressure => Some feedwaterPressure
    | heater1Temp => Some (h1 heaterTemps)
    | heater2Temp => Some (h2 heaterTemps)
    | heater3Temp => Some (h3 heaterTemps)
    | heater4Temp => Some (h4 heaterTemps)
    | generatorTemp => Some generatorTemp
    | oilCoolerTemp => Some oilCoolerTemp
    | coalLoadingRate => Some (Num coalLoadingRate)
    | combustionSpeed => Some (Num combustionSpeed)
    | waterLoadingRate => Some (Num waterLoadingRate)
    | waterBoilingRate => Some (Num waterBoilingRate)
    | steamGenerationRate => Some (Num steamGenerationRate)
    | fuelConsumptionRate => Some (Num fuelConsumptionRate)
    | efficiency => Some efficiency
    | emissionsRate => Some (Num emissionsRate)
    | heatRate => Some heatRate
    | totalWattageProduced => Some (Num totalWattageProduced)
    | trip => Some trip
    | turbineStatus => Some turbineStatus
    | generatorStatus => Some generatorStatus
    | condenserStatus => Some condenserStatus
    | heaterStatus => Some heaterStatus
    | _ => None
    end.

(** [deltaTime] is passed explicitly; a caller that omits it gets 0.1. *)
Definition calculateSystemState
  (leverValues : Lever.t) (currentState : option PartialState)
  (deltaTime now : R) : PartialState :=
  let trip := tripCheck currentState in
  match shutdownCountdown currentState with
  | Some timer => shutdownTick currentState timer deltaTime
  | None =>
      let leverValues :=
        if trip then Lever.forceZero leverValues else leverValues in
      normalTick leverValues currentState deltaTime now trip
  end.

Definition calculateEarnings (powerOutput durationSeconds : R) : R :=
  let powerMWh := powerOutput * durationSeconds / 3600 in
  let ratePerMWh := 1000000 in
  powerMWh * ratePerMWh.

(** ** The second copy of [utils/calculation.ts]

    The file that smooths with [interpolateValue] repeats the trip check of
    [calculateSystemState] word for word and has its own revenue function. *)

Module CalculationB.
Definition waterLevel : R := 60.

Definition tripCheck (currentState : option PartialState) : bool :=
  let boilerTemp :=
    orElse (getOpt currentState mainSteamTemp) STEAM_TEMP_BASE in
  let currentTurbineRPM := orElse (getOpt currentState turbineSpeed) 1800 in
  let trip := orElseB (getOpt currentState trip) false in
  if Rgtb boilerTemp 620 || Rltb waterLevel 8 || Rgtb waterLevel 95
     || Rgtb currentTurbineRPM 3600
  then true else trip.

Definition calculateEarnings (powerOutput durationSeconds : R) : R :=
  let electricityPrice := 0.01 in
  let energyKWh := (powerOutput * 1000) * (durationSeconds / 3600) in
  let earnings := energyKWh * electricityPrice in
  Rmax 0 earnings.
End CalculationB.

(** ** The store ([useSimulatorStore])

    This part is the [systemState] half of the store.  The lever registry
    is represented here by the lever vector that the debounced recomputation
    reads from it; [updateLever] clamps every value into
    [minValue, maxValue] before it is stored.  The registry itself is
    [LeverStore], further down. *)

Definition clampLever (minValue maxValue value : R) : R :=
  Rmax minValue (Rmin maxValue value).

Section Store.

(** [Date.now()] when the module is loaded ([lastUpdateTime] of the
    initial state). *)
Variable loadTime : R.

Definition initialSystemState : PartialState :=
  fun f =>
    match f as f0 return option (ftype f0) with
    | mainSteamFlow | mainSteamPressure | mainSteamTemp | turbineSpeed
    | condensateWaterFlow | oilTankLevel | load | frequency => Some (Num 0)
    | temperature | pressure | turbineRPM | powerOutput => Some (Num 0)
    | steamOutTurbineTemp | surgeTankTemp | condenserOutTemp
    | coolingWaterTemp | condenserPressure | feedwaterTemp
    | feedwaterPressure | heater1Temp | heater2Temp | heater3Temp
    | heater4Temp | generatorTemp | oilCoolerTemp | circulatingWaterFlow
    | generatorAirCoolerTemp => Some (Num 0)
    | totalWattageProduced | coalLoadingRate | combustionSpeed
    | waterLoadingRate | waterBoilingRate | steamGenerationRate
    | fuelConsumptionRate | efficiency | emissionsRate | heatRate =>
        Some (Num 0)
    | targetMainSteamFlow => Some (Num 0)
    | targetMainSteamPressure => Some (Num 16.5)
    | targetMainSteamTemp => Some (Num 540)
    | targetTurbineSpeed => Some (Num 0)
    | targetLoad => Some (Num 0)
    | previousMainSteamFlow => Some (Num 0)
    | previousMainSteamPressure => Some (Num 16.5)
    | previousMainSteamTemp => Some (Num 540)
    | previousTurbineSpeed => Some (Num 0)
    | previousLoad => Some (Num 0)
    | lastUpdateTime => Some (Num loadTime)
    | isRunning => Some false
    | startTime => Some None
    | totalEarnings => Some (Num 0)
    | trip => Some false
    | shutdownTime => Some (Num 0)
    | turbineStatus => Some stopped
    | generatorStatus => Some offline
    | condenserStatus => Some cs_normal
    | heaterStatus => Some hs_normal
    end.

(** [state.systemState.startTime ? x : y] and [startTime || d]: [null]
    and 0 are falsy. *)
Definition startTimeOf (st : PartialState) : option R :=
  match st startTime with
  | Some (Some t) => if Rzerob t then None else Some t
  | _ => None
  end.

(** The body of the [setTimeout] callback of [updateLever]: the
    recomputation of the state from the lever vector.  The three readings
    of [Date.now()] are [currentTime], [oilTime] (inside
    [calculateOilTankLevel]) and [earnTime]. *)
Definition recompute
  (leverValues : Lever.t) (currentTime oilTime earnTime : R)
  (st : PartialState) : PartialState :=
  let lastUpdateTime := orElse (st lastUpdateTime) currentTime in
  let deltaTime := (currentTime - lastUpdateTime) / 1000 in
  let newSystemState :=
    calculateSystemState leverValues (Some st) deltaTime oilTime in
  let durationSeconds :=
    match startTimeOf st with
    | Some t => (earnTime - t) / 1000
    | None => 0
    end in
  let earnings :=
    calculateEarnings (orElse (newSystemState powerOutput) 0)
      durationSeconds in
  let totalWattageProduced :=
    orElse (newSystemState powerOutput) 0 * 1000 * durationSeconds / 3600
    * 1000 in
  let turbineStatus :=
    if Rgtb (orElse (newSystemState turbineSpeed) 0) 0
    then running else stopped in
  let generatorStatus :=
    if Rgtb (orElse (newSystemState load) 0) 0 then online else offline in
  let condenserStatus :=
    if Rgtb (orElse (newSystemState condenserOutTemp) 0) 70
    then cs_high_temp else cs_normal in
  let heaterStatus :=
    if Rgtb (orElse (newSystemState heater1Temp) 0) 200
    then hs_high_temp else hs_normal in
  spread (spread st newSystemState)
    (fun f =>
       match f as f0 return option (ftype f0) with
       | totalEarnings => Some (Num earnings)
       | totalWattageProduced => Some (Num totalWattageProduced)
       | lastUpdateTime => Some (Num currentTime)
       | turbineStatus => Some turbineStatus
       | generatorStatus => Some generatorStatus
       | condenserStatus => Some condenserStatus
       | heaterStatus => Some heaterStatus
       | _ => None
       end).

Definition startSystem (now : R) (st : PartialState) : PartialState :=
  spread st
    (fun f =>
       match f as f0 return option (ftype f0) with
       | isRunning => Some true
       | startTime =>
           Some (Some match startTimeOf st with
                      | Some t => t
                      | None => now
                      end)
       | _ => None
       end).

Definition stopSystem (st : PartialState) : PartialState :=
  spread st
    (fun f =>
       match f as f0 return option (ftype f0) with
       | isRunning => Some false
       | _ => None
       end).

Definition resetSystem : PartialState :=
  spread initialSystemState
    (fun f =>
       match f as f0 return option (ftype f0) with
       | trip => Some false
       | shutdownTime => Some (Num 0)
       | _ => None
       end).

Definition shutdownSystem (st : PartialState) : PartialState :=
  spread st
    (fun f =>
       match f as f0 return option (ftype f0) with
       | shutdownTime => Some (Num 10)
       | trip => Some true
       | _ => None
       end).

Definition updateEarnings (now : R) (st : PartialState) : PartialState :=
  match st isRunning, startTimeOf st with
  | Some true, Some t =>
      let durationSeconds := (now - t) / 1000 in
      let newEarnings :=
        match st powerOutput with
        | Some (Num p) => Num (calculateEarnings p durationSeconds)
        | _ => NaN
        end in
      spread st
        (fun f =>
           match f as f0 return option (ftype f0) with
           | totalEarnings => Some newEarnings
           | _ => None
           end)
  | _, _ => st
  end.

(** The commands that change [systemState]. *)
Inductive Action : Type :=
| Recompute (leverValues : Lever.t) (currentTime oilTime earnTime : R)
| StartSystem (now : R)
| StopSystem
| ResetSystem
| ShutdownSystem
| UpdateEarnings (now : R).

Definition step (st : PartialState) (a : Action) : PartialState :=
  match a with
  | Recompute leverValues currentTime oilTime earnTime =>
      recompute leverValues currentTime oilTime earnTime st
  | StartSystem now => startSystem now st
  | StopSystem => stopSystem st
  | ResetSystem => resetSystem
  | ShutdownSystem => shutdownSystem st
  | UpdateEarnings now => updateEarnings now st
  end.

Definition run (st : PartialState) (actions : list Action) : PartialState :=
  fold_left step actions st.

Definition isReset (a : Action) : bool :=
  match a with
  | ResetSystem => true
  | _ => false
  end.

End Store.

(** ** States and lever vectors used in the examples *)

(** A state that holds nothing but an overheated boiler. *)
Definition overheated : PartialState :=
  fun f =>
    match f as f0 return option (ftype f0) with
    | mainSteamTemp => Some (Num 700)
    | _ => None
    end.

Definition leversAt (v : R) : Lever.t :=
  Lever.mk v v v v v v v v v v v v.

(** Two lever vectors that agree on every channel except [coal_feed] and
    [steam_turbine]. *)
Definition agreeOffFuelAndThrottle (a b : Lever.t) : Prop :=
  Lever.feedwater a = Lever.feedwater b
  /\ Lever.boiler_pressure a = Lever.boiler_pressure b
  /\ Lever.condenser a = Lever.condenser b
  /\ Lever.cooling_water a = Lever.cooling_water b
  /\ Lever.air_supply a = Lever.air_supply b
  /\ Lever.fuel_injection a = Lever.fuel_injection b
  /\ Lever.steam_flow a = Lever.steam_flow b
  /\ Lever.water_level a = Lever.water_level b
  /\ Lever.exhaust_gas a = Lever.exhaust_gas b
  /\ Lever.emergency_valve a = Lever.emergency_valve b.

(** A tripped state after the countdown has run out. *)
Definition trippedIdle : PartialState :=
  fun f =>
    match f as f0 return option (ftype f0) with
    | mainSteamTemp => Some (Num 500)
    | turbineSpeed => Some (Num 1000)
    | trip => Some true
    | shutdownTime => Some (Num 0)
    | _ => None
    end.

(** The store right after [resetSystem] and [shutdownSystem]. *)
Definition shutdownFromBaseline : PartialState :=
  shutdownSystem (resetSystem 0).

(** A countdown longer than the configured ten seconds. *)
Definition longCountdown : PartialState :=
  fun f =>
    match f as f0 return option (ftype f0) with
    | shutdownTime => Some (Num 30)
    | trip => Some true
    | mainSteamTemp => Some (Num 540)
    | turbineSpeed => Some (Num 3000)
    | load => Some (Num 100)
    | mainSteamFlow => Some (Num 300)
    | mainSteamPressure => Some (Num 16)
    | _ => None
    end.

(** A plant at work, outside any countdown. *)
Definition atWork : PartialState :=
  fun f =>
    match f as f0 return option (ftype f0) with
    | mainSteamFlow => Some (Num 300)
    | mainSteamPressure => Some (Num 16)
    | mainSteamTemp => Some (Num 540)
    | turbineSpeed => Some (Num 3000)
    | load => Some (Num 400)
    | trip => Some false
    | shutdownTime => Some (Num 0)
    | _ => None
    end.

(** A countdown with five seconds left. *)
Definition countingDown : PartialState :=
  fun f =>
    match f as f0 return option (ftype f0) with
    | shutdownTime => Some (Num 5)
    | trip => Some true
    | mainSteamTemp => Some (Num 500)
    | _ => None
    end.

(** Every lever inside its range of 0 to 100. *)
Definition inRange (v : R) : Prop := 0 <= v <= 100.

Definition leversInRange (lv : Lever.t) : Prop :=
  inRange (Lever.coal_feed lv) /\ inRange (Lever.feedwater lv)
  /\ inRange (Lever.boiler_pressure lv) /\ inRange (Lever.steam_turbine lv)
  /\ inRange (Lever.condenser lv) /\ inRange (Lever.cooling_water lv)
  /\ inRange (Lever.air_supply lv) /\ inRange (Lever.fuel_injection lv)
  /\ inRange (Lever.steam_flow lv) /\ inRange (Lever.water_level lv)
  /\ inRange (Lever.exhaust_gas lv) /\ inRange (Lever.emergency_valve lv).

(** Coal and air fully open, the other levers at mid-range. *)
Definition fullFire : Lever.t :=
  Lever.mk 100 50 50 50 50 50 100 50 50 50 50 50.

(** A plant whose steam temperature sits at the upper bound of 600. *)
Definition atUpperLimit : PartialState :=
  fun f =>
    match f as f0 return option (ftype f0) with
    | mainSteamFlow => Some (Num 300)
    | mainSteamPressure => Some (Num 16)
    | mainSteamTemp => Some (Num 600)
    | turbineSpeed => Some (Num 3000)
    | load => Some (Num 400)
    | trip => Some false
    | shutdownTime => Some (Num 0)
    | _ => None
    end.

(** A plant whose steam temperature sits at the lower bound of 200. *)
Definition atLowerLimit : PartialState :=
  fun f =>
    match f as f0 return option (ftype f0) with
    | mainSteamFlow => Some (Num 0)
    | mainSteamPressure => Some (Num 1)
    | mainSteamTemp => Some (Num 200)
    | turbineSpeed => Some (Num 1000)
    | load => Some (Num 0)
    | trip => Some false
    | shutdownTime => Some (Num 0)
    | _ => None
    end.

(** A plant whose steam temperature sits exactly at the trip threshold. *)
Definition atCeiling : PartialState :=
  fun f =>
    match f as f0 return option (ftype f0) with
    | mainSteamFlow => Some (Num 300)
    | mainSteamPressure => Some (Num 16)
    | mainSteamTemp => Some (Num 620)
    | turbineSpeed => Some (Num 3000)
    | load => Some (Num 400)
    | trip => Some false
    | shutdownTime => Some (Num 0)
    | _ => None
    end.

(** The plant at work after [shutdownSystem] and one tick of ten seconds,
    which runs the countdown out. *)
Definition afterCountdown : PartialState :=
  let s0 := shutdownSystem atWork in
  spread s0 (calculateSystemState (leversAt 50) (Some s0) 10 0).

(** The states in which a running countdown comes with an asserted trip. *)
Definition countdownImpliesTrip (st : PartialState) : Prop :=
  shutdownCountdown (Some st) <> None -> st trip = Some true.

(** ** Predicates used in the statements about the engine *)

(** The seven levers that [calculateSystemState] reads.  The other five
    ([boiler_pressure], [condenser], [fuel_injection], [exhaust_gas],
    [emergency_valve]) are copied into [params] and never used. *)
Definition agreeOnReadLevers (a b : Lever.t) : Prop :=
  Lever.coal_feed a = Lever.coal_feed b
  /\ Lever.feedwater a = Lever.feedwater b
  /\ Lever.steam_turbine a = Lever.steam_turbine b
  /\ Lever.cooling_water a = Lever.cooling_water b
  /\ Lever.air_supply a = Lever.air_supply b
  /\ Lever.steam_flow a = Lever.steam_flow b
  /\ Lever.water_level a = Lever.water_level b.

(** The keys of the object returned during the shutdown countdown. *)
Definition countdownKey (f : field) : bool :=
  match f with
  | trip | shutdownTime | mainSteamTemp | turbineSpeed | load
  | mainSteamFlow | mainSteamPressure => true
  | _ => false
  end.

Definition isShutdown (a : Action) : bool :=
  match a with
  | ShutdownSystem => true
  | _ => false
  end.

(** A working state in which the countdown has just been started and the
    last recomputation was at time 1000. *)
Definition shutdownRequested : PartialState :=
  spread (shutdownSystem atWork)
    (fun f =>
       match f as f0 return option (ftype f0) with
       | lastUpdateTime => Some (Num 1000)
       | _ => None
       end).

Open Scope string_scope.

(** ** The lever registry of the store

    [levers] is the array of [ControlLever] objects and
    [actualSystemValues] the [Record<string, number>] beside it. *)

Module ControlLever.
Record t : Type := mk {
  id : String.string;
  name : String.string;
  description : String.string;
  minValue : R;
  maxValue : R;
  currentValue : R;
  targetValue : R;
  unit : String.string;
  color : String.string;
  responseTime : R;
  sensitivity : R
}.

(** [{ ...lever, currentValue: c, targetValue: g }] *)
Definition withValues (lever : t) (c g : R) : t :=
  mk (id lever) (name lever) (description lever) (minValue lever)
     (maxValue lever) c g (unit lever) (color lever) (responseTime lever)
     (sensitivity lever).

(** [{ ...lever, currentValue: c }] *)
Definition withCurrent (lever : t) (c : R) : t :=
  withValues lever c (targetValue lever).
End ControlLever.

Module LeverStore.

(** [SMOOTH_FACTORS[id]] of the store: the factor by lever id, [None] for a
    key the table does not have.  Here and in [actualSystemValues] an id
    that names a property of [Object.prototype] is outside the model; the
    ids of the registry are the twelve of [initialLevers]. *)
Definition SMOOTH_FACTORS (leverId : String.string) : option R :=
  if String.eqb leverId "coal_feed" then Some 0.05
  else if String.eqb leverId "feedwater" then Some 0.08
  else if String.eqb leverId "boiler_pressure" then Some 0.03
  else if String.eqb leverId "steam_turbine" then Some 0.04
  else if String.eqb leverId "condenser" then Some 0.06
  else if String.eqb leverId "cooling_water" then Some 0.10
  else if String.eqb leverId "air_supply" then Some 0.07
  else if String.eqb leverId "fuel_injection" then Some 0.15
  else if String.eqb leverId "steam_flow" then Some 0.05
  else if String.eqb leverId "water_level" then Some 0.02
  else if String.eqb leverId "exhaust_gas" then Some 0.08
  else if String.eqb leverId "emergency_valve" then Some 0.20
  else None.

Definition initialLevers : list ControlLever.t :=
  [ ControlLever.mk "coal_feed" "Coal Feed" "Pasokan batu bara ke boiler"
      0 100 0 0 "%" "bg-orange-500" 15 0.3;
    ControlLever.mk "feedwater" "Feedwater" "Sirkulasi air ke boiler"
      0 100 0 0 "%" "bg-blue-500" 8 0.4;
    ControlLever.mk "boiler_pressure" "Boiler Pressure" "Tekanan boiler"
      0 100 0 0 "%" "bg-red-500" 20 0.2;
    ControlLever.mk "steam_turbine" "Steam Turbine" "Kecepatan turbin uap"
      0 100 0 0 "%" "bg-green-500" 12 0.35;
    ControlLever.mk "condenser" "Condenser" "Kondensasi uap"
      0 100 0 0 "%" "bg-cyan-500" 10 0.4;
    ControlLever.mk "cooling_water" "Cooling Water" "Air pendingin"
      0 100 0 0 "%" "bg-indigo-500" 6 0.5;
    ControlLever.mk "air_supply" "Air Supply" "Pasokan udara pembakaran"
      0 100 0 0 "%" "bg-yellow-500" 5 0.6;
    ControlLever.mk "fuel_injection" "Fuel Injection" "Injeksi bahan bakar"
      0 100 0 0 "%" "bg-purple-500" 8 0.4;
    ControlLever.mk "steam_flow" "Steam Flow" "Aliran uap ke turbin"
      0 100 0 0 "%" "bg-pink-500" 10 0.35;
    ControlLever.mk "water_level" "Water Level" "Level air dalam boiler"
      0 100 0 0 "%" "bg-teal-500" 25 0.15;
    ControlLever.mk "exhaust_gas" "Exhaust Gas" "Gas buang"
      0 100 0 0 "%" "bg-gray-500" 8 0.4;
    ControlLever.mk "emergency_valve" "Emergency Valve" "Katup darurat"
      0 100 0 0 "%" "bg-red-600" 2 0.8 ].

Record t : Type := mk {
  levers : list ControlLever.t;
  actualSystemValues : String.string -> option R
}.

Definition initial : t := mk initialLevers (fun _ => None).

(** The synchronous half of [updateLever]: the lever whose id is [leverId]
    gets the clamped value as [currentValue] and as [targetValue]. *)
Definition updateLever (leverId : String.string) (value : R) (st : t) : t :=
  mk (map (fun lever =>
             if String.eqb (ControlLever.id lever) leverId
             then ControlLever.withValues lever
                    (clampLever (ControlLever.minValue lever)
                       (ControlLever.maxValue lever) value)
                    (clampLever (ControlLever.minValue lever)
                       (ControlLever.maxValue lever) value)
             else lever)
        (levers st))
     (actualSystemValues st).

(** The lever half of [resetSystem]. *)
Definition resetLevers : t := mk initialLevers (fun _ => None).

(** [state.levers.reduce((acc, lever) => { acc[lever.id] = lever.currentValue;
    return acc }, {})] *)
Definition leverValues (ls : list ControlLever.t)
  : String.string -> option R :=
  fold_left
    (fun acc lever k =>
       if String.eqb k (ControlLever.id lever)
       then Some (ControlLever.currentValue lever)
       else acc k)
    ls (fun _ => None).

(** The twelve keys that [calculateSystemState] reads from the reduced
    object, as a lever vector when all of them are present. *)
Definition leverVector (acc : String.string -> option R) : option Lever.t :=
  match acc "coal_feed", acc "feedwater", acc "boiler_pressure",
        acc "steam_turbine", acc "condenser", acc "cooling_water",
        acc "air_supply", acc "fuel_injection", acc "steam_flow",
        acc "water_level", acc "exhaust_gas", acc "emergency_valve" with
  | Some a, Some b, Some c, Some d, Some e, Some f,
    Some g, Some h, Some i, Some j, Some k, Some l =>
      Some (Lever.mk a b c d e f g h i j k l)
  | _, _, _, _, _, _, _, _, _, _, _, _ => None
  end.

(** [{ ...actualSystemValues, [id]: v }] *)
Definition writeActual
  (actual : String.string -> option R) (leverId : String.string) (v : R)
  : String.string -> option R :=
  fun k => if String.eqb k leverId then Some v else actual k.

(** The body of the [map] callback of [updateGradualMovement] for a lever
    that is off its target: the new value, read against the snapshot
    [actual] of [actualSystemValues] taken by [get()]. *)
Definition newActualValue
  (actual : String.string -> option R) (lever : ControlLever.t) : R :=
  let smoothFactor :=
    match SMOOTH_FACTORS (ControlLever.id lever) with
    | Some s => if Rzerob s then 0.05 else s
    | None => 0.05
    end in
  let currentActualValue :=
    match actual (ControlLever.id lever) with
    | Some v => if Rzerob v then ControlLever.currentValue lever else v
    | None => ControlLever.currentValue lever
    end in
  smoothApproach currentActualValue (ControlLever.targetValue lever)
    smoothFactor 0.1.

Definition offTarget (lever : ControlLever.t) : bool :=
  Rgtb (Rabs (ControlLever.currentValue lever
              - ControlLever.targetValue lever)) 0.1.

(** One pass of the [map]: the levers produced so far, the
    [actualSystemValues] written so far and [hasChanges]. *)
Definition gradualPass
  (snapshot : String.string -> option R)
  (acc : list ControlLever.t * (String.string -> option R) * bool)
  (lever : ControlLever.t)
  : list ControlLever.t * (String.string -> option R) * bool :=
  let '(updated, actual, hasChanges) := acc in
  if offTarget lever then
    let v := newActualValue snapshot lever in
    (updated ++ [ControlLever.withCurrent lever v],
     writeActual actual (ControlLever.id lever) v, true)
  else (updated ++ [lever], actual, hasChanges).

Definition updateGradualMovement (st : t) : t :=
  let '(updatedLevers, actual, hasChanges) :=
    fold_left (gradualPass (actualSystemValues st)) (levers st)
      ([], actualSystemValues st, false) in
  if hasChanges then mk updatedLevers actual else mk (levers st) actual.

Inductive Action : Type :=
| UpdateLever (leverId : String.string) (value : R)
| ResetLevers
| UpdateGradualMovement.

Definition step (st : t) (a : Action) : t :=
  match a with
  | UpdateLever leverId value => updateLever leverId value st
  | ResetLevers => resetLevers
  | UpdateGradualMovement => updateGradualMovement st
  end.

Definition run (st : t) (actions : list Action) : t :=
  fold_left step actions st.

(** Every lever sits on its target, inside its own range. *)
Definition settled (lever : ControlLever.t) : Prop :=
  ControlLever.currentValue lever = ControlLever.targetValue lever
  /\ ControlLever.minValue lever <= ControlLever.currentValue lever
     <= ControlLever.maxValue lever.

End LeverStore.

(** ** The lever component ([ControlLever.tsx]) *)

Module LeverComponent.

(** [calculateValueFromY]: [rect] is [None] when [containerRef.current] is
    null, otherwise the pair of [rect.top] and [rect.height].  A container of
    height zero gives [0 / 0]. *)
Definition calculateValueFromY
  (lever : ControlLever.t) (rect : option (R * R)) (clientY : R) : jsnum :=
  match rect with
  | None => Num (ControlLever.currentValue lever)
  | Some (top, height) =>
      let y := clientY - top in
      let clampedY := Rmax 0 (Rmin height y) in
      if Rzerob height then NaN
      else
        let invertedPercentage := 100 - (clampedY / height) * 100 in
        let value :=
          ControlLever.minValue lever
          + (invertedPercentage / 100)
            * (ControlLever.maxValue lever - ControlLever.minValue lever) in
        Num (Rmax (ControlLever.minValue lever)
               (Rmin (ControlLever.maxValue lever) value))
  end.

Definition handleArrowUp (lever : ControlLever.t) : R :=
  Rmin (ControlLever.maxValue lever) (ControlLever.currentValue lever + 5).

Definition handleArrowDown (lever : ControlLever.t) : R :=
  Rmax (ControlLever.minValue lever) (ControlLever.currentValue lever - 5).

End LeverComponent.

(** The registry in which every lever of [initialLevers] holds the value
    that [lv] gives to its id, as current and as target value. *)
Definition leversOf (lv : Lever.t) : list ControlLever.t :=
  [ ControlLever.mk "coal_feed" "Coal Feed" "Pasokan batu bara ke boiler"
      0 100 (Lever.coal_feed lv) (Lever.coal_feed lv)
      "%" "bg-orange-500" 15 0.3;
    ControlLever.mk "feedwater" "Feedwater" "Sirkulasi air ke boiler"
      0 100 (Lever.feedwater lv) (Lever.feedwater lv)
      "%" "bg-blue-500" 8 0.4;
    ControlLever.mk "boiler_pressure" "Boiler Pressure" "Tekanan boiler"
      0 100 (Lever.boiler_pressure lv) (Lever.boiler_pressure lv)
      "%" "bg-red-500" 20 0.2;
    ControlLever.mk "steam_turbine" "Steam Turbine" "Kecepatan turbin uap"
      0 100 (Lever.steam_turbine lv) (Lever.steam_turbine lv)
      "%" "bg-green-500" 12 0.35;
    ControlLever.mk "condenser" "Condenser" "Kondensasi uap"
      0 100 (Lever.condenser lv) (Lever.condenser lv)
      "%" "bg-cyan-500" 10 0.4;
    ControlLever.mk "cooling_water" "Cooling Water" "Air pendingin"
      0 100 (Lever.cooling_water lv) (Lever.cooling_water lv)
      "%" "bg-indigo-500" 6 0.5;
    ControlLever.mk "air_supply" "Air Supply" "Pasokan udara pembakaran"
      0 100 (Lever.air_supply lv) (Lever.air_supply lv)
      "%" "bg-yellow-500" 5 0.6;
    ControlLever.mk "fuel_injection" "Fuel Injection" "Injeksi bahan bakar"
      0 100 (Lever.fuel_injection lv) (Lever.fuel_injection lv)
      "%" "bg-purple-500" 8 0.4;
    ControlLever.mk "steam_flow" "Steam Flow" "Aliran uap ke turbin"
      0 100 (Lever.steam_flow lv) (Lever.steam_flow lv)
      "%" "bg-pink-500" 10 0.35;
    ControlLever.mk "water_level" "Water Level" "Level air dalam boiler"
      0 100 (Lever.water_level lv) (Lever.water_level lv)
      "%" "bg-teal-500" 25 0.15;
    ControlLever.mk "exhaust_gas" "Exhaust Gas" "Gas buang"
      0 100 (Lever.exhaust_gas lv) (Lever.exhaust_gas lv)
      "%" "bg-gray-500" 8 0.4;
    ControlLever.mk "emergency_valve" "Emergency Valve" "Katup darurat"
      0 100 (Lever.emergency_valve lv) (Lever.emergency_valve lv)
      "%" "bg-red-600" 2 0.8 ].

(** The lever vector after [updateLever leverId value] on [leversOf lv]. *)
Definition moved (leverId : String.string) (value : R) (lv : Lever.t)
  : Lever.t :=
  let pick k old :=
    if String.eqb k leverId then clampLever 0 100 value else old in
  Lever.mk (pick "coal_feed" (Lever.coal_feed lv))
    (pick "feedwater" (Lever.feedwater lv))
    (pick "boiler_pressure" (Lever.boiler_pressure lv))
    (pick "steam_turbine" (Lever.steam_turbine lv))
    (pick "condenser" (Lever.condenser lv))
    (pick "cooling_water" (Lever.cooling_water lv))
    (pick "air_supply" (Lever.air_supply lv))
    (pick "fuel_injection" (Lever.fuel_injection lv))
    (pick "steam_flow" (Lever.steam_flow lv))
    (pick "water_level" (Lever.water_level lv))
    (pick "exhaust_gas" (Lever.exhaust_gas lv))
    (pick "emergency_valve" (Lever.emergency_valve lv)).

(** The lever vector that a sequence of store actions leaves behind. *)
Definition vectorAfter (lv : Lever.t) (a : LeverStore.Action) : Lever.t :=
  match a with
  | LeverStore.UpdateLever leverId value => moved leverId value lv
  | LeverStore.ResetLevers => leversAt 0
  | LeverStore.UpdateGradualMovement => lv
  end.

(** The coal feed lever at 20 %. *)
Definition coalFeedAt20 : ControlLever.t :=
  ControlLever.mk "coal_feed" "Coal Feed" "Pasokan batu bara ke boiler"
    0 100 20 20 "%" "bg-orange-500" 15 0.3.

(** ** [formatTime]

    The stopwatch passes [Math.floor((now - startTime) / 1000)], a whole
    number of seconds, so [seconds] is an integer here: [Math.floor] of a
    quotient is [Z.div], [%] is the truncating [Z.rem], and [Math.floor] of
    an integer is the integer. *)

(** [n.toString()] for an integer. *)
Definition toString (n : Z) : String.string :=
  DecimalString.NilZero.string_of_int (Z.to_int n).

(** [s.padStart(targetLength, c)] for a one-character pad string. *)
Definition padStart (targetLength : nat) (c : Ascii.ascii) (s : String.string)
  : String.string :=
  String.append
    (String.string_of_list_ascii
       (repeat c (targetLength - String.length s)))
    s.

Definition formatTime (seconds : Z) : String.string :=
  let hours := (seconds / 3600)%Z in
  let minutes := (Z.rem seconds 3600 / 60)%Z in
  let secs := Z.rem seconds 60 in
  String.append (padStart 2 "0"%char (toString hours))
    (String.append ":"
       (String.append (padStart 2 "0"%char (toString minutes))
          (String.append ":" (padStart 2 "0"%char (toString secs))))).

(** The character of a decimal digit. *)
Definition digit (d : Z) : Ascii.ascii :=
  Ascii.ascii_of_nat (48 + Z.to_nat d).

(** The two characters of a number below one hundred. *)
Definition twoDigits (n : Z) : String.string :=
  String.String (digit (n / 10)) (String.String (digit (n mod 10)) String.EmptyString).

(** ** The variant of [utils/calculation.ts] that smooths with
    [interpolateValue]: smoothing and efficiency indicators *)

(** [a <= b] on numbers. *)
Definition Rleb (a b : R) : bool := if Rle_dec a b then true else false.

(** [interpolateValue] of the [smoothApproach] variant (not called there).
    The division is the division of the reals: a [responseTime] of zero is
    outside the model. *)
Definition interpolateValue
  (currentValue targetValue responseTime deltaTime : R) : R :=
  if Rltb (Rabs (currentValue - targetValue)) 0.01 then targetValue
  else
    let smoothFactor := 1 / responseTime in
    smoothApproach currentValue targetValue smoothFactor deltaTime.

Module CalculationBIndicators.

(** As above, a [responseTime] of zero is outside the model. *)
Definition interpolateValue
  (currentValue targetValue responseTime deltaTime : R) : R :=
  if Rltb (Rabs (currentValue - targetValue)) 0.01 then targetValue
  else
    let timeConstant := responseTime / 3 in
    let factor := 1 - exp (- deltaTime / timeConstant) in
    currentValue + (targetValue - currentValue) * factor.

Definition calculateBoilerEfficiency (params : Params.t) : R :=
  let coalFeed := Params.coalFeed params in
  let airSupply := Params.airSupply params in
  let waterLevel := Params.waterLevel params in
  let airFuelRatio := airSupply / Rmax coalFeed 1 in
  let optimalRatio := 15.5 in
  let ratioEfficiency :=
    Rmax 0.7 (1 - Rabs (airFuelRatio - optimalRatio) / optimalRatio) in
  let levelEfficiency := Rmax 0.8 (1 - Rabs (waterLevel - 50) / 50) in
  let feedEfficiency := Rmax 0.6 (coalFeed / 100) in
  BOILER_EFFICIENCY_BASE * ratioEfficiency * levelEfficiency * feedEfficiency.

Definition calculateEfficiency (params : Params.t) : R :=
  let boilerEfficiency := calculateBoilerEfficiency params in
  let turbineEfficiency := TURBINE_EFFICIENCY_BASE in
  let generatorEfficiency := GENERATOR_EFFICIENCY in
  boilerEfficiency * turbineEfficiency * generatorEfficiency * 100.

(** [params.load ?? 0]: the default replaces an absent key. *)
Definition calculateHeatRate (params : Params.t) : R :=
  let coalFeed := Params.coalFeed params in
  let load := withDefault (Params.load params) 0 in
  let efficiency := calculateEfficiency params in
  if Rleb load 0 || Rleb efficiency 0 then 0
  else
    let coalEnergy := coalFeed * COAL_CALORIFIC_VALUE in
    let electricalEnergy := load * 1000 * 3600 in
    coalEnergy / electricalEnergy.

End CalculationBIndicators.

(** ** The stateless engine (the first version of [utils/calculation.ts]) *)

Module Stateless.

Record SystemState : Type := mkState {
  temperature : R;
  pressure : R;
  turbineRPM : R;
  powerOutput : R
}.

(** [v || 0] for a number [v]. *)
Definition orZero (v : R) : R := orElse (Some (Num v)) 0.

Definition calculatePower (temp pressure rpm : R) : R :=
  let basePower := (temp * pressure * rpm) / 1000000 in
  Rmin (Rmax basePower 0) 500.

Definition calculateTemperature (leverValues : Lever.t) : R :=
  let coalFeed := orZero (Lever.coal_feed leverValues) in
  let fuelInjection := orZero (Lever.fuel_injection leverValues) in
  let airSupply := orZero (Lever.air_supply leverValues) in
  let temp := 200 + (coalFeed * 8) + (fuelInjection * 6) + (airSupply * 4) in
  let feedwater := orZero (Lever.feedwater leverValues) in
  let coolingWater := orZero (Lever.cooling_water leverValues) in
  let temp := temp - ((feedwater * 2) + (coolingWater * 3)) in
  Rmin (Rmax temp 0) 1200.

Definition calculatePressure (leverValues : Lever.t) : R :=
  let boilerPressure := orZero (Lever.boiler_pressure leverValues) in
  let steamFlow := orZero (Lever.steam_flow leverValues) in
  let emergencyValve := orZero (Lever.emergency_valve leverValues) in
  let pressure := 20 + (boilerPressure * 10) + (steamFlow * 8) in
  let pressure := pressure - emergencyValve * 15 in
  Rmin (Rmax pressure 0) 150.

Definition calculateTurbineRPM (leverValues : Lever.t) : R :=
  let steamTurbine := orZero (Lever.steam_turbine leverValues) in
  let steamFlow := orZero (Lever.steam_flow leverValues) in
  let condenser := orZero (Lever.condenser leverValues) in
  let rpm := 500 + (steamTurbine * 200) + (steamFlow * 150) in
  let rpm := rpm * (1 + condenser * 0.1) in
  Rmin (Rmax rpm 0) 3500.

Definition calculateEarnings (powerMW durationSeconds : R) : R :=
  let durationHours := durationSeconds / 3600 in
  let earningsPerHour := powerMW * 1000000 in
  earningsPerHour * durationHours.

Definition calculateSystemState (leverValues : Lever.t) : SystemState :=
  let temperature := calculateTemperature leverValues in
  let pressure := calculatePressure leverValues in
  let turbineRPM := calculateTurbineRPM leverValues in
  let powerOutput := calculatePower temperature pressure turbineRPM in
  mkState temperature pressure turbineRPM powerOutput.

End Stateless.

(** * Properties *)

(** ** Comparisons and the exponential *)

Lemma Rgtb_true (a b : R) : Rgtb a b = true <-> b < a.
Proof. unfold Rgtb; destruct (Rlt_dec b a); split; intros; try discriminate; auto; lra. Qed.

Lemma Rgtb_false (a b : R) : Rgtb a b = false <-> a <= b.
Proof. unfold Rgtb; destruct (Rlt_dec b a); split; intros; try discriminate; auto; lra. Qed.

Lemma Rltb_true (a b : R) : Rltb a b = true <-> a < b.
Proof. unfold Rltb; destruct (Rlt_dec a b); split; intros; try discriminate; auto; lra. Qed.

Lemma Rltb_false (a b : R) : Rltb a b = false <-> b <= a.
Proof. unfold Rltb; destruct (Rlt_dec a b); split; intros; try discriminate; auto; lra. Qed.

Lemma Rzerob_true (a : R) : Rzerob a = true <-> a = 0.
Proof. unfold Rzerob; destruct (Req_dec_T a 0); split; intros; try discriminate; auto; lra. Qed.

Lemma Rzerob_false (a : R) : Rzerob a = false <-> a <> 0.
Proof. unfold Rzerob; destruct (Req_dec_T a 0); split; intros; try discriminate; auto; lra. Qed.

Lemma orElse_Num (r d : R) : r <> 0 -> orElse (Some (Num r)) d = r.
Proof. intros H; unfold orElse; apply Rzerob_false in H; now rewrite H. Qed.

Lemma orElse_zero (d : R) : orElse (Some (Num 0)) d = d.
Proof. unfold orElse; now rewrite (proj2 (Rzerob_true 0) eq_refl). Qed.

Lemma orElse_self (r : R) : orElse (Some (Num r)) 0 = r.
Proof. unfold orElse, Rzerob; destruct (Req_dec_T r 0); congruence. Qed.

(** The weight [1 - e^(-rate * dt)] of the target. *)
Lemma weight_pos (rate dt : R) : 0 < rate -> 0 < dt -> 0 < 1 - exp (- rate * dt).
Proof.
  intros Hr Hd.
  assert (H : exp (- rate * dt) < exp 0) by (apply exp_increasing; nra).
  rewrite exp_0 in H; lra.
Qed.

Lemma weight_lt_1 (rate dt : R) : 1 - exp (- rate * dt) < 1.
Proof. pose proof (exp_pos (- rate * dt)); lra. Qed.

Lemma weight_nonneg (rate dt : R) : 0 <= rate -> 0 <= dt -> 0 <= 1 - exp (- rate * dt).
Proof.
  intros Hr Hd.
  destruct (Req_dec_T (rate * dt) 0) as [E | N].
  - replace (- rate * dt) with 0 by lra. rewrite exp_0; lra.
  - assert (H : exp (- rate * dt) < exp 0) by (apply exp_increasing; nra).
    rewrite exp_0 in H; lra.
Qed.

Lemma weight_zero (rate : R) : 1 - exp (- rate * 0) = 0.
Proof. replace (- rate * 0) with 0 by lra. rewrite exp_0; lra. Qed.

(** ** The smoothing primitive *)

Lemma smoothApproach_dt0 (current target rate : R) :
  smoothApproach current target rate 0 = current.
Proof. unfold smoothApproach; rewrite weight_zero; lra. Qed.

Lemma smoothApproach_fixed (x rate dt : R) : smoothApproach x x rate dt = x.
Proof. unfold smoothApproach; lra. Qed.

Lemma smoothApproach_up (current target rate dt : R) :
  0 < rate -> 0 < dt -> current < target ->
  current < smoothApproach current target rate dt < target.
Proof.
  intros Hr Hd Hlt; unfold smoothApproach.
  pose proof (weight_pos rate dt Hr Hd).
  pose proof (weight_lt_1 rate dt).
  split; nra.
Qed.

Lemma smoothApproach_down (current target rate dt : R) :
  0 < rate -> 0 < dt -> target < current ->
  target < smoothApproach current target rate dt < current.
Proof.
  intros Hr Hd Hlt; unfold smoothApproach.
  pose proof (weight_pos rate dt Hr Hd).
  pose proof (weight_lt_1 rate dt).
  split; nra.
Qed.

(** The smoothed value is a convex combination of its two arguments. *)
Lemma smoothApproach_between (current target rate dt lo hi : R) :
  0 <= rate -> 0 <= dt ->
  lo <= current <= hi -> lo <= target <= hi ->
  lo <= smoothApproach current target rate dt <= hi.
Proof.
  intros Hr Hd Hc Ht; unfold smoothApproach.
  pose proof (weight_nonneg rate dt Hr Hd).
  pose proof (weight_lt_1 rate dt).
  split; nra.
Qed.

Lemma smoothApproach_ge (current target rate dt lo : R) :
  0 <= rate -> 0 <= dt ->
  lo <= current -> lo <= target ->
  lo <= smoothApproach current target rate dt.
Proof.
  intros Hr Hd Hc Ht; unfold smoothApproach.
  pose proof (weight_nonneg rate dt Hr Hd).
  pose proof (weight_lt_1 rate dt).
  nra.
Qed.

Lemma smoothApproach_le (current target rate dt hi : R) :
  0 <= rate -> 0 <= dt ->
  current <= hi -> target <= hi ->
  smoothApproach current target rate dt <= hi.
Proof.
  intros Hr Hd Hc Ht; unfold smoothApproach.
  pose proof (weight_nonneg rate dt Hr Hd).
  pose proof (weight_lt_1 rate dt).
  nra.
Qed.




(** ** The trip check *)

Ltac decide_R :=
  repeat match goal with
    | |- context [Rlt_dec ?a ?b] => destruct (Rlt_dec a b); try (exfalso; lra)
    | |- context [Rle_dec ?a ?b] => destruct (Rle_dec a b); try (exfalso; lra)
    | |- context [Req_dec_T ?a ?b] => destruct (Req_dec_T a b); try (exfalso; lra)
    end.

Lemma waterLevel_in_band : Rltb waterLevel 8 = false /\ Rgtb waterLevel 95 = false.
Proof. unfold Rltb, Rgtb, waterLevel; decide_R; auto. Qed.

Lemma tripCondition_waterLevel (boilerTemp currentTurbineRPM : R) :
  tripCondition boilerTemp waterLevel currentTurbineRPM
  = Rgtb boilerTemp 620 || Rgtb currentTurbineRPM 3600.
Proof.
  unfold tripCondition.
  destruct waterLevel_in_band as [-> ->].
  now rewrite !orb_false_r.
Qed.

Lemma tripCheck_eq (currentState : option PartialState) :
  tripCheck currentState
  = Rgtb (orElse (getOpt currentState mainSteamTemp) STEAM_TEMP_BASE) 620
    || Rgtb (orElse (getOpt currentState turbineSpeed) 1800) 3600
    || orElseB (getOpt currentState trip) false.
Proof.
  unfold tripCheck; rewrite tripCondition_waterLevel.
  destruct (Rgtb _ 620), (Rgtb _ 3600); reflexivity.
Qed.

Lemma tripCheck_hot (currentState : option PartialState) :
  620 < orElse (getOpt currentState mainSteamTemp) STEAM_TEMP_BASE ->
  tripCheck currentState = true.
Proof.
  intros H; rewrite tripCheck_eq.
  now rewrite (proj2 (Rgtb_true _ _) H).
Qed.

Lemma tripCheck_latched (currentState : option PartialState) :
  getOpt currentState trip = Some true -> tripCheck currentState = true.
Proof.
  intros H; rewrite tripCheck_eq, H; cbn.
  now rewrite !orb_true_r.
Qed.

(** [x || d > c] with a default below the threshold holds only for a stored
    number above the threshold. *)
Lemma orElse_above (v : option jsnum) (d c : R) :
  d <= c -> c < orElse v d -> exists r, v = Some (Num r) /\ c < r.
Proof.
  intros Hd H.
  destruct v as [[| r] |]; cbn in H; try lra.
  destruct (Rzerob r); [lra | eauto].
Qed.

(** The [trip] key of the returned object. *)
Lemma calculateSystemState_trip
  (leverValues : Lever.t) (currentState : option PartialState)
  (deltaTime now : R) :
  calculateSystemState leverValues currentState deltaTime now trip
  = Some match shutdownCountdown currentState with
         | Some _ => true
         | None => tripCheck currentState
         end.
Proof.
  unfold calculateSystemState.
  destruct (shutdownCountdown currentState); reflexivity.
Qed.

Lemma calculateSystemState_trip_true
  (leverValues : Lever.t) (currentState : option PartialState)
  (deltaTime now : R) :
  tripCheck currentState = true ->
  calculateSystemState leverValues currentState deltaTime now trip = Some true.
Proof.
  intros H; rewrite calculateSystemState_trip, H.
  now destruct (shutdownCountdown currentState).
Qed.

(** From a state that is neither tripped nor counting down, [trip] is
    returned true only for a stored temperature above 620 or a stored speed
    above 3600. *)
Lemma trip_raised_cause
  (leverValues : Lever.t) (currentState : option PartialState)
  (deltaTime now : R) :
  getOpt currentState trip <> Some true ->
  shutdownCountdown currentState = None ->
  calculateSystemState leverValues currentState deltaTime now trip
  = Some true ->
  (exists t, getOpt currentState mainSteamTemp = Some (Num t) /\ 620 < t)
  \/ (exists r, getOpt currentState turbineSpeed = Some (Num r) /\ 3600 < r).
Proof.
  intros Hflag Hcount Hout.
  rewrite calculateSystemState_trip, Hcount, tripCheck_eq in Hout.
  injection Hout as Hout.
  assert (Hb : orElseB (getOpt currentState trip) false = false).
  { destruct (getOpt currentState trip) as [[|]|] eqn:E; cbn;
      try reflexivity; now elim Hflag. }
  rewrite Hb, orb_false_r in Hout.
  apply orb_true_iff in Hout as [H | H]; apply Rgtb_true in H.
  - left; apply (orElse_above _ STEAM_TEMP_BASE);
      [unfold STEAM_TEMP_BASE; lra | exact H].
  - right; apply (orElse_above _ 1800); [lra | exact H].
Qed.

(** C10.  The water level read by the trip check is the constant 60, so
    both water-level conditions are false and the check depends on the
    stored temperature, speed and flag only; from a state that is neither
    tripped nor counting down, the returned [trip] is true only if the
    stored [mainSteamTemp] exceeds 620 or the stored [turbineSpeed] exceeds
    3600.  The second copy of the file performs the same check. *)
Theorem water_level_trip_unreachable
  (leverValues : Lever.t) (currentState : option PartialState)
  (deltaTime now : R) :
  waterLevel = 60
  /\ Rltb waterLevel 8 = false
  /\ Rgtb waterLevel 95 = false
  /\ tripCheck currentState
     = Rgtb (orElse (getOpt currentState mainSteamTemp) STEAM_TEMP_BASE) 620
       || Rgtb (orElse (getOpt currentState turbineSpeed) 1800) 3600
       || orElseB (getOpt currentState trip) false
  /\ (getOpt currentState trip <> Some true ->
      shutdownCountdown currentState = None ->
      calculateSystemState leverValues currentState deltaTime now trip
      = Some true ->
      (exists t, getOpt currentState mainSteamTemp = Some (Num t) /\ 620 < t)
      \/ (exists r, getOpt currentState turbineSpeed = Some (Num r)
                    /\ 3600 < r))
  /\ CalculationB.waterLevel = 60
  /\ CalculationB.tripCheck currentState = tripCheck currentState.
Proof.
  destruct waterLevel_in_band as [Hlo Hhi].
  repeat split; auto using tripCheck_eq.
  apply trip_raised_cause.
Qed.

Lemma water_level_trip_unreachable_witness :
  (exists t, overheated mainSteamTemp = Some (Num t) /\ 620 < t)
  \/ (exists r, overheated turbineSpeed = Some (Num r) /\ 3600 < r).
Proof.
  destruct (water_level_trip_unreachable (leversAt 50) (Some overheated) 1 0)
    as (_ & _ & _ & _ & H & _).
  apply H.
  - cbn; discriminate.
  - reflexivity.
  - apply calculateSystemState_trip_true, tripCheck_hot.
    cbn; unfold Rzerob, STEAM_TEMP_BASE; decide_R; lra.
Defined.

(** ** Trip latching *)

Section Latching.

Variable loadTime : R.

Lemma spread_trip_r (a b : PartialState) (v : bool) :
  b trip = Some v -> spread a b trip = Some v.
Proof. intros H; unfold spread; now rewrite H. Qed.

Lemma recompute_trip
  (leverValues : Lever.t) (currentTime oilTime earnTime : R)
  (st : PartialState) :
  st trip = Some true ->
  recompute leverValues currentTime oilTime earnTime st trip = Some true.
Proof.
  intros H; unfold recompute; cbn zeta.
  unfold spread at 1; cbn match.
  apply spread_trip_r, calculateSystemState_trip_true, tripCheck_latched.
  exact H.
Qed.

Lemma updateEarnings_trip (now : R) (st : PartialState) :
  updateEarnings now st trip = st trip.
Proof.
  unfold updateEarnings.
  destruct (st isRunning) as [[|]|]; try reflexivity.
  destruct (startTimeOf st); reflexivity.
Qed.

(** Every command except the reset keeps an asserted [trip]. *)
Lemma step_keeps_trip (st : PartialState) (a : Action) :
  isReset a = false -> st trip = Some true ->
  step loadTime st a trip = Some true.
Proof.
  intros Ha H; destruct a; cbn [step].
  - now apply recompute_trip.
  - exact H.
  - exact H.
  - discriminate Ha.
  - reflexivity.
  - now rewrite updateEarnings_trip.
Qed.

Lemma run_keeps_trip (actions : list Action) (st : PartialState) :
  Forall (fun a => isReset a = false) actions ->
  st trip = Some true ->
  run loadTime st actions trip = Some true.
Proof.
  unfold run; intros Hall; revert st.
  induction Hall as [| a actions Ha _ IH]; intros st H; cbn [fold_left].
  - exact H.
  - apply IH, step_keeps_trip; assumption.
Qed.

End Latching.

(** C1.  A tick whose boiler temperature exceeds 620, or whose input state
    is already tripped, returns [trip = true]; after the result is merged
    into the store, [trip] stays true through every sequence of store
    commands without a reset, and so does the [trip] of every later call of
    [calculateSystemState]; [resetSystem] clears it. *)
Theorem trip_latching
  (loadTime : R) (leverValues : Lever.t) (st : PartialState)
  (deltaTime now : R) (actions : list Action) :
  620 < orElse (st mainSteamTemp) STEAM_TEMP_BASE \/ st trip = Some true ->
  Forall (fun a => isReset a = false) actions ->
  let out := calculateSystemState leverValues (Some st) deltaTime now in
  let later := run loadTime (spread st out) actions in
  out trip = Some true
  /\ later trip = Some true
  /\ (forall leverValues' deltaTime' now',
        calculateSystemState leverValues' (Some later) deltaTime' now' trip
        = Some true)
  /\ resetSystem loadTime trip = Some false.
Proof.
  intros Hcause Hall out later.
  assert (Hout : out trip = Some true).
  { apply calculateSystemState_trip_true.
    destruct Hcause as [Hhot | Hflag].
    - now apply tripCheck_hot.
    - now apply tripCheck_latched. }
  assert (Hlater : later trip = Some true).
  { apply run_keeps_trip; [exact Hall |].
    now apply spread_trip_r. }
  repeat split; auto.
  intros; now apply calculateSystemState_trip_true, tripCheck_latched.
Qed.

Lemma trip_latching_witness :
  let out := calculateSystemState (leversAt 50) (Some overheated) 1 0 in
  let later :=
    run 0 (spread overheated out)
      [ShutdownSystem; Recompute (leversAt 0) 1000 1000 1000; StopSystem] in
  out trip = Some true /\ later trip = Some true.
Proof.
  destruct (trip_latching 0 (leversAt 50) overheated 1 0
              [ShutdownSystem; Recompute (leversAt 0) 1000 1000 1000;
               StopSystem]) as (H1 & H2 & _).
  - left; cbn; unfold Rzerob, STEAM_TEMP_BASE; decide_R; lra.
  - repeat constructor.
  - split; assumption.
Defined.

(** ** Tripped-state noninterference *)

Lemma forceZero_agree (a b : Lever.t) :
  agreeOffFuelAndThrottle a b -> Lever.forceZero a = Lever.forceZero b.
Proof.
  intros (H1 & H2 & H3 & H4 & H5 & H6 & H7 & H8 & H9 & H10).
  unfold Lever.forceZero; congruence.
Qed.

Lemma forceZero_idem (a : Lever.t) :
  Lever.forceZero (Lever.forceZero a) = Lever.forceZero a.
Proof. reflexivity. Qed.

Lemma shutdownCountdown_zero (st : PartialState) :
  st shutdownTime = Some (Num 0) -> shutdownCountdown (Some st) = None.
Proof.
  intros H; unfold shutdownCountdown; cbn [getOpt]; rewrite H.
  now rewrite (proj2 (Rzerob_true 0) eq_refl).
Qed.

(** Outside the countdown a tripped tick runs the stages on the zeroed
    vector. *)
Lemma calculateSystemState_tripped
  (leverValues : Lever.t) (currentState : option PartialState)
  (deltaTime now : R) :
  shutdownCountdown currentState = None ->
  tripCheck currentState = true ->
  calculateSystemState leverValues currentState deltaTime now
  = normalTick (Lever.forceZero leverValues) currentState deltaTime now true.
Proof.
  intros Hc Ht; unfold calculateSystemState; now rewrite Hc, Ht.
Qed.

(** C2.  With [trip = true] and [shutdownTime = 0] in the previous state,
    two lever vectors that differ only in [coal_feed] and [steam_turbine]
    give the same object, which is also the object obtained with both
    channels at 0 (same state, time slice and clock reading). *)
Theorem tripped_noninterference
  (lv1 lv2 : Lever.t) (st : PartialState) (deltaTime now : R) :
  st trip = Some true ->
  st shutdownTime = Some (Num 0) ->
  agreeOffFuelAndThrottle lv1 lv2 ->
  calculateSystemState lv1 (Some st) deltaTime now
  = calculateSystemState lv2 (Some st) deltaTime now
  /\ calculateSystemState lv1 (Some st) deltaTime now
     = calculateSystemState (Lever.forceZero lv1) (Some st) deltaTime now.
Proof.
  intros Htrip Htime Hagree.
  pose proof (shutdownCountdown_zero st Htime) as Hc.
  pose proof (tripCheck_latched (Some st) Htrip) as Ht.
  rewrite !calculateSystemState_tripped by assumption.
  rewrite forceZero_idem, (forceZero_agree lv1 lv2 Hagree).
  split; reflexivity.
Qed.

Lemma tripped_noninterference_witness :
  calculateSystemState (Lever.mk 100 50 50 100 50 50 50 50 50 50 50 50)
    (Some trippedIdle) 1 0
  = calculateSystemState (leversAt 50) (Some trippedIdle) 1 0.
Proof.
  apply (tripped_noninterference
           (Lever.mk 100 50 50 100 50 50 50 50 50 50 50 50) (leversAt 50)
           trippedIdle 1 0).
  - reflexivity.
  - reflexivity.
  - repeat split.
Defined.

(** ** The shutdown countdown *)

Lemma shutdownCountdown_running (st : PartialState) (s : R) :
  st shutdownTime = Some (Num s) -> 0 < s ->
  shutdownCountdown (Some st) = Some s.
Proof.
  intros H Hs; unfold shutdownCountdown; cbn [getOpt]; rewrite H.
  rewrite (proj2 (Rzerob_false s)) by lra.
  now rewrite (proj2 (Rgtb_true s 0)).
Qed.

Lemma calculateSystemState_countdown
  (leverValues : Lever.t) (currentState : option PartialState)
  (deltaTime now s : R) :
  shutdownCountdown currentState = Some s ->
  calculateSystemState leverValues currentState deltaTime now
  = shutdownTick currentState s deltaTime.
Proof. intros H; unfold calculateSystemState; now rewrite H. Qed.

Lemma shutdownFactor_range (s deltaTime : R) :
  s - deltaTime <= 10 -> 0 <= Rmax 0 ((s - deltaTime) / 10) <= 1.
Proof.
  intros H; split; [apply Rmax_l |].
  apply Rmax_lub; lra.
Qed.

(** C6 (as amended).  During the countdown, with the remaining time after
    the tick at most 10, strictly positive [mainSteamTemp], [turbineSpeed]
    and [mainSteamPressure] and non-negative [load] and [mainSteamFlow],
    each of the five values returned is at most the value stored before,
    and the returned [shutdownTime] is [max(0, shutdownTime - dt)]. *)
Theorem shutdown_monotonic_decay
  (leverValues : Lever.t) (st : PartialState) (deltaTime now : R)
  (s T W L F P : R) :
  st shutdownTime = Some (Num s) -> 0 < s -> s - deltaTime <= 10 ->
  0 < deltaTime ->
  st mainSteamTemp = Some (Num T) -> 0 < T ->
  st turbineSpeed = Some (Num W) -> 0 < W ->
  st load = Some (Num L) -> 0 <= L ->
  st mainSteamFlow = Some (Num F) -> 0 <= F ->
  st mainSteamPressure = Some (Num P) -> 0 < P ->
  let out := calculateSystemState leverValues (Some st) deltaTime now in
  let shutdownFactor := Rmax 0 ((s - deltaTime) / 10) in
  out mainSteamTemp = Some (Num (T * 0.995)) /\ T * 0.995 <= T
  /\ out turbineSpeed = Some (Num (W * 0.98)) /\ W * 0.98 <= W
  /\ out load = Some (Num (L * shutdownFactor)) /\ L * shutdownFactor <= L
  /\ out mainSteamFlow = Some (Num (F * shutdownFactor))
  /\ F * shutdownFactor <= F
  /\ out mainSteamPressure = Some (Num (P * shutdownFactor))
  /\ P * shutdownFactor <= P
  /\ out shutdownTime = Some (Num (Rmax 0 (s - deltaTime))).
Proof.
  intros Hs Hs0 Hs10 Hdt HT HT0 HW HW0 HL HL0 HF HF0 HP HP0 out k.
  pose proof (shutdownFactor_range s deltaTime Hs10) as Hk; fold k in Hk.
  subst out.
  rewrite (calculateSystemState_countdown _ _ _ _ s)
    by now apply shutdownCountdown_running.
  unfold shutdownTick; cbn [getOpt]; fold k.
  rewrite HT, HW, HL, HF, HP.
  rewrite !orElse_self.
  rewrite (orElse_Num T), (orElse_Num W), (orElse_Num P) by lra.
  repeat split; try reflexivity; nra.
Qed.

Lemma shutdown_monotonic_decay_witness :
  let st : PartialState :=
    fun f =>
      match f as f0 return option (ftype f0) with
      | shutdownTime => Some (Num 10)
      | trip => Some true
      | mainSteamTemp => Some (Num 540)
      | turbineSpeed => Some (Num 3000)
      | load => Some (Num 400)
      | mainSteamFlow => Some (Num 300)
      | mainSteamPressure => Some (Num 16)
      | _ => None
      end in
  calculateSystemState (leversAt 50) (Some st) 1 0 mainSteamTemp
  = Some (Num (540 * 0.995))
  /\ 540 * 0.995 <= 540.
Proof.
  intros st.
  destruct (shutdown_monotonic_decay (leversAt 50) st 1 0 10 540 3000 400 300 16)
    as (H1 & H2 & _); try reflexivity; try lra.
  split; assumption.
Defined.

(** C6, the failure of the claim as stated.  From the baseline every primary
    value is 0 (non-negative) and the countdown is 10, yet the tick returns
    [mainSteamTemp = 540 * 0.995]: the zero is replaced by the default
    before the decay factor is applied.  With a countdown of 30 the factor
    is 2.9 and [load] grows from 100 to 290. *)
Lemma shutdown_decay_fails_from_baseline :
  (shutdownFromBaseline shutdownTime = Some (Num 10)
   /\ shutdownFromBaseline mainSteamTemp = Some (Num 0)
   /\ shutdownFromBaseline turbineSpeed = Some (Num 0)
   /\ shutdownFromBaseline load = Some (Num 0)
   /\ shutdownFromBaseline mainSteamFlow = Some (Num 0)
   /\ shutdownFromBaseline mainSteamPressure = Some (Num 0)
   /\ calculateSystemState (leversAt 0) (Some shutdownFromBaseline) 1 0
        mainSteamTemp = Some (Num (540 * 0.995))
   /\ ~ 540 * 0.995 <= 0)
  /\ (longCountdown load = Some (Num 100)
      /\ calculateSystemState (leversAt 0) (Some longCountdown) 1 0 load
         = Some (Num 290)
      /\ ~ 290 <= 100).
Proof.
  split.
  - repeat split; try reflexivity; try lra.
    rewrite (calculateSystemState_countdown _ _ _ _ 10)
      by (apply shutdownCountdown_running; [reflexivity | lra]).
    unfold shutdownTick; cbn [getOpt].
    change (shutdownFromBaseline mainSteamTemp) with (Some (Num 0)).
    rewrite orElse_zero; reflexivity.
  - repeat split; try reflexivity; try lra.
    rewrite (calculateSystemState_countdown _ _ _ _ 30)
      by (apply shutdownCountdown_running; [reflexivity | lra]).
    unfold shutdownTick; cbn [getOpt].
    change (longCountdown load) with (Some (Num 100)).
    rewrite orElse_self, Rmax_right by lra.
    do 2 f_equal; lra.
Qed.

(** ** After the countdown *)

Lemma normalTick_mainSteamFlow lv cs dt now tr :
  normalTick lv cs dt now tr mainSteamFlow
  = Some (Num (orElse (calculateBoilerResponse (Params.ofLevers lv)
                         (currentOrDefault cs) dt mainSteamFlow) 0)).
Proof. reflexivity. Qed.

Lemma normalTick_mainSteamPressure lv cs dt now tr :
  normalTick lv cs dt now tr mainSteamPressure
  = Some (Num (orElse (calculateBoilerResponse (Params.ofLevers lv)
                         (currentOrDefault cs) dt mainSteamPressure)
                 STEAM_PRESSURE_BASE)).
Proof. reflexivity. Qed.

Lemma normalTick_mainSteamTemp lv cs dt now tr :
  normalTick lv cs dt now tr mainSteamTemp
  = Some (Num (orElse (calculateBoilerResponse (Params.ofLevers lv)
                         (currentOrDefault cs) dt mainSteamTemp)
                 STEAM_TEMP_BASE)).
Proof. reflexivity. Qed.

Lemma normalTick_turbineSpeed lv cs dt now tr :
  normalTick lv cs dt now tr turbineSpeed
  = Some (Num (orElse
                 (calculateTurbineResponse (Params.ofLevers lv)
                    (spread (currentOrDefault cs)
                       (calculateBoilerResponse (Params.ofLevers lv)
                          (currentOrDefault cs) dt)) dt turbineSpeed) 0)).
Proof. reflexivity. Qed.

Lemma normalTick_load lv cs dt now tr :
  normalTick lv cs dt now tr load
  = Some (Num (orElse
                 (calculateTurbineResponse (Params.ofLevers lv)
                    (spread (currentOrDefault cs)
                       (calculateBoilerResponse (Params.ofLevers lv)
                          (currentOrDefault cs) dt)) dt load) 0)).
Proof. reflexivity. Qed.

Lemma normalTick_frequency lv cs dt now tr :
  normalTick lv cs dt now tr frequency
  = Some (Num (calculateFrequencyFromLoad
                 (orElse
                    (calculateTurbineResponse (Params.ofLevers lv)
                       (spread (currentOrDefault cs)
                          (calculateBoilerResponse (Params.ofLevers lv)
                             (currentOrDefault cs) dt)) dt load) 0))).
Proof. reflexivity. Qed.

(** With the throttle at 0 the turbine stage aims at 0 RPM. *)
Lemma turbine_closed_speed (p : Params.t) (s : PartialState) (dt : R) :
  Params.steamTurbine p = 0 ->
  calculateTurbineResponse p s dt turbineSpeed
  = Some (Num (smoothApproach (orElse (s turbineSpeed) 1800) 0
                 SMOOTH_FACTORS.rpm dt)).
Proof.
  intros H; unfold calculateTurbineResponse; cbv zeta; cbv beta iota.
  rewrite H; do 3 f_equal; lra.
Qed.

Lemma turbine_closed_load (p : Params.t) (s : PartialState) (dt : R) :
  Params.steamTurbine p = 0 -> 0 <= Params.steamFlow p ->
  calculateTurbineResponse p s dt load
  = Some (Num (smoothApproach (orElse (s load) 0) 0
                 SMOOTH_FACTORS.steamTurbine dt)).
Proof.
  intros H Hf; unfold calculateTurbineResponse; cbv zeta; cbv beta iota.
  rewrite H; do 3 f_equal.
  rewrite Rmin_left; lra.
Qed.

(** With no fuel the boiler stage aims at zero steam flow. *)
Lemma boiler_unfired_flow (p : Params.t) (s : PartialState) (dt : R) :
  Params.coalFeed p = 0 ->
  calculateBoilerResponse p s dt mainSteamFlow
  = Some (Num (smoothApproach (orElse (s mainSteamFlow) 0) 0
                 SMOOTH_FACTORS.steamFlow dt)).
Proof.
  intros H; unfold calculateBoilerResponse; cbv zeta; cbv beta iota.
  rewrite H; do 3 f_equal; lra.
Qed.

Lemma tripped_turbineSpeed
  (leverValues : Lever.t) (st : PartialState) (deltaTime now : R) :
  st trip = Some true ->
  st shutdownTime = Some (Num 0) ->
  calculateSystemState leverValues (Some st) deltaTime now turbineSpeed
  = Some (Num (smoothApproach (orElse (st turbineSpeed) 1800) 0
                 SMOOTH_FACTORS.rpm deltaTime)).
Proof.
  intros Htrip Htime.
  rewrite calculateSystemState_tripped;
    [| now apply shutdownCountdown_zero | now apply tripCheck_latched].
  rewrite normalTick_turbineSpeed, turbine_closed_speed by reflexivity.
  now rewrite orElse_self.
Qed.

(** C7 (as amended).  With [trip = true] and [shutdownTime = 0] the
    countdown branch is not taken: the tick returns [trip = true], writes no
    [shutdownTime], and runs the normal stages with [coal_feed] and
    [steam_turbine] at 0, so that [turbineSpeed], [load] (for a non-negative
    [steam_flow] lever) and [mainSteamFlow] are the results of
    [smoothApproach] towards 0 from the stored values (after the defaults
    1800, 0 and 0); a stored positive [turbineSpeed] strictly decreases
    when [dt > 0]. *)
Theorem post_countdown_tick
  (leverValues : Lever.t) (st : PartialState) (deltaTime now : R) :
  st trip = Some true ->
  st shutdownTime = Some (Num 0) ->
  0 <= Lever.steam_flow leverValues ->
  let out := calculateSystemState leverValues (Some st) deltaTime now in
  out = normalTick (Lever.forceZero leverValues) (Some st) deltaTime now true
  /\ out trip = Some true
  /\ out shutdownTime = None
  /\ out turbineSpeed
     = Some (Num (smoothApproach (orElse (st turbineSpeed) 1800) 0
                    SMOOTH_FACTORS.rpm deltaTime))
  /\ out load
     = Some (Num (smoothApproach (orElse (st load) 0) 0
                    SMOOTH_FACTORS.steamTurbine deltaTime))
  /\ out mainSteamFlow
     = Some (Num (smoothApproach (orElse (st mainSteamFlow) 0) 0
                    SMOOTH_FACTORS.steamFlow deltaTime))
  /\ (forall W, st turbineSpeed = Some (Num W) -> 0 < W -> 0 < deltaTime ->
      smoothApproach (orElse (st turbineSpeed) 1800) 0 SMOOTH_FACTORS.rpm
        deltaTime < W).
Proof.
  intros Htrip Htime Hflow out; subst out.
  split; [| split; [| split; [| split]]].
  - apply calculateSystemState_tripped;
      [now apply shutdownCountdown_zero | now apply tripCheck_latched].
  - now apply calculateSystemState_trip_true, tripCheck_latched.
  - rewrite calculateSystemState_tripped;
      [reflexivity | now apply shutdownCountdown_zero
       | now apply tripCheck_latched].
  - now apply tripped_turbineSpeed.
  - rewrite calculateSystemState_tripped;
      [| now apply shutdownCountdown_zero | now apply tripCheck_latched].
    repeat split.
    + rewrite normalTick_load, turbine_closed_load by (cbn; auto).
      now rewrite orElse_self.
    + rewrite normalTick_mainSteamFlow, boiler_unfired_flow by reflexivity.
      now rewrite orElse_self.
    + intros W HW HW0 Hdt; rewrite HW, orElse_Num by lra.
      apply smoothApproach_down; unfold SMOOTH_FACTORS.rpm; lra.
Qed.

Lemma post_countdown_tick_witness :
  calculateSystemState (leversAt 50) (Some trippedIdle) 1 0 turbineSpeed
  = Some (Num (smoothApproach (orElse (trippedIdle turbineSpeed) 1800) 0
                 SMOOTH_FACTORS.rpm 1))
  /\ smoothApproach (orElse (trippedIdle turbineSpeed) 1800) 0
       SMOOTH_FACTORS.rpm 1 < 1000.
Proof.
  destruct (post_countdown_tick (leversAt 50) trippedIdle 1 0)
    as (_ & _ & _ & H & _ & _ & Hlt);
    [reflexivity | reflexivity | cbn; lra |].
  split; [exact H | apply Hlt; [reflexivity | lra | lra]].
Defined.

(** C7, the failure of the claim as stated: in a tripped state whose
    countdown is at 0, a tick of one second changes [turbineSpeed] from 1000
    to a strictly smaller value. *)
Lemma post_countdown_values_move :
  trippedIdle trip = Some true
  /\ trippedIdle shutdownTime = Some (Num 0)
  /\ trippedIdle turbineSpeed = Some (Num 1000)
  /\ exists W',
      calculateSystemState (leversAt 50) (Some trippedIdle) 1 0 turbineSpeed
      = Some (Num W')
      /\ W' < 1000 /\ W' <> 1000.
Proof.
  repeat split.
  eexists; split;
    [apply tripped_turbineSpeed; reflexivity |].
  change (trippedIdle turbineSpeed) with (Some (Num 1000)).
  rewrite orElse_Num by lra.
  assert (H : 0 < smoothApproach 1000 0 SMOOTH_FACTORS.rpm 1 < 1000)
    by (apply smoothApproach_down; unfold SMOOTH_FACTORS.rpm; lra).
  split; lra.
Qed.

(** ** Frequency *)

Lemma calculateSystemState_normal
  (leverValues : Lever.t) (currentState : option PartialState)
  (deltaTime now : R) :
  shutdownCountdown currentState = None ->
  tripCheck currentState = false ->
  calculateSystemState leverValues currentState deltaTime now
  = normalTick leverValues currentState deltaTime now false.
Proof.
  intros Hc Ht; unfold calculateSystemState; now rewrite Hc, Ht.
Qed.

(** Outside the countdown the tick is [normalTick] on some lever vector. *)
Lemma calculateSystemState_stages
  (leverValues : Lever.t) (currentState : option PartialState)
  (deltaTime now : R) :
  shutdownCountdown currentState = None ->
  exists lv tr,
    (lv = leverValues \/ lv = Lever.forceZero leverValues)
    /\ calculateSystemState leverValues currentState deltaTime now
       = normalTick lv currentState deltaTime now tr.
Proof.
  intros Hc; unfold calculateSystemState; rewrite Hc.
  destruct (tripCheck currentState); eauto.
Qed.

(** C8 (as amended).  Outside the countdown the returned [frequency] is
    computed from the returned [load], as [50 + (load / 600 - 1) * 0.5];
    during the countdown no [frequency] is returned.  The droop value
    [50 + (newRPM - 3000) / 60] of the turbine stage is not part of the
    result. *)
Theorem frequency_follows_load
  (leverValues : Lever.t) (currentState : option PartialState)
  (deltaTime now : R) :
  let out := calculateSystemState leverValues currentState deltaTime now in
  match shutdownCountdown currentState with
  | Some _ => out frequency = None
  | None =>
      exists L, out load = Some (Num L)
                /\ out frequency = Some (Num (50 + (L / 600 - 1) * 0.5))
  end.
Proof.
  intros out; subst out.
  destruct (shutdownCountdown currentState) as [s |] eqn:Hc.
  - now rewrite (calculateSystemState_countdown _ _ _ _ s).
  - destruct (calculateSystemState_stages leverValues currentState
                deltaTime now Hc) as (lv & tr & _ & ->).
    rewrite normalTick_load, normalTick_frequency.
    eexists; split; reflexivity.
Qed.

Lemma baseline_not_tripped (loadTime : R) :
  shutdownCountdown (Some (resetSystem loadTime)) = None
  /\ tripCheck (Some (resetSystem loadTime)) = false.
Proof.
  split; [now apply shutdownCountdown_zero |].
  rewrite tripCheck_eq; cbn [getOpt].
  change (resetSystem loadTime mainSteamTemp) with (Some (Num 0)).
  change (resetSystem loadTime turbineSpeed) with (Some (Num 0)).
  change (resetSystem loadTime trip) with (Some false).
  rewrite !orElse_zero; cbn [orElseB].
  unfold Rgtb, STEAM_TEMP_BASE; decide_R; reflexivity.
Qed.

(** C8, the failure of the claim as stated: one tick of a second from the
    baseline with every lever at 0 returns [frequency = 49.5], while the
    returned [turbineSpeed] is below 1800 and the droop formula applied to
    it gives less than 30. *)
Lemma frequency_is_not_speed_droop :
  exists W,
    calculateSystemState (leversAt 0) (Some (resetSystem 0)) 1 0 turbineSpeed
    = Some (Num W)
    /\ calculateSystemState (leversAt 0) (Some (resetSystem 0)) 1 0 frequency
       = Some (Num 49.5)
    /\ turbineStageFrequency W < 30
    /\ 49.5 <> 50 + (W - 3000) / 60.
Proof.
  destruct (baseline_not_tripped 0) as [Hc Ht].
  rewrite calculateSystemState_normal by assumption.
  rewrite normalTick_turbineSpeed, normalTick_frequency.
  rewrite turbine_closed_speed, turbine_closed_load by (cbn; lra).
  change (spread _ _ turbineSpeed) with (Some (Num 0)).
  change (spread (currentOrDefault (Some (resetSystem 0))) _ load)
    with (Some (Num 0)).
  rewrite !orElse_zero, !orElse_self, smoothApproach_fixed.
  assert (H : 0 < smoothApproach 1800 0 SMOOTH_FACTORS.rpm 1 < 1800)
    by (apply smoothApproach_down; unfold SMOOTH_FACTORS.rpm; lra).
  eexists; split; [reflexivity |].
  unfold calculateFrequencyFromLoad, calculateFrequency, turbineStageFrequency.
  repeat split; try lra.
  do 2 f_equal; lra.
Qed.

(** ** A tick with [dt = 0], and with [dt < 0] *)

Lemma orElse_idem (v : option jsnum) (d : R) :
  orElse (Some (Num (orElse v d))) d = orElse v d.
Proof.
  unfold orElse at 1.
  destruct (Rzerob (orElse v d)) eqn:E; [| reflexivity].
  apply Rzerob_true in E.
  destruct v as [[| r] |]; cbn in *; try congruence.
  destruct (Rzerob r) eqn:E'; [congruence |].
  apply Rzerob_false in E'; congruence.
Qed.

Lemma normalTick_dt0 lv st now tr :
  let out := normalTick lv (Some st) 0 now tr in
  out mainSteamTemp
  = Some (Num (orElse (st mainSteamTemp) STEAM_TEMP_BASE))
  /\ out mainSteamPressure
     = Some (Num (orElse (st mainSteamPressure) STEAM_PRESSURE_BASE))
  /\ out mainSteamFlow = Some (Num (orElse (st mainSteamFlow) 0))
  /\ out turbineSpeed = Some (Num (orElse (st turbineSpeed) 1800))
  /\ out load = Some (Num (orElse (st load) 0)).
Proof.
  intros out; subst out.
  rewrite normalTick_mainSteamTemp, normalTick_mainSteamPressure,
    normalTick_mainSteamFlow, normalTick_turbineSpeed, normalTick_load.
  unfold calculateBoilerResponse, calculateTurbineResponse;
    cbv zeta; cbv beta iota.
  rewrite !smoothApproach_dt0.
  cbn [currentOrDefault].
  rewrite !orElse_idem, !orElse_self.
  repeat split.
Qed.

(** C4 (as amended).  The engine has no guard on [dt].  With [dt = 0] and
    no countdown running, the five primary values returned are the stored
    ones after the engine's defaults for a missing or zero value (540, 16.5,
    0, 1800 and 0), so a stored non-zero number is returned unchanged; the
    other keys are recomputed from the levers. *)
Theorem zero_dt_tick
  (leverValues : Lever.t) (st : PartialState) (now : R) :
  shutdownCountdown (Some st) = None ->
  let out := calculateSystemState leverValues (Some st) 0 now in
  out mainSteamTemp
  = Some (Num (orElse (st mainSteamTemp) STEAM_TEMP_BASE))
  /\ out mainSteamPressure
     = Some (Num (orElse (st mainSteamPressure) STEAM_PRESSURE_BASE))
  /\ out mainSteamFlow = Some (Num (orElse (st mainSteamFlow) 0))
  /\ out turbineSpeed = Some (Num (orElse (st turbineSpeed) 1800))
  /\ out load = Some (Num (orElse (st load) 0)).
Proof.
  intros Hc out; subst out.
  destruct (calculateSystemState_stages leverValues (Some st) 0 now Hc)
    as (lv & tr & _ & ->).
  apply normalTick_dt0.
Qed.

Lemma zero_dt_tick_witness :
  calculateSystemState (leversAt 50) (Some atWork) 0 0 mainSteamTemp
  = Some (Num 540)
  /\ calculateSystemState (leversAt 50) (Some atWork) 0 0 turbineSpeed
     = Some (Num 3000).
Proof.
  destruct (zero_dt_tick (leversAt 50) atWork 0)
    as (H1 & _ & _ & H4 & _).
  - now apply shutdownCountdown_zero.
  - change (atWork mainSteamTemp) with (Some (Num 540)) in H1.
    change (atWork turbineSpeed) with (Some (Num 3000)) in H4.
    rewrite orElse_Num in H1, H4 by lra.
    split; assumption.
Defined.

(** C4, the failure of the claim as stated: with [dt = -1] the countdown
    moves from 5 to 6 and the temperature from 500 to 497.5; with [dt = 0]
    the temperature still moves to 497.5. *)
Lemma nonpositive_dt_changes_state :
  countingDown shutdownTime = Some (Num 5)
  /\ countingDown mainSteamTemp = Some (Num 500)
  /\ calculateSystemState (leversAt 50) (Some countingDown) (-1) 0
       shutdownTime = Some (Num 6)
  /\ calculateSystemState (leversAt 50) (Some countingDown) (-1) 0
       mainSteamTemp = Some (Num 497.5)
  /\ calculateSystemState (leversAt 50) (Some countingDown) 0 0
       mainSteamTemp = Some (Num 497.5)
  /\ 6 <> 5 /\ 497.5 <> 500.
Proof.
  assert (Hc : shutdownCountdown (Some countingDown) = Some 5)
    by (apply shutdownCountdown_running; [reflexivity | lra]).
  rewrite !(calculateSystemState_countdown _ _ _ _ 5) by exact Hc.
  unfold shutdownTick; cbn [getOpt].
  change (countingDown mainSteamTemp) with (Some (Num 500)).
  rewrite orElse_Num by lra.
  repeat split; try lra.
  - rewrite Rmax_right by lra; do 2 f_equal; lra.
  - do 2 f_equal; lra.
  - do 2 f_equal; lra.
Qed.

(** ** Revenue *)

(** C9 (as amended).  In the first file [calculateEarnings] is
    [powerOutput * rate * (durationSeconds / 3600)] with rate 1000000, for
    all arguments.  In the second file the result is floored at 0: it is the
    same product with rate 10 when [powerOutput * durationSeconds] is
    non-negative and 0 otherwise.  Both are functions of their two arguments
    alone and both return 0 for a duration of 0. *)
Theorem calculateEarnings_contract (powerOutput durationSeconds : R) :
  calculateEarnings powerOutput durationSeconds
  = powerOutput * 1000000 * (durationSeconds / 3600)
  /\ calculateEarnings powerOutput 0 = 0
  /\ (0 <= powerOutput * durationSeconds ->
      CalculationB.calculateEarnings powerOutput durationSeconds
      = powerOutput * 10 * (durationSeconds / 3600))
  /\ (powerOutput * durationSeconds <= 0 ->
      CalculationB.calculateEarnings powerOutput durationSeconds = 0)
  /\ CalculationB.calculateEarnings powerOutput 0 = 0
  /\ (forall p d, p = powerOutput -> d = durationSeconds ->
      calculateEarnings p d = calculateEarnings powerOutput durationSeconds
      /\ CalculationB.calculateEarnings p d
         = CalculationB.calculateEarnings powerOutput durationSeconds).
Proof.
  unfold calculateEarnings, CalculationB.calculateEarnings.
  repeat split.
  - lra.
  - lra.
  - intros H; rewrite Rmax_right; nra.
  - intros H; rewrite Rmax_left; nra.
  - rewrite Rmax_left; lra.
  - subst; reflexivity.
  - subst; reflexivity.
Qed.

Lemma calculateEarnings_contract_witness :
  CalculationB.calculateEarnings 400 3600 = 400 * 10 * (3600 / 3600)
  /\ CalculationB.calculateEarnings (-1) 3600 = 0.
Proof.
  split.
  - apply (calculateEarnings_contract 400 3600); lra.
  - apply (calculateEarnings_contract (-1) 3600); lra.
Defined.

(** C9, the failure of the claim as stated: in the second file no rate
    constant fits, because one megawatt for an hour earns 10 and minus one
    megawatt for an hour earns 0, not -10. *)
Lemma earnings_floor_breaks_linearity :
  CalculationB.calculateEarnings 1 3600 = 10
  /\ CalculationB.calculateEarnings (-1) 3600 = 0
  /\ ~ exists rate,
        forall powerOutput durationSeconds,
          CalculationB.calculateEarnings powerOutput durationSeconds
          = powerOutput * rate * (durationSeconds / 3600).
Proof.
  assert (H1 : CalculationB.calculateEarnings 1 3600 = 10).
  { unfold CalculationB.calculateEarnings; rewrite Rmax_right; lra. }
  assert (H2 : CalculationB.calculateEarnings (-1) 3600 = 0).
  { unfold CalculationB.calculateEarnings; rewrite Rmax_left; lra. }
  repeat split; auto.
  intros [rate H].
  pose proof (H 1 3600) as E1; pose proof (H (-1) 3600) as E2.
  rewrite H1 in E1; rewrite H2 in E2; lra.
Qed.

(** ** Bounds of one tick *)

Lemma orElse_range (r d lo hi : R) :
  lo <= r <= hi -> lo <= d <= hi -> lo <= orElse (Some (Num r)) d <= hi.
Proof. intros Hr Hd; unfold orElse; destruct (Rzerob r); assumption. Qed.

Lemma orElse_ge (r d lo : R) :
  lo <= r -> lo <= d -> lo <= orElse (Some (Num r)) d.
Proof. intros Hr Hd; unfold orElse; destruct (Rzerob r); assumption. Qed.

Lemma Rmin_1_range (y : R) : 0 <= y -> 0 <= Rmin 1 y <= 1.
Proof. intros H; split; [apply Rmin_glb; lra | apply Rmin_l]. Qed.

Lemma boiler_stage_bounds (p : Params.t) (s : PartialState) (dt T P F : R) :
  0 <= Params.coalFeed p <= 100 -> 0 <= Params.airSupply p <= 100 ->
  0 < dt <= 3600 ->
  s mainSteamTemp = Some (Num T) -> 200 <= T <= 600 ->
  s mainSteamPressure = Some (Num P) -> 0 <= P ->
  s mainSteamFlow = Some (Num F) -> 0 <= F <= 500 ->
  exists T' P' F',
    calculateBoilerResponse p s dt mainSteamTemp = Some (Num T')
    /\ calculateBoilerResponse p s dt mainSteamPressure = Some (Num P')
    /\ calculateBoilerResponse p s dt mainSteamFlow = Some (Num F')
    /\ 196 <= T' <= 606 /\ 0 <= P' /\ 0 <= F' <= 500.
Proof.
  intros Hc Ha Hdt HT HT' HP HP' HF HF'.
  unfold calculateBoilerResponse; cbv zeta; cbv beta iota.
  rewrite HT, HP, HF, orElse_self, (orElse_Num T) by lra.
  set (fuelRate := Params.coalFeed p / 100).
  set (ratioEfficiency := Rmax 0.4 _).
  set (combustionEfficiency := ratioEfficiency * (0.7 + fuelRate * 0.3)).
  set (tempChange := (_ - T * 0.02 * dt) / (4.186 * 1000) * dt / 3600).
  set (newTemp := smoothApproach T (T + tempChange) SMOOTH_FACTORS.temperature dt).
  assert (Hfuel : 0 <= fuelRate <= 1) by (unfold fuelRate; lra).
  assert (Hratio : 0.4 <= ratioEfficiency <= 1).
  { split; [apply Rmax_l |].
    apply Rmax_lub; [lra |].
    match goal with |- 1 - Rabs ?x / _ <= 1 => pose proof (Rabs_pos x) end.
    lra. }
  assert (Hcomb : 0.28 <= combustionEfficiency <= 1)
    by (unfold combustionEfficiency; split; nra).
  assert (Htarget : 196 <= T + tempChange <= 606).
  { unfold tempChange, COAL_CALORIFIC_VALUE.
    set (heatInput := fuelRate * 25000 * combustionEfficiency).
    assert (Hheat : 0 <= heatInput <= 25000) by (unfold heatInput; split; nra).
    set (u := dt / 3600).
    assert (Hu : 0 < u <= 1) by (unfold u; lra).
    replace ((heatInput - T * 0.02 * dt) / (4.186 * 1000) * dt / 3600)
      with (heatInput * u / 4186 - 72 * (T * u * u) / 4186)
      by (unfold u; lra).
    assert (0 <= heatInput * u <= 25000) by (split; nra).
    assert (0 <= T * u <= T) by (split; nra).
    assert (0 <= T * u * u <= T) by (split; nra).
    split; lra. }
  assert (Hnew : 196 <= newTemp <= 606).
  { apply smoothApproach_between; unfold SMOOTH_FACTORS.temperature; lra. }
  assert (Hsteam :
            0 <= Rmin 1 (newTemp / STEAM_TEMP_BASE) * combustionEfficiency <= 1).
  { pose proof (Rmin_1_range (newTemp / STEAM_TEMP_BASE)) as Hm.
    unfold STEAM_TEMP_BASE in *.
    assert (H : 0 <= newTemp / 540) by lra.
    specialize (Hm H); split; nra. }
  do 3 eexists; repeat split; try reflexivity; try lra.
  - apply smoothApproach_ge; unfold SMOOTH_FACTORS.pressure; try lra.
    + apply orElse_ge; unfold STEAM_PRESSURE_BASE; lra.
    + assert (0 <= (newTemp / 100) ^ 4) by (apply pow_le; lra).
      nra.
  - apply smoothApproach_ge; unfold SMOOTH_FACTORS.steamFlow; try lra.
    nra.
  - apply smoothApproach_le; unfold SMOOTH_FACTORS.steamFlow; try lra.
    nra.
Qed.

Lemma turbine_stage_bounds
  (p : Params.t) (s : PartialState) (dt T P F W L : R) :
  0 <= Params.steamTurbine p <= 100 -> 0 <= Params.steamFlow p <= 100 ->
  0 <= dt ->
  s mainSteamTemp = Some (Num T) -> 196 <= T <= 606 ->
  s mainSteamPressure = Some (Num P) -> 0 <= P ->
  s mainSteamFlow = Some (Num F) -> 0 <= F <= 500 ->
  s turbineSpeed = Some (Num W) -> 0 <= W <= 3600 ->
  s load = Some (Num L) -> 0 <= L <= 600 ->
  exists W' L',
    calculateTurbineResponse p s dt turbineSpeed = Some (Num W')
    /\ calculateTurbineResponse p s dt load = Some (Num L')
    /\ 0 <= W' <= 3600 /\ 0 <= L' <= 600.
Proof.
  intros Hv Hd Hdt HT HT' HP HP' HF HF' HW HW' HL HL'.
  unfold calculateTurbineResponse; cbv zeta; cbv beta iota.
  rewrite HT, HP, HF, HW, HL, !orElse_self, (orElse_Num T) by lra.
  set (valveOpening := Params.steamTurbine p / 100).
  set (loadDemand := Params.steamFlow p / 100).
  set (mainSteamPressure := orElse (Some (Num P)) STEAM_PRESSURE_BASE).
  set (currentRPM := orElse (Some (Num W)) 1800).
  set (actualEfficiency :=
         TURBINE_EFFICIENCY_BASE * (0.8 + valveOpening * 0.2)
         * Rmin 1 (mainSteamPressure / 5.0 / 3)).
  set (steamPower :=
         F * (2.0 * T + 2500 - (2.0 * 40 + 2500)) * actualEfficiency / 3600).
  set (maxMechanicalPower := steamPower * valveOpening).
  assert (Hvalve : 0 <= valveOpening <= 1) by (unfold valveOpening; lra).
  assert (Hdemand : 0 <= loadDemand <= 1) by (unfold loadDemand; lra).
  assert (Hpress : 0 <= mainSteamPressure)
    by (apply orElse_ge; unfold STEAM_PRESSURE_BASE; lra).
  assert (Hrpm : 0 <= currentRPM <= 3600) by (apply orElse_range; lra).
  assert (Heff : 0 <= actualEfficiency <= 0.88).
  { unfold actualEfficiency, TURBINE_EFFICIENCY_BASE.
    pose proof (Rmin_1_range (mainSteamPressure / 5.0 / 3)) as Hm.
    assert (H : 0 <= mainSteamPressure / 5.0 / 3) by lra.
    specialize (Hm H); split; nra. }
  assert (Hpower : 0 <= steamPower <= 139).
  { unfold steamPower.
    assert (Hwork : 0 <= F * (2.0 * T + 2500 - (2.0 * 40 + 2500)) <= 566000)
      by (split; nra).
    split; nra. }
  assert (Hmech : 0 <= maxMechanicalPower <= 139)
    by (unfold maxMechanicalPower; split; nra).
  do 2 eexists; split; [reflexivity | split; [reflexivity |]].
  split.
  - apply smoothApproach_between; unfold SMOOTH_FACTORS.rpm; lra.
  - apply smoothApproach_between; unfold SMOOTH_FACTORS.steamTurbine; try lra.
    unfold GENERATOR_EFFICIENCY; split.
    + apply Rmin_glb; nra.
    + eapply Rle_trans; [apply Rmin_r | nra].
Qed.

Lemma forceZero_inRange (lv : Lever.t) :
  leversInRange lv -> leversInRange (Lever.forceZero lv).
Proof.
  unfold leversInRange, inRange; cbn.
  intros (H1 & H2 & H3 & H4 & H5 & H6 & H7 & H8 & H9 & H10 & H11 & H12).
  repeat split; lra.
Qed.

Lemma shutdownCountdown_inv (st : PartialState) (t : R) :
  shutdownCountdown (Some st) = Some t ->
  st shutdownTime = Some (Num t) /\ 0 < t.
Proof.
  unfold shutdownCountdown; cbn [getOpt].
  destruct (st shutdownTime) as [[| r] |]; try discriminate.
  destruct (Rzerob r); cbn [negb andb]; try discriminate.
  destruct (Rgtb r 0) eqn:E; try discriminate.
  intros [= <-]; split; [reflexivity | now apply Rgtb_true].
Qed.

Lemma normalTick_bounds
  (lv : Lever.t) (st : PartialState) (dt now : R) (tr : bool)
  (T P F W L : R) :
  leversInRange lv -> 0 < dt <= 3600 ->
  st mainSteamTemp = Some (Num T) -> 200 <= T <= 600 ->
  st mainSteamPressure = Some (Num P) -> 0 <= P ->
  st mainSteamFlow = Some (Num F) -> 0 <= F <= 500 ->
  st turbineSpeed = Some (Num W) -> 0 <= W <= 3600 ->
  st load = Some (Num L) -> 0 <= L <= 600 ->
  let out := normalTick lv (Some st) dt now tr in
  exists T' P' F' W' L',
    out mainSteamTemp = Some (Num T')
    /\ out mainSteamPressure = Some (Num P')
    /\ out mainSteamFlow = Some (Num F')
    /\ out turbineSpeed = Some (Num W')
    /\ out load = Some (Num L')
    /\ 196 <= T' <= 606 /\ 0 <= P' /\ 0 <= F' <= 500
    /\ 0 <= W' <= 3600 /\ 0 <= L' <= 600.
Proof.
  intros Hlv Hdt HT HT' HP HP' HF HF' HW HW' HL HL' out; subst out.
  destruct Hlv as (Hcoal & _ & _ & Hvalve & _ & _ & Hair & _ & Hflow & _).
  unfold inRange in *.
  destruct (boiler_stage_bounds (Params.ofLevers lv) st dt T P F)
    as (T1 & P1 & F1 & ET & EP & EF & HT1 & HP1 & HF1); auto.
  set (s := spread st (calculateBoilerResponse (Params.ofLevers lv) st dt)).
  assert (ST : s mainSteamTemp = Some (Num T1))
    by (unfold s, spread; now rewrite ET).
  assert (SP : s mainSteamPressure = Some (Num P1))
    by (unfold s, spread; now rewrite EP).
  assert (SF : s mainSteamFlow = Some (Num F1))
    by (unfold s, spread; now rewrite EF).
  assert (SW : s turbineSpeed = Some (Num W)) by exact HW.
  assert (SL : s load = Some (Num L)) by exact HL.
  destruct (turbine_stage_bounds (Params.ofLevers lv) s dt T1 P1 F1 W L)
    as (W1 & L1 & EW & EL & HW1 & HL1); auto; try lra.
  rewrite normalTick_mainSteamTemp, normalTick_mainSteamPressure,
    normalTick_mainSteamFlow, normalTick_turbineSpeed, normalTick_load.
  cbn [currentOrDefault]; fold s.
  rewrite ET, EP, EF, EW, EL, !orElse_self, (orElse_Num T1) by lra.
  do 5 eexists; repeat split; try reflexivity; try lra.
  apply orElse_ge; unfold STEAM_PRESSURE_BASE; lra.
Qed.

(** C5 (as amended).  The stages do not clamp their smoothed outputs.  For
    levers in [0, 100], a time slice of at most an hour, a countdown (if
    any) of at most ten seconds and a previous state with
    [200 <= mainSteamTemp <= 600], [0 <= mainSteamPressure],
    [0 <= mainSteamFlow <= 500], [0 <= turbineSpeed <= 3600] and
    [0 <= load <= 600], the tick returns [0 <= mainSteamPressure],
    [0 <= mainSteamFlow <= 500], [0 <= turbineSpeed <= 3600] and
    [0 <= load <= 600]; the returned [mainSteamTemp] is only known to lie
    in [196, 606]. *)
Theorem bounded_tick
  (leverValues : Lever.t) (st : PartialState) (deltaTime now : R)
  (T P F W L : R) :
  leversInRange leverValues -> 0 < deltaTime <= 3600 ->
  (forall s, st shutdownTime = Some (Num s) -> s <= 10) ->
  st mainSteamTemp = Some (Num T) -> 200 <= T <= 600 ->
  st mainSteamPressure = Some (Num P) -> 0 <= P ->
  st mainSteamFlow = Some (Num F) -> 0 <= F <= 500 ->
  st turbineSpeed = Some (Num W) -> 0 <= W <= 3600 ->
  st load = Some (Num L) -> 0 <= L <= 600 ->
  let out := calculateSystemState leverValues (Some st) deltaTime now in
  exists T' P' F' W' L',
    out mainSteamTemp = Some (Num T')
    /\ out mainSteamPressure = Some (Num P')
    /\ out mainSteamFlow = Some (Num F')
    /\ out turbineSpeed = Some (Num W')
    /\ out load = Some (Num L')
    /\ 196 <= T' <= 606 /\ 0 <= P' /\ 0 <= F' <= 500
    /\ 0 <= W' <= 3600 /\ 0 <= L' <= 600.
Proof.
  intros Hlv Hdt Hcount HT HT' HP HP' HF HF' HW HW' HL HL' out; subst out.
  destruct (shutdownCountdown (Some st)) as [s |] eqn:Hc.
  - apply shutdownCountdown_inv in Hc as [Hs Hs0].
    pose proof (Hcount s Hs) as Hs10.
    rewrite (calculateSystemState_countdown _ _ _ _ s)
      by now apply shutdownCountdown_running.
    unfold shutdownTick; cbn [getOpt].
    rewrite HT, HP, HF, HW, HL, !orElse_self, (orElse_Num T) by lra.
    pose proof (shutdownFactor_range s deltaTime) as Hk.
    set (k := Rmax 0 ((s - deltaTime) / 10)) in *.
    assert (Hk' : 0 <= k <= 1) by (apply Hk; lra).
    assert (HW1 : 0 <= orElse (Some (Num W)) 1800 <= 3600)
      by (apply orElse_range; lra).
    assert (HP1 : 0 <= orElse (Some (Num P)) STEAM_PRESSURE_BASE)
      by (apply orElse_ge; unfold STEAM_PRESSURE_BASE; lra).
    do 5 eexists; repeat split; try reflexivity; nra.
  - destruct (calculateSystemState_stages leverValues (Some st)
                deltaTime now Hc) as (lv & tr & Hlv' & ->).
    apply (normalTick_bounds lv st deltaTime now tr T P F W L); auto.
    destruct Hlv' as [-> | ->]; auto using forceZero_inRange.
Qed.

Lemma bounded_tick_witness :
  exists T' P' F' W' L',
    calculateSystemState fullFire (Some atUpperLimit) 1 0 mainSteamTemp
    = Some (Num T')
    /\ calculateSystemState fullFire (Some atUpperLimit) 1 0 mainSteamPressure
       = Some (Num P')
    /\ calculateSystemState fullFire (Some atUpperLimit) 1 0 mainSteamFlow
       = Some (Num F')
    /\ calculateSystemState fullFire (Some atUpperLimit) 1 0 turbineSpeed
       = Some (Num W')
    /\ calculateSystemState fullFire (Some atUpperLimit) 1 0 load
       = Some (Num L')
    /\ 196 <= T' <= 606 /\ 0 <= P' /\ 0 <= F' <= 500
    /\ 0 <= W' <= 3600 /\ 0 <= L' <= 600.
Proof.
  apply (bounded_tick fullFire atUpperLimit 1 0 600 16 300 3000 400);
    try reflexivity; try lra.
  - unfold leversInRange, inRange; cbn; repeat split; lra.
  - intros s [= <-]; lra.
Defined.

Lemma boiler_newTemp (p : Params.t) (s : PartialState) (dt : R) :
  calculateBoilerResponse p s dt mainSteamTemp
  = Some (Num
      (let currentTemp := orElse (s mainSteamTemp) STEAM_TEMP_BASE in
       let fuelRate := Params.coalFeed p / 100 in
       let actualRatio := Params.airSupply p / 100 / Rmax fuelRate 0.01 in
       let ratioEfficiency :=
         Rmax 0.4 (1 - Rabs (actualRatio - 15.5) / 15.5) in
       let combustionEfficiency := ratioEfficiency * (0.7 + fuelRate * 0.3) in
       let netHeat :=
         fuelRate * COAL_CALORIFIC_VALUE * combustionEfficiency
         - currentTemp * 0.02 * dt in
       let tempChange := netHeat / (4.186 * 1000) * dt / 3600 in
       smoothApproach currentTemp (currentTemp + tempChange)
         SMOOTH_FACTORS.temperature dt)).
Proof. reflexivity. Qed.

Lemma tripCheck_false (st : PartialState) (T W : R) :
  st mainSteamTemp = Some (Num T) -> T <= 620 ->
  st turbineSpeed = Some (Num W) -> W <= 3600 ->
  st trip = Some false ->
  tripCheck (Some st) = false.
Proof.
  intros HT HT' HW HW' Htrip.
  rewrite tripCheck_eq; cbn [getOpt]; rewrite HT, HW, Htrip; cbn [orElseB].
  rewrite (proj2 (Rgtb_false _ 620)), (proj2 (Rgtb_false _ 3600));
    [reflexivity | |].
  - unfold orElse; destruct (Rzerob W); lra.
  - unfold orElse, STEAM_TEMP_BASE; destruct (Rzerob T); lra.
Qed.

(** For [rate * dt >= 1] the smoothing weight is at least one half. *)
Lemma weight_large (rate dt : R) :
  1 <= rate * dt -> 1 / 2 <= 1 - exp (- rate * dt).
Proof.
  intros H.
  replace (- rate * dt) with (- (rate * dt)) by lra.
  rewrite exp_Ropp.
  pose proof (exp_ineq1_le (rate * dt)) as He.
  assert (Hi : / exp (rate * dt) <= / 2)
    by (apply Rinv_le_contravar; lra).
  lra.
Qed.

(** C5, the failure of the claim as stated.  With coal and air fully open a
    tick of one second moves [mainSteamTemp] from 600 to a larger value;
    with every lever at 0 it moves it from 200 to a smaller value, and a
    tick of 100000 seconds makes it negative. *)
Lemma temperature_leaves_its_range :
  leversInRange fullFire
  /\ atUpperLimit mainSteamTemp = Some (Num 600)
  /\ (exists T',
        calculateSystemState fullFire (Some atUpperLimit) 1 0 mainSteamTemp
        = Some (Num T') /\ 600 < T')
  /\ leversInRange (leversAt 0)
  /\ atLowerLimit mainSteamTemp = Some (Num 200)
  /\ (exists T',
        calculateSystemState (leversAt 0) (Some atLowerLimit) 1 0 mainSteamTemp
        = Some (Num T') /\ T' < 200)
  /\ (exists T',
        calculateSystemState (leversAt 0) (Some atLowerLimit) 100000 0
          mainSteamTemp
        = Some (Num T') /\ T' < 0).
Proof.
  split; [unfold leversInRange, inRange; cbn; repeat split; lra |].
  split; [reflexivity |].
  split; [| split; [unfold leversInRange, inRange; cbn; repeat split; lra |
                    split; [reflexivity | split]]].
  - rewrite calculateSystemState_normal;
      [| now apply shutdownCountdown_zero
       | apply (tripCheck_false _ 600 3000); try reflexivity; lra].
    rewrite normalTick_mainSteamTemp, boiler_newTemp.
    cbn [currentOrDefault]; cbv zeta.
    change (atUpperLimit mainSteamTemp) with (Some (Num 600)).
    rewrite (orElse_Num 600) by lra.
    change (Params.coalFeed (Params.ofLevers fullFire)) with 100.
    set (ratioEfficiency := Rmax 0.4 _).
    assert (Hr : 0.4 <= ratioEfficiency) by apply Rmax_l.
    set (target := 600 + _).
    assert (Ht : 600 < target).
    { unfold target, COAL_CALORIFIC_VALUE.
      assert (0 < 100 / 100 * 25000 * (ratioEfficiency * (0.7 + 100 / 100 * 0.3))
                  - 600 * 0.02 * 1) by nra.
      nra. }
    assert (Hn : 600 < smoothApproach 600 target SMOOTH_FACTORS.temperature 1
                 < target)
      by (apply smoothApproach_up; unfold SMOOTH_FACTORS.temperature; lra).
    rewrite orElse_Num by lra.
    eexists; split; [reflexivity | lra].
  - rewrite calculateSystemState_normal;
      [| now apply shutdownCountdown_zero
       | apply (tripCheck_false _ 200 1000); try reflexivity; lra].
    rewrite normalTick_mainSteamTemp, boiler_newTemp.
    cbn [currentOrDefault]; cbv zeta.
    change (atLowerLimit mainSteamTemp) with (Some (Num 200)).
    rewrite (orElse_Num 200) by lra.
    change (Params.coalFeed (Params.ofLevers (leversAt 0))) with 0.
    set (ratioEfficiency := Rmax 0.4 _).
    set (target := 200 + _).
    assert (Ht : 199 < target < 200).
    { unfold target, COAL_CALORIFIC_VALUE. split; lra. }
    assert (Hn : target < smoothApproach 200 target SMOOTH_FACTORS.temperature 1
                 < 200)
      by (apply smoothApproach_down; unfold SMOOTH_FACTORS.temperature; lra).
    rewrite orElse_Num by lra.
    eexists; split; [reflexivity | lra].
  - rewrite calculateSystemState_normal;
      [| now apply shutdownCountdown_zero
       | apply (tripCheck_false _ 200 1000); try reflexivity; lra].
    rewrite normalTick_mainSteamTemp, boiler_newTemp.
    cbn [currentOrDefault]; cbv zeta.
    change (atLowerLimit mainSteamTemp) with (Some (Num 200)).
    rewrite (orElse_Num 200) by lra.
    change (Params.coalFeed (Params.ofLevers (leversAt 0))) with 0.
    set (ratioEfficiency := Rmax 0.4 _).
    set (target := 200 + _).
    assert (Ht : target < -2400).
    { unfold target, COAL_CALORIFIC_VALUE; lra. }
    assert (Hw : 1 / 2 <= 1 - exp (- SMOOTH_FACTORS.temperature * 100000))
      by (apply weight_large; unfold SMOOTH_FACTORS.temperature; lra).
    assert (Hn : smoothApproach 200 target SMOOTH_FACTORS.temperature 100000
                 < -1000)
      by (unfold smoothApproach; nra).
    rewrite orElse_Num by lra.
    eexists; split; [reflexivity | lra].
Qed.

(** ** Further facts about the tick and the store *)

(** What [updateLever] stores for a lever with range 0 to 100 is in
    range. *)
Lemma clampLever_inRange (value : R) : inRange (clampLever 0 100 value).
Proof.
  unfold inRange, clampLever; split; [apply Rmax_l |].
  apply Rmax_lub; [lra | apply Rmin_l].
Qed.

(** [resetSystem] installs the baseline, key by key. *)
Lemma resetSystem_baseline (loadTime : R) (f : field) :
  resetSystem loadTime f = initialSystemState loadTime f.
Proof. destruct f; reflexivity. Qed.

(** The trip check reads the stored temperature: a tick that drives the
    temperature above 620 still returns [trip = false], and the flag is
    raised by the tick after it. *)
Lemma trip_lags_one_tick :
  exists T',
    calculateSystemState fullFire (Some atCeiling) 1 0 mainSteamTemp
    = Some (Num T')
    /\ 620 < T'
    /\ calculateSystemState fullFire (Some atCeiling) 1 0 trip = Some false.
Proof.
  assert (Hc : shutdownCountdown (Some atCeiling) = None)
    by now apply shutdownCountdown_zero.
  assert (Ht : tripCheck (Some atCeiling) = false)
    by (apply (tripCheck_false _ 620 3000); try reflexivity; lra).
  rewrite calculateSystemState_trip, Hc, Ht.
  rewrite calculateSystemState_normal by assumption.
  rewrite normalTick_mainSteamTemp, boiler_newTemp.
  cbn [currentOrDefault]; cbv zeta.
  change (atCeiling mainSteamTemp) with (Some (Num 620)).
  rewrite (orElse_Num 620) by lra.
  change (Params.coalFeed (Params.ofLevers fullFire)) with 100.
  set (ratioEfficiency := Rmax 0.4 _).
  assert (Hr : 0.4 <= ratioEfficiency) by apply Rmax_l.
  set (target := 620 + _).
  assert (Htarget : 620 < target).
  { unfold target, COAL_CALORIFIC_VALUE.
    assert (0 < 100 / 100 * 25000 * (ratioEfficiency * (0.7 + 100 / 100 * 0.3))
                - 620 * 0.02 * 1) by nra.
    nra. }
  assert (Hn : 620 < smoothApproach 620 target SMOOTH_FACTORS.temperature 1
               < target)
    by (apply smoothApproach_up; unfold SMOOTH_FACTORS.temperature; lra).
  rewrite orElse_Num by lra.
  eexists; repeat split; lra.
Qed.

(** [calculateFeedwaterTemp] is called on [params], which has no
    [mainSteamTemp]: outside the countdown the returned [feedwaterTemp] is
    [NaN]. *)
Lemma feedwaterTemp_is_NaN
  (leverValues : Lever.t) (currentState : option PartialState)
  (deltaTime now : R) :
  shutdownCountdown currentState = None ->
  calculateSystemState leverValues currentState deltaTime now feedwaterTemp
  = Some NaN.
Proof.
  intros Hc.
  destruct (calculateSystemState_stages leverValues currentState
              deltaTime now Hc) as (lv & tr & _ & ->).
  reflexivity.
Qed.

(** The state in which the countdown leaves the plant: tripped, timer at
    0, pressure at 0. *)
Lemma afterCountdown_fields :
  afterCountdown trip = Some true
  /\ afterCountdown shutdownTime = Some (Num 0)
  /\ afterCountdown mainSteamPressure = Some (Num 0)
  /\ afterCountdown mainSteamTemp = Some (Num (540 * 0.995)).
Proof.
  unfold afterCountdown; cbv zeta.
  rewrite (calculateSystemState_countdown _ _ _ _ 10)
    by (apply shutdownCountdown_running; [reflexivity | lra]).
  unfold spread, shutdownTick; cbn [getOpt].
  change (shutdownSystem atWork mainSteamPressure) with (Some (Num 16)).
  change (shutdownSystem atWork mainSteamTemp) with (Some (Num 540)).
  rewrite !orElse_Num by (unfold STEAM_TEMP_BASE; lra).
  replace ((10 - 10) / 10) with 0 by lra.
  replace (10 - 10) with 0 by lra.
  rewrite Rmax_left by lra.
  repeat split; do 2 f_equal; lra.
Qed.

(** The tick after the countdown reads the stored pressure 0 as missing
    and restarts it from the default 16.5 towards the saturation target:
    the value does not stay at the floor of the countdown. *)
Lemma pressure_restarts_after_countdown :
  exists P',
    calculateSystemState (leversAt 50) (Some afterCountdown) 1 0
      mainSteamPressure = Some (Num P')
    /\ 16.5 < P'.
Proof.
  destruct afterCountdown_fields as (Htrip & Htime & HP & HT).
  rewrite calculateSystemState_tripped;
    [| now apply shutdownCountdown_zero | now apply tripCheck_latched].
  rewrite normalTick_mainSteamPressure.
  unfold calculateBoilerResponse; cbv zeta; cbv beta iota.
  cbn [currentOrDefault].
  rewrite HP, HT, orElse_zero, (orElse_Num (540 * 0.995)) by lra.
  change (Params.coalFeed (Params.ofLevers (Lever.forceZero (leversAt 50))))
    with 0.
  set (tempChange := (_ - _) / (4.186 * 1000) * 1 / 3600).
  assert (Htc : -1 < tempChange < 0).
  { unfold tempChange, COAL_CALORIFIC_VALUE; split; lra. }
  set (newTemp := smoothApproach _ _ SMOOTH_FACTORS.temperature 1).
  assert (Hn : 536 < newTemp < 538).
  { unfold newTemp.
    assert (H : 540 * 0.995 + tempChange
                < smoothApproach (540 * 0.995) (540 * 0.995 + tempChange)
                    SMOOTH_FACTORS.temperature 1 < 540 * 0.995)
      by (apply smoothApproach_down; unfold SMOOTH_FACTORS.temperature; lra).
    lra. }
  set (target := (newTemp / 100) ^ 4 * 0.1 * _).
  assert (Ht : 80 < target).
  { unfold target.
    assert (H1 : 5.36 < newTemp / 100) by lra.
    assert (H2 : 28.7 < (newTemp / 100) ^ 2) by nra.
    replace ((newTemp / 100) ^ 4)
      with ((newTemp / 100) ^ 2 * (newTemp / 100) ^ 2) by ring.
    nra. }
  assert (Hp : STEAM_PRESSURE_BASE
               < smoothApproach STEAM_PRESSURE_BASE target
                   SMOOTH_FACTORS.pressure 1 < target)
    by (apply smoothApproach_up;
        unfold SMOOTH_FACTORS.pressure, STEAM_PRESSURE_BASE; lra).
  unfold STEAM_PRESSURE_BASE in *.
  rewrite orElse_Num by lra.
  eexists; split; [reflexivity | lra].
Qed.

Section Reachable.

Variable loadTime : R.

Lemma shutdownCountdown_ext (a b : PartialState) :
  a shutdownTime = b shutdownTime ->
  shutdownCountdown (Some a) = shutdownCountdown (Some b).
Proof. unfold shutdownCountdown; cbn [getOpt]; now intros ->. Qed.

(** Every command of the store keeps [countdownImpliesTrip]. *)
Lemma step_countdownImpliesTrip (st : PartialState) (a : Action) :
  countdownImpliesTrip st -> countdownImpliesTrip (step loadTime st a).
Proof.
  unfold countdownImpliesTrip; intros Inv; destruct a; cbn [step].
  - intros Hrun.
    destruct (shutdownCountdown (Some st)) as [s |] eqn:Hc.
    + apply recompute_trip, Inv; discriminate.
    + exfalso; apply Hrun.
      rewrite <- Hc; apply shutdownCountdown_ext.
      unfold recompute; cbv zeta.
      unfold calculateSystemState; rewrite Hc.
      reflexivity.
  - exact Inv.
  - exact Inv.
  - intros Hrun; exfalso; apply Hrun.
    now apply shutdownCountdown_zero.
  - reflexivity.
  - intros Hrun; rewrite updateEarnings_trip; apply Inv.
    intros Hc; apply Hrun; rewrite <- Hc.
    apply shutdownCountdown_ext.
    unfold updateEarnings.
    destruct (st isRunning) as [[|]|]; try reflexivity.
    destruct (startTimeOf st); reflexivity.
Qed.

(** In every state reached from the baseline a running countdown comes
    with [trip = true]; hence from a reachable state whose [trip] is not
    set, a recomputation raises [trip] only for a stored temperature above
    620 or a stored speed above 3600. *)
Lemma reachable_countdownImpliesTrip (actions : list Action) :
  countdownImpliesTrip (run loadTime (resetSystem loadTime) actions).
Proof.
  unfold run.
  assert (H0 : countdownImpliesTrip (resetSystem loadTime)).
  { intros Hrun; exfalso; apply Hrun; now apply shutdownCountdown_zero. }
  revert H0; generalize (resetSystem loadTime).
  induction actions as [| a actions IH]; intros st Hst; cbn [fold_left].
  - exact Hst.
  - apply IH, step_countdownImpliesTrip, Hst.
Qed.

Lemma reachable_trip_cause
  (actions : list Action) (leverValues : Lever.t)
  (currentTime oilTime earnTime : R) :
  let st := run loadTime (resetSystem loadTime) actions in
  st trip <> Some true ->
  recompute leverValues currentTime oilTime earnTime st trip = Some true ->
  (exists t, st mainSteamTemp = Some (Num t) /\ 620 < t)
  \/ (exists r, st turbineSpeed = Some (Num r) /\ 3600 < r).
Proof.
  intros st Hflag Hout.
  pose proof (reachable_countdownImpliesTrip actions) as Inv; fold st in Inv.
  assert (Hc : shutdownCountdown (Some st) = None).
  { destruct (shutdownCountdown (Some st)) eqn:E; [| reflexivity].
    elim Hflag; apply Inv; congruence. }
  set (deltaTime := (currentTime - orElse (st lastUpdateTime) currentTime)
                    / 1000).
  assert (Hcalc : calculateSystemState leverValues (Some st) deltaTime
                    oilTime trip = Some true).
  { rewrite <- Hout; unfold recompute; cbv zeta.
    unfold spread at 1; cbn match.
    rewrite (spread_trip_r st _ _ (calculateSystemState_trip _ _ _ _)).
    now rewrite calculateSystemState_trip. }
  now apply (trip_raised_cause leverValues (Some st) deltaTime oilTime).
Qed.

End Reachable.

(** * The engine: what the levers and the state can and cannot do *)

Lemma forceZero_read (a b : Lever.t) :
  agreeOnReadLevers a b ->
  agreeOnReadLevers (Lever.forceZero a) (Lever.forceZero b).
Proof. intros (H1 & H2 & H3 & H4 & H5 & H6 & H7); repeat split; assumption. Qed.

Lemma normalTick_read_levers lv1 lv2 cs dt now tr :
  agreeOnReadLevers lv1 lv2 ->
  normalTick lv1 cs dt now tr = normalTick lv2 cs dt now tr.
Proof.
  intros (H1 & H2 & H3 & H4 & H5 & H6 & H7).
  destruct lv1, lv2; cbn in *; subst.
  reflexivity.
Qed.

(** X1.  Five of the twelve levers are never read: two lever vectors that
    agree on [coal_feed], [feedwater], [steam_turbine], [cooling_water],
    [air_supply], [steam_flow] and [water_level] give the same output, for
    every previous state, tick and clock. *)
Theorem unread_levers_have_no_effect
  (lv1 lv2 : Lever.t) (currentState : option PartialState)
  (deltaTime now : R) :
  agreeOnReadLevers lv1 lv2 ->
  calculateSystemState lv1 currentState deltaTime now
  = calculateSystemState lv2 currentState deltaTime now.
Proof.
  intros H; unfold calculateSystemState.
  destruct (shutdownCountdown currentState); [reflexivity |].
  destruct (tripCheck currentState); cbv zeta;
    auto using normalTick_read_levers, forceZero_read.
Qed.

Lemma unread_levers_have_no_effect_witness :
  calculateSystemState (Lever.mk 30 40 0 50 0 60 70 0 80 90 0 0)
    (Some atWork) 1 0
  = calculateSystemState (Lever.mk 30 40 100 50 100 60 70 100 80 90 100 100)
      (Some atWork) 1 0.
Proof.
  apply unread_levers_have_no_effect; repeat split.
Defined.

Ltac clamp :=
  repeat match goal with
    | |- _ <= _ <= _ => split
    | |- ?a <= Rmax ?a _ => apply Rmax_l
    | |- Rmax _ _ <= _ => apply Rmax_lub; [lra |]
    | |- Rmin ?a _ <= ?a => apply Rmin_l
    end.

(** X2.  Outside the countdown the clamped indicators are present and stay
    inside their clamps for every lever vector, state, tick and clock: the
    oil tank level in [60, 95], the combustion speed in [0, 100], the
    generator temperature in [40, 100], the oil cooler temperature in
    [35, 70], the heat rate in [8000, 12000], and the indicators with a floor
    only at or above it. *)
Theorem derived_indicators_clamped
  (leverValues : Lever.t) (currentState : option PartialState)
  (deltaTime now : R) :
  shutdownCountdown currentState = None ->
  let out := calculateSystemState leverValues currentState deltaTime now in
  (exists x, out oilTankLevel = Some (Num x) /\ 60 <= x <= 95)
  /\ (exists x, out combustionSpeed = Some (Num x) /\ 0 <= x <= 100)
  /\ (exists x, out generatorTemp = Some (Num x) /\ 40 <= x <= 100)
  /\ (exists x, out oilCoolerTemp = Some (Num x) /\ 35 <= x <= 70)
  /\ (exists x, out heatRate = Some (Num x) /\ 8000 <= x <= 12000)
  /\ (exists x, out steamOutTurbineTemp = Some (Num x) /\ 40 <= x)
  /\ (exists x, out surgeTankTemp = Some (Num x) /\ 200 <= x)
  /\ (exists x, out condenserOutTemp = Some (Num x) /\ 20 <= x)
  /\ (exists x, out coolingWaterTemp = Some (Num x) /\ 25 <= x)
  /\ (exists x, out condenserPressure = Some (Num x) /\ 1 <= x)
  /\ (exists x, out feedwaterPressure = Some (Num x) /\ 0.1 <= x)
  /\ (exists x, out waterBoilingRate = Some (Num x) /\ 0 <= x)
  /\ (exists x, out emissionsRate = Some (Num x) /\ 0 <= x).
Proof.
  intros Hc out; subst out.
  destruct (calculateSystemState_stages leverValues currentState
              deltaTime now Hc) as (lv & tr & _ & ->).
  repeat match goal with |- _ /\ _ => split end;
    (eexists; split; [reflexivity |]);
    cbv beta zeta delta
      [calculateOilTankLevel calculateCombustionSpeed
       calculateSteamOutTurbineTemp calculateSurgeTankTemp
       calculateCondenserOutTemp calculateCoolingWaterTemp
       calculateCondenserPressure calculateWaterBoilingRate
       calculateEmissionsRate];
    clamp.
Qed.

Lemma derived_indicators_clamped_witness :
  exists x,
    calculateSystemState (leversAt 50) None 1 0 oilTankLevel = Some (Num x)
    /\ 60 <= x <= 95.
Proof.
  exact (proj1 (derived_indicators_clamped (leversAt 50) None 1 0 eq_refl)).
Defined.

Lemma condenserOutTemp_le_40 (p : Params.t) :
  0 <= Params.coolingWater p -> calculateCondenserOutTemp p <= 40.
Proof.
  intros H; unfold calculateCondenserOutTemp; cbv zeta.
  apply Rmax_lub; lra.
Qed.

(** X3.  The condenser never reports a high temperature: with a cooling
    water lever that is not negative the outlet temperature is at most 40,
    below the 50 of the engine and the 70 of the store, so both write
    [normal]; during the countdown the store reads a missing temperature as
    0 and writes [normal] as well. *)
Theorem condenser_status_always_normal
  (leverValues : Lever.t) (st : PartialState)
  (deltaTime now currentTime oilTime earnTime : R) :
  0 <= Lever.cooling_water leverValues ->
  (shutdownCountdown (Some st) = None ->
   calculateSystemState leverValues (Some st) deltaTime now condenserStatus
   = Some cs_normal)
  /\ recompute leverValues currentTime oilTime earnTime st condenserStatus
     = Some cs_normal.
Proof.
  intros Hcw.
  assert (Hn : forall lv,
             (lv = leverValues \/ lv = Lever.forceZero leverValues) ->
             calculateCondenserOutTemp (Params.ofLevers lv) <= 40).
  { intros lv [-> | ->]; apply condenserOutTemp_le_40; exact Hcw. }
  split.
  - intros Hc.
    destruct (calculateSystemState_stages leverValues (Some st)
                deltaTime now Hc) as (lv & tr & Hlv & ->).
    specialize (Hn lv Hlv).
    change (normalTick lv (Some st) deltaTime now tr condenserStatus)
      with (Some (if Rltb (calculateCondenserOutTemp (Params.ofLevers lv)) 50
                  then cs_normal else cs_high_temp)).
    rewrite (proj2 (Rltb_true _ 50)) by lra; reflexivity.
  - unfold recompute; cbv zeta.
    set (dt := (currentTime - _) / 1000).
    unfold spread at 1; cbn match.
    f_equal.
    destruct (shutdownCountdown (Some st)) as [s |] eqn:Hc.
    + rewrite (calculateSystemState_countdown _ _ _ _ s) by exact Hc.
      cbn. rewrite (proj2 (Rgtb_false 0 70)) by lra; reflexivity.
    + destruct (calculateSystemState_stages leverValues (Some st)
                  dt oilTime Hc) as (lv & tr & Hlv & ->).
      specialize (Hn lv Hlv).
      change (normalTick lv (Some st) dt oilTime tr condenserOutTemp)
        with (Some (Num (calculateCondenserOutTemp (Params.ofLevers lv)))).
      rewrite (proj2 (Rgtb_false _ 70)); [reflexivity |].
      unfold orElse; destruct (Rzerob _); lra.
Qed.

Lemma condenser_status_always_normal_witness :
  recompute (leversAt 50) 1000 1000 1000 atWork condenserStatus
  = Some cs_normal.
Proof.
  apply (condenser_status_always_normal (leversAt 50) atWork 1 0
           1000 1000 1000).
  cbn; lra.
Defined.

(** X4.  During the countdown the returned object depends on neither the
    levers nor the clock, and it holds exactly the seven keys [trip],
    [shutdownTime], [mainSteamTemp], [turbineSpeed], [load], [mainSteamFlow]
    and [mainSteamPressure]. *)
Theorem countdown_tick_shape
  (leverValues : Lever.t) (currentState : option PartialState)
  (deltaTime now s : R) :
  shutdownCountdown currentState = Some s ->
  let out := calculateSystemState leverValues currentState deltaTime now in
  (forall leverValues' now',
      calculateSystemState leverValues' currentState deltaTime now' = out)
  /\ (forall f, countdownKey f = false -> out f = None)
  /\ (forall f, countdownKey f = true -> out f <> None).
Proof.
  intros Hc out; subst out.
  rewrite (calculateSystemState_countdown _ _ _ _ s) by exact Hc.
  split; [| split].
  - intros; now apply calculateSystemState_countdown.
  - intros f Hf; destruct f; try discriminate Hf; reflexivity.
  - intros f Hf; destruct f; try discriminate Hf; discriminate.
Qed.

Lemma countdown_tick_shape_witness :
  calculateSystemState (leversAt 50) (Some countingDown) 1 0 frequency = None.
Proof.
  assert (Hc : shutdownCountdown (Some countingDown) = Some 5)
    by (apply shutdownCountdown_running; [reflexivity | lra]).
  destruct (countdown_tick_shape (leversAt 50) (Some countingDown) 1 0 5 Hc)
    as (_ & H & _).
  now apply H.
Defined.

Lemma normalTick_efficiency lv cs dt now tr :
  normalTick lv cs dt now tr efficiency
  = Some (calculateEfficiency
            (Params.set_load (Params.ofLevers lv)
               (orElse
                  (calculateTurbineResponse (Params.ofLevers lv)
                     (spread (currentOrDefault cs)
                        (calculateBoilerResponse (Params.ofLevers lv)
                           (currentOrDefault cs) dt)) dt load) 0))).
Proof. reflexivity. Qed.

(** X5.  In a tripped tick the coal feed is forced to zero, so the heat
    input of [calculateEfficiency] is zero and the efficiency is no
    percentage of anything: NaN when the new load is zero, the upper clamp
    50 when it is positive, the lower clamp 0 when it is negative. *)
Theorem tripped_efficiency_is_degenerate
  (leverValues : Lever.t) (currentState : option PartialState)
  (deltaTime now : R) :
  tripCheck currentState = true ->
  shutdownCountdown currentState = None ->
  let out := calculateSystemState leverValues currentState deltaTime now in
  exists L,
    out load = Some (Num L)
    /\ (L = 0 -> out efficiency = Some NaN)
    /\ (0 < L -> out efficiency = Some (Num 50))
    /\ (L < 0 -> out efficiency = Some (Num 0)).
Proof.
  intros Ht Hc out; subst out.
  rewrite calculateSystemState_tripped by assumption.
  rewrite normalTick_load, normalTick_efficiency.
  set (L := orElse _ 0).
  exists L; split; [reflexivity |].
  unfold calculateEfficiency; cbn [Params.load Params.set_load Params.coalFeed
                                  Params.ofLevers Lever.forceZero
                                  Lever.coal_feed]; cbv zeta.
  rewrite (proj2 (Rzerob_true (0 * COAL_CALORIFIC_VALUE))) by lra.
  repeat split; intros HL.
  - rewrite (proj2 (Rzerob_true (L * 3600))) by lra; reflexivity.
  - rewrite (proj2 (Rzerob_false (L * 3600))),
      (proj2 (Rgtb_true (L * 3600) 0)) by lra; reflexivity.
  - rewrite (proj2 (Rzerob_false (L * 3600))),
      (proj2 (Rgtb_false (L * 3600) 0)) by lra; reflexivity.
Qed.

Lemma tripped_efficiency_is_degenerate_witness :
  exists L,
    calculateSystemState (leversAt 50) (Some trippedIdle) 1 0 load
    = Some (Num L)
    /\ (L = 0 ->
        calculateSystemState (leversAt 50) (Some trippedIdle) 1 0 efficiency
        = Some NaN).
Proof.
  destruct (tripped_efficiency_is_degenerate (leversAt 50) (Some trippedIdle)
              1 0) as (L & H1 & H2 & _).
  - now apply tripCheck_latched.
  - now apply shutdownCountdown_zero.
  - exists L; split; assumption.
Defined.

Lemma tripCheck_None : tripCheck None = false.
Proof.
  rewrite tripCheck_eq; cbn.
  unfold Rgtb, STEAM_TEMP_BASE; decide_R; reflexivity.
Qed.

Lemma tripCheck_defaultCurrent : tripCheck (Some defaultCurrent) = false.
Proof.
  rewrite tripCheck_eq; cbn [getOpt].
  change (defaultCurrent mainSteamTemp) with (Some (Num STEAM_TEMP_BASE)).
  change (defaultCurrent turbineSpeed) with (Some (Num 0)).
  change (defaultCurrent trip) with (@None bool).
  rewrite orElse_zero, orElse_Num by (unfold STEAM_TEMP_BASE; lra).
  cbn [orElseB]; unfold Rgtb, STEAM_TEMP_BASE; decide_R; reflexivity.
Qed.

(** X6.  A call without a previous state is a call on the default state:
    it is an untripped normal tick, it reports [trip = false] and it has no
    [shutdownTime]. *)
Theorem first_call_without_state
  (leverValues : Lever.t) (deltaTime now : R) :
  let out := calculateSystemState leverValues None deltaTime now in
  out = calculateSystemState leverValues (Some defaultCurrent) deltaTime now
  /\ out = normalTick leverValues None deltaTime now false
  /\ out trip = Some false
  /\ out shutdownTime = None.
Proof.
  intros out; subst out.
  rewrite !calculateSystemState_normal
    by (reflexivity || apply tripCheck_None || apply tripCheck_defaultCurrent).
  repeat split.
Qed.

(** X7.  An idle turbine does not read zero.  Outside the countdown, with
    the turbine valve closed and a previous speed of 0, the stage starts
    from its fallback of 1800 rpm; for a tick of at most ten minutes the
    tick reports [1800 * exp (-0.03 * deltaTime)] rpm, which is positive,
    and the turbine status is [running].  The bound on the tick keeps the
    statement to what the running code does as well: from about 1250
    seconds on the smoothing weight rounds to 1 in doubles, and the code
    reports a speed of 0 and [stopped]. *)
Theorem still_turbine_reads_1800
  (leverValues : Lever.t) (currentState : option PartialState)
  (deltaTime now : R) :
  shutdownCountdown currentState = None ->
  Lever.steam_turbine leverValues = 0 ->
  currentOrDefault currentState turbineSpeed = Some (Num 0) ->
  0 <= deltaTime <= 600 ->
  let out := calculateSystemState leverValues currentState deltaTime now in
  out turbineSpeed = Some (Num (1800 * exp (- 0.03 * deltaTime)))
  /\ 0 < 1800 * exp (- 0.03 * deltaTime)
  /\ out turbineStatus = Some running.
Proof.
  intros Hc Hv Hw _ out; subst out.
  destruct (calculateSystemState_stages leverValues currentState
              deltaTime now Hc) as (lv & tr & Hlv & ->).
  assert (Hv' : Params.steamTurbine (Params.ofLevers lv) = 0)
    by (destruct Hlv as [-> | ->]; [exact Hv | reflexivity]).
  assert (Hpos : 0 < 1800 * exp (- 0.03 * deltaTime))
    by (pose proof (exp_pos (- 0.03 * deltaTime)); lra).
  assert (HW : normalTick lv currentState deltaTime now tr turbineSpeed
               = Some (Num (1800 * exp (- 0.03 * deltaTime)))).
  { rewrite normalTick_turbineSpeed, turbine_closed_speed by exact Hv'.
    change (spread (currentOrDefault currentState) _ turbineSpeed)
      with (currentOrDefault currentState turbineSpeed).
    rewrite Hw, orElse_zero, orElse_self.
    replace (- 0.03 * deltaTime) with (- SMOOTH_FACTORS.rpm * deltaTime)
      by (unfold SMOOTH_FACTORS.rpm; lra).
    unfold smoothApproach; do 2 f_equal; lra. }
  repeat split; try assumption.
  change (normalTick lv currentState deltaTime now tr turbineStatus)
    with (Some (if Rgtb
                     match normalTick lv currentState deltaTime now tr
                             turbineSpeed with
                     | Some (Num w) => w
                     | _ => 0
                     end 0
                then running else stopped)).
  rewrite HW, (proj2 (Rgtb_true _ 0)) by exact Hpos; reflexivity.
Qed.

Lemma still_turbine_reads_1800_witness :
  calculateSystemState (leversAt 0) (Some (resetSystem 0)) 1 0 turbineStatus
  = Some running.
Proof.
  apply (still_turbine_reads_1800 (leversAt 0) (Some (resetSystem 0)) 1 0).
  - now apply shutdownCountdown_zero.
  - reflexivity.
  - reflexivity.
  - lra.
Defined.


(** * Smoothing *)

Lemma smoothApproach_gap (current target rate dt : R) :
  target - smoothApproach current target rate dt
  = (target - current) * exp (- rate * dt).
Proof. unfold smoothApproach; ring. Qed.

Lemma exp_double_ge (x a : R) : 0 <= a -> a <= exp x -> a * a <= exp (x + x).
Proof. intros Ha H; rewrite exp_plus; nra. Qed.

Lemma exp_3_ge_20 : 20 <= exp 3.
Proof.
  assert (H2048 : 1.00146484375 <= exp (3 / 2048))
    by (pose proof (exp_ineq1_le (3 / 2048)); lra).
  assert (H1024 : 1.00293183326721 <= exp (3 / 1024)).
  { replace (3 / 1024) with ((3 / 2048) + (3 / 2048)) by lra.
    pose proof (exp_double_ge (3 / 2048) 1.00146484375 ltac:(lra) H2048); lra. }
  assert (H512 : 1.00587226218072 <= exp (3 / 512)).
  { replace (3 / 512) with ((3 / 1024) + (3 / 1024)) by lra.
    pose proof (exp_double_ge (3 / 1024) 1.00293183326721 ltac:(lra) H1024); lra. }
  assert (H256 : 1.01177900782455 <= exp (3 / 256)).
  { replace (3 / 256) with ((3 / 512) + (3 / 512)) by lra.
    pose proof (exp_double_ge (3 / 512) 1.00587226218072 ltac:(lra) H512); lra. }
  assert (H128 : 1.02369676067443 <= exp (3 / 128)).
  { replace (3 / 128) with ((3 / 256) + (3 / 256)) by lra.
    pose proof (exp_double_ge (3 / 256) 1.01177900782455 ltac:(lra) H256); lra. }
  assert (H64 : 1.04795505781532 <= exp (3 / 64)).
  { replace (3 / 64) with ((3 / 128) + (3 / 128)) by lra.
    pose proof (exp_double_ge (3 / 128) 1.02369676067443 ltac:(lra) H128); lra. }
  assert (H32 : 1.09820980320071 <= exp (3 / 32)).
  { replace (3 / 32) with ((3 / 64) + (3 / 64)) by lra.
    pose proof (exp_double_ge (3 / 64) 1.04795505781532 ltac:(lra) H64); lra. }
  assert (H16 : 1.20606477184614 <= exp (3 / 16)).
  { replace (3 / 16) with ((3 / 32) + (3 / 32)) by lra.
    pose proof (exp_double_ge (3 / 32) 1.09820980320071 ltac:(lra) H32); lra. }
  assert (H8 : 1.45459223388828 <= exp (3 / 8)).
  { replace (3 / 8) with ((3 / 16) + (3 / 16)) by lra.
    pose proof (exp_double_ge (3 / 16) 1.20606477184614 ltac:(lra) H16); lra. }
  assert (H4 : 2.11583856688809 <= exp (3 / 4)).
  { replace (3 / 4) with ((3 / 8) + (3 / 8)) by lra.
    pose proof (exp_double_ge (3 / 8) 1.45459223388828 ltac:(lra) H8); lra. }
  assert (H2 : 4.47677284113104 <= exp (3 / 2)).
  { replace (3 / 2) with ((3 / 4) + (3 / 4)) by lra.
    pose proof (exp_double_ge (3 / 4) 2.11583856688809 ltac:(lra) H4); lra. }
  assert (H1 : 20.04149507108848 <= exp 3).
  { replace 3 with ((3 / 2) + (3 / 2)) by lra.
    pose proof (exp_double_ge (3 / 2) 4.47677284113104 ltac:(lra) H2); lra. }
  lra.
Qed.

Lemma exp_minus_3_ge : 0.0496 <= exp (Ropp 3).
Proof.
  assert (H2048 : 0.99853515625 <= exp (Ropp (3 / 2048)))
    by (pose proof (exp_ineq1_le (Ropp (3 / 2048))); lra).
  assert (H1024 : 0.99707245826721 <= exp (Ropp (3 / 1024))).
  { replace (Ropp (3 / 1024)) with ((Ropp (3 / 2048)) + (Ropp (3 / 2048))) by lra.
    pose proof (exp_double_ge (Ropp (3 / 2048)) 0.99853515625 ltac:(lra) H2048); lra. }
  assert (H512 : 0.99415348703501 <= exp (Ropp (3 / 512))).
  { replace (Ropp (3 / 512)) with ((Ropp (3 / 1024)) + (Ropp (3 / 1024))) by lra.
    pose proof (exp_double_ge (Ropp (3 / 1024)) 0.99707245826721 ltac:(lra) H1024); lra. }
  assert (H256 : 0.98834115578386 <= exp (Ropp (3 / 256))).
  { replace (Ropp (3 / 256)) with ((Ropp (3 / 512)) + (Ropp (3 / 512))) by lra.
    pose proof (exp_double_ge (Ropp (3 / 512)) 0.99415348703501 ltac:(lra) H512); lra. }
  assert (H128 : 0.97681824021617 <= exp (Ropp (3 / 128))).
  { replace (Ropp (3 / 128)) with ((Ropp (3 / 256)) + (Ropp (3 / 256))) by lra.
    pose proof (exp_double_ge (Ropp (3 / 256)) 0.98834115578386 ltac:(lra) H256); lra. }
  assert (H64 : 0.95417387441901 <= exp (Ropp (3 / 64))).
  { replace (Ropp (3 / 64)) with ((Ropp (3 / 128)) + (Ropp (3 / 128))) by lra.
    pose proof (exp_double_ge (Ropp (3 / 128)) 0.97681824021617 ltac:(lra) H128); lra. }
  assert (H32 : 0.91044778262378 <= exp (Ropp (3 / 32))).
  { replace (Ropp (3 / 32)) with ((Ropp (3 / 64)) + (Ropp (3 / 64))) by lra.
    pose proof (exp_double_ge (Ropp (3 / 64)) 0.95417387441901 ltac:(lra) H64); lra. }
  assert (H16 : 0.82891516488455 <= exp (Ropp (3 / 16))).
  { replace (Ropp (3 / 16)) with ((Ropp (3 / 32)) + (Ropp (3 / 32))) by lra.
    pose proof (exp_double_ge (Ropp (3 / 32)) 0.91044778262378 ltac:(lra) H32); lra. }
  assert (H8 : 0.68710035057558 <= exp (Ropp (3 / 8))).
  { replace (Ropp (3 / 8)) with ((Ropp (3 / 16)) + (Ropp (3 / 16))) by lra.
    pose proof (exp_double_ge (Ropp (3 / 16)) 0.82891516488455 ltac:(lra) H16); lra. }
  assert (H4 : 0.47210689176108 <= exp (Ropp (3 / 4))).
  { replace (Ropp (3 / 4)) with ((Ropp (3 / 8)) + (Ropp (3 / 8))) by lra.
    pose proof (exp_double_ge (Ropp (3 / 8)) 0.68710035057558 ltac:(lra) H8); lra. }
  assert (H2 : 0.2228849172483 <= exp (Ropp (3 / 2))).
  { replace (Ropp (3 / 2)) with ((Ropp (3 / 4)) + (Ropp (3 / 4))) by lra.
    pose proof (exp_double_ge (Ropp (3 / 4)) 0.47210689176108 ltac:(lra) H4); lra. }
  assert (H1 : 0.04967768633678 <= exp (Ropp 3)).
  { replace (Ropp 3) with ((Ropp (3 / 2)) + (Ropp (3 / 2))) by lra.
    pose proof (exp_double_ge (Ropp (3 / 2)) 0.2228849172483 ltac:(lra) H2); lra. }
  lra.
Qed.

Lemma exp_minus_3_le : exp (Ropp 3) <= 0.05.
Proof.
  rewrite exp_Ropp.
  pose proof exp_3_ge_20 as G.
  assert (/ exp 3 <= / 20) by (apply Rinv_le_contravar; lra).
  lra.
Qed.

(** X8.  Two ticks make one: smoothing for [dt1] and then, from the result,
    for [dt2] towards the same target is smoothing once for [dt1 + dt2].
    What a value reaches does not depend on how the elapsed time is cut into
    ticks. *)
Theorem smoothApproach_splits_ticks (current target rate dt1 dt2 : R) :
  smoothApproach (smoothApproach current target rate dt1) target rate dt2
  = smoothApproach current target rate (dt1 + dt2).
Proof.
  unfold smoothApproach.
  replace (- rate * (dt1 + dt2)) with (- rate * dt1 + - rate * dt2) by ring.
  rewrite exp_plus; ring.
Qed.

Lemma exp_5_gt_100 : 100 < exp 5.
Proof.
  assert (H1 : 1.15625 <= exp (5 / 32))
    by (pose proof (exp_ineq1_le (5 / 32)); lra).
  assert (H2 : 1.3369 <= exp (5 / 16)).
  { replace (5 / 16) with (5 / 32 + 5 / 32) by lra.
    pose proof (exp_double_ge (5 / 32) 1.15625 ltac:(lra) H1); lra. }
  assert (H4 : 1.7873 <= exp (5 / 8)).
  { replace (5 / 8) with (5 / 16 + 5 / 16) by lra.
    pose proof (exp_double_ge (5 / 16) 1.3369 ltac:(lra) H2); lra. }
  assert (H8 : 3.1944 <= exp (5 / 4)).
  { replace (5 / 4) with (5 / 8 + 5 / 8) by lra.
    pose proof (exp_double_ge (5 / 8) 1.7873 ltac:(lra) H4); lra. }
  assert (H16 : 10.204 <= exp (5 / 2)).
  { replace (5 / 2) with (5 / 4 + 5 / 4) by lra.
    pose proof (exp_double_ge (5 / 4) 3.1944 ltac:(lra) H8); lra. }
  replace 5 with (5 / 2 + 5 / 2) by lra.
  pose proof (exp_double_ge (5 / 2) 10.204 ltac:(lra) H16); lra.
Qed.

(** X9.  Five time constants are enough: once [smoothFactor * dt] is at
    least 5, less than one percent of the gap to the target is left. *)
Theorem smoothApproach_within_one_percent (current target rate dt : R) :
  5 <= rate * dt ->
  Rabs (target - smoothApproach current target rate dt)
  <= 0.01 * Rabs (target - current).
Proof.
  intros H.
  rewrite smoothApproach_gap, Rabs_mult.
  rewrite (Rabs_right (exp _)) by (left; apply exp_pos).
  assert (He : exp (- rate * dt) <= exp (Ropp 5)).
  { destruct (Req_dec_T (rate * dt) 5) as [E | N].
    - replace (- rate * dt) with (Ropp 5) by lra; lra.
    - left; apply exp_increasing; lra. }
  assert (H5 : exp (Ropp 5) < 0.01).
  { rewrite exp_Ropp.
    pose proof exp_5_gt_100 as G.
    assert (/ exp 5 < / 100) by (apply Rinv_lt_contravar; nra).
    lra. }
  pose proof (Rabs_pos (target - current)).
  nra.
Qed.

Lemma smoothApproach_within_one_percent_witness :
  Rabs (100 - smoothApproach 0 100 0.05 100) <= 0.01 * Rabs (100 - 0).
Proof. apply smoothApproach_within_one_percent; lra. Defined.



(** X11.  The response time of the [interpolateValue] variant is the time to
    cover 95 % of the gap: for a positive [responseTime] and a value at
    least 0.01 away from its target, one call with
    [deltaTime = responseTime] leaves between 4.96 % and 5 % of the gap,
    and the call is the other variant's [interpolateValue] at a third of
    the response time. *)
Theorem interpolateValue_reaches_95_percent
  (currentValue targetValue responseTime deltaTime : R) :
  0 < responseTime ->
  0.01 <= Rabs (currentValue - targetValue) ->
  let gap := Rabs (targetValue - currentValue) in
  let left :=
    Rabs (targetValue
          - CalculationBIndicators.interpolateValue currentValue targetValue
              responseTime responseTime) in
  0.0496 * gap <= left <= 0.05 * gap
  /\ CalculationBIndicators.interpolateValue currentValue targetValue
       responseTime deltaTime
     = interpolateValue currentValue targetValue (responseTime / 3)
         deltaTime.
Proof.
  intros Hr Hfar gap left.
  assert (Hb : Rltb (Rabs (currentValue - targetValue)) 0.01 = false)
    by now apply Rltb_false.
  split.
  - assert (E : left = gap * exp (Ropp 3)).
    { unfold left, gap, CalculationBIndicators.interpolateValue.
      rewrite Hb; cbv zeta.
      replace (- responseTime / (responseTime / 3)) with (Ropp 3)
        by (field; lra).
      replace (targetValue
               - (currentValue
                  + (targetValue - currentValue) * (1 - exp (Ropp 3))))
        with ((targetValue - currentValue) * exp (Ropp 3)) by ring.
      rewrite Rabs_mult.
      now rewrite (Rabs_right (exp _)) by (left; apply exp_pos). }
    rewrite E.
    pose proof (Rabs_pos (targetValue - currentValue)) as Hg; fold gap in Hg.
    pose proof exp_minus_3_le; pose proof exp_minus_3_ge.
    split; nra.
  - unfold CalculationBIndicators.interpolateValue, interpolateValue.
    rewrite Hb; cbv zeta; unfold smoothApproach.
    replace (- (1 / (responseTime / 3)) * deltaTime)
      with (- deltaTime / (responseTime / 3)) by (field; lra).
    reflexivity.
Qed.

Lemma interpolateValue_reaches_95_percent_witness :
  Rabs (540
        - CalculationBIndicators.interpolateValue 500 540 30 30)
  <= 0.05 * Rabs (540 - 500).
Proof.
  apply (interpolateValue_reaches_95_percent 500 540 30 0).
  - lra.
  - rewrite Rabs_left; lra.
Defined.

(** * Efficiency and heat rate in the [interpolateValue] variant *)

Lemma Rleb_true (a b : R) : Rleb a b = true <-> a <= b.
Proof. unfold Rleb; destruct (Rle_dec a b); split; auto; discriminate. Qed.

Lemma Rleb_false (a b : R) : Rleb a b = false <-> b < a.
Proof.
  unfold Rleb; destruct (Rle_dec a b); split; auto; try discriminate; lra.
Qed.

Lemma boilerEfficiency_floor (params : Params.t) :
  0.85 * 0.7 * 0.8 * 0.6
  <= CalculationBIndicators.calculateBoilerEfficiency params.
Proof.
  unfold CalculationBIndicators.calculateBoilerEfficiency; cbv zeta.
  unfold BOILER_EFFICIENCY_BASE.
  set (r := Rmax 0.7 _); set (l := Rmax 0.8 _); set (f := Rmax 0.6 _).
  assert (Hr : 0.7 <= r) by apply Rmax_l.
  assert (Hl : 0.8 <= l) by apply Rmax_l.
  assert (Hf : 0.6 <= f) by apply Rmax_l.
  assert (H1 : 0.7 * 0.8 <= r * l) by (apply Rmult_le_compat; lra).
  assert (H2 : 0.7 * 0.8 * 0.6 <= r * l * f)
    by (apply Rmult_le_compat; lra).
  lra.
Qed.

(** X12.  In the [interpolateValue] variant the plant efficiency is above
    24 % for every input, so the [efficiency <= 0] half of the guard of
    [calculateHeatRate] never decides; the heat rate is 0 when the load is
    absent or not positive and the quotient otherwise.
    [calculateSystemState] passes the parameters built from the levers
    alone, without a load, so the heat rate it reports is always 0. *)
Theorem heatRate_without_load
  (params : Params.t) (leverValues : Lever.t) :
  24 < CalculationBIndicators.calculateEfficiency params
  /\ CalculationBIndicators.calculateHeatRate params
     = match Params.load params with
       | Some l =>
           if Rgtb l 0
           then Params.coalFeed params * COAL_CALORIFIC_VALUE
                / (l * 1000 * 3600)
           else 0
       | None => 0
       end
  /\ CalculationBIndicators.calculateHeatRate (Params.ofLevers leverValues)
     = 0.
Proof.
  assert (He : forall p,
             24 < CalculationBIndicators.calculateEfficiency p).
  { intros p; unfold CalculationBIndicators.calculateEfficiency; cbv zeta.
    pose proof (boilerEfficiency_floor p).
    unfold TURBINE_EFFICIENCY_BASE, GENERATOR_EFFICIENCY; lra. }
  assert (Hg : forall p,
             Rleb (CalculationBIndicators.calculateEfficiency p) 0 = false).
  { intros p; apply Rleb_false; specialize (He p); lra. }
  split; [apply He | split].
  - unfold CalculationBIndicators.calculateHeatRate; cbv zeta.
    rewrite Hg, orb_false_r.
    destruct (Params.load params) as [l |]; cbn [withDefault].
    + destruct (Rgtb l 0) eqn:E.
      * apply Rgtb_true in E.
        now rewrite (proj2 (Rleb_false l 0)) by lra.
      * apply Rgtb_false in E.
        now rewrite (proj2 (Rleb_true l 0)) by lra.
    + now rewrite (proj2 (Rleb_true 0 0)) by lra.
  - unfold CalculationBIndicators.calculateHeatRate; cbv zeta.
    cbn [Params.ofLevers Params.load withDefault].
    now rewrite (proj2 (Rleb_true 0 0)) by lra.
Qed.

(** * The stateless engine *)

Lemma orZero_id (v : R) : Stateless.orZero v = v.
Proof.
  unfold Stateless.orZero, orElse.
  destruct (Rzerob v) eqn:E; [| reflexivity].
  apply Rzerob_true in E; now subst.
Qed.

(** X13.  The stateless engine with levers inside [0, 100]: the turbine
    never reads below 500 rpm, and the power output is zero exactly when
    the temperature or the pressure has been clamped to zero. *)
Theorem stateless_power_zero (leverValues : Lever.t) :
  leversInRange leverValues ->
  let s := Stateless.calculateSystemState leverValues in
  500 <= Stateless.turbineRPM s <= 3500
  /\ 0 <= Stateless.powerOutput s <= 500
  /\ (Stateless.powerOutput s = 0
      <-> Stateless.temperature s = 0 \/ Stateless.pressure s = 0).
Proof.
  intros Hr s; subst s.
  unfold Stateless.calculateSystemState; cbv zeta.
  cbn [Stateless.turbineRPM Stateless.powerOutput Stateless.temperature
       Stateless.pressure].
  assert (Hrpm : 500 <= Stateless.calculateTurbineRPM leverValues <= 3500).
  { unfold Stateless.calculateTurbineRPM; cbv zeta; rewrite !orZero_id.
    unfold leversInRange, inRange in Hr; decompose [and] Hr; clear Hr.
    split; [| apply Rmin_r].
    apply Rmin_glb; [| lra].
    apply Rle_trans with (2 := Rmax_l _ _).
    assert (0 <= Lever.steam_turbine leverValues * 200
                 + Lever.steam_flow leverValues * 150) by lra.
    assert (0 <= (500 + Lever.steam_turbine leverValues * 200
                  + Lever.steam_flow leverValues * 150)
                 * (Lever.condenser leverValues * 0.1))
      by (apply Rmult_le_pos; lra).
    lra. }
  assert (Ht : 0 <= Stateless.calculateTemperature leverValues).
  { unfold Stateless.calculateTemperature; cbv zeta.
    apply Rmin_glb; [apply Rmax_r | lra]. }
  assert (Hp : 0 <= Stateless.calculatePressure leverValues).
  { unfold Stateless.calculatePressure; cbv zeta.
    apply Rmin_glb; [apply Rmax_r | lra]. }
  set (T := Stateless.calculateTemperature leverValues) in *.
  set (P := Stateless.calculatePressure leverValues) in *.
  set (W := Stateless.calculateTurbineRPM leverValues) in *.
  unfold Stateless.calculatePower; cbv zeta.
  assert (HTP : 0 <= T * P) by (apply Rmult_le_pos; lra).
  assert (Hb : 0 <= T * P * W / 1000000).
  { apply Rmult_le_pos; [apply Rmult_le_pos; lra | lra]. }
  rewrite (Rmax_left _ 0) by exact Hb.
  split; [exact Hrpm |].
  split; [split; [apply Rmin_glb; lra | apply Rmin_r] |].
  split.
  - intros H0.
    assert (Hz : T * P * W / 1000000 = 0).
    { destruct (Rle_dec (T * P * W / 1000000) 500) as [Hle | Hgt].
      - now rewrite Rmin_left in H0 by exact Hle.
      - rewrite Rmin_right in H0 by lra; lra. }
    assert (HTPW : T * P * W = 0) by lra.
    apply Rmult_integral in HTPW; destruct HTPW as [HTP0 | HW]; [| lra].
    now apply Rmult_integral in HTP0.
  - intros [H0 | H0]; rewrite H0;
      [rewrite !Rmult_0_l | rewrite Rmult_0_r, Rmult_0_l];
      unfold Rdiv; rewrite Rmult_0_l; apply Rmin_left; lra.
Qed.

Lemma stateless_power_zero_witness :
  500 <= Stateless.turbineRPM (Stateless.calculateSystemState (leversAt 50))
      <= 3500.
Proof.
  apply (stateless_power_zero (leversAt 50)).
  unfold leversInRange, inRange, leversAt; cbn; lra.
Defined.

(** * The store: countdown, stopwatch and earnings *)

Section StoreFacts.
Variable loadTime : R.

Lemma recompute_shutdownTime lv ct ot et st :
  recompute lv ct ot et st shutdownTime
  = match shutdownCountdown (Some st) with
    | Some s =>
        Some (Num (Rmax 0 (s - (ct - orElse (st lastUpdateTime) ct) / 1000)))
    | None => st shutdownTime
    end.
Proof.
  unfold recompute; cbv zeta.
  unfold spread at 1; cbn match.
  unfold calculateSystemState.
  destruct (shutdownCountdown (Some st)); reflexivity.
Qed.

Lemma updateEarnings_other (now : R) (st : PartialState) (f : field) :
  f <> totalEarnings -> updateEarnings now st f = st f.
Proof.
  intros Hf; unfold updateEarnings.
  destruct (st isRunning) as [[|]|]; try reflexivity.
  destruct (startTimeOf st); try reflexivity.
  destruct f; try reflexivity; now elim Hf.
Qed.

Lemma step_holds_zero (st : PartialState) (a : Action) :
  isShutdown a = false -> st shutdownTime = Some (Num 0) ->
  step loadTime st a shutdownTime = Some (Num 0).
Proof.
  intros Ha H; destruct a; cbn [step]; try discriminate Ha.
  - rewrite recompute_shutdownTime, shutdownCountdown_zero by exact H.
    exact H.
  - exact H.
  - exact H.
  - reflexivity.
  - rewrite updateEarnings_other by discriminate; exact H.
Qed.

(** X14.  Only [shutdownSystem] starts a countdown: from a state whose
    [shutdownTime] is 0, no sequence of the other store actions makes it
    anything but 0. *)
Theorem countdown_holds_at_zero (st : PartialState) (actions : list Action) :
  st shutdownTime = Some (Num 0) ->
  Forall (fun a => isShutdown a = false) actions ->
  run loadTime st actions shutdownTime = Some (Num 0).
Proof.
  intros H Hall; revert st H; unfold run.
  induction Hall as [| a actions Ha _ IH]; intros st H; cbn [fold_left].
  - exact H.
  - apply IH, step_holds_zero; assumption.
Qed.

Lemma recompute_in_countdown lv ct ot et st s :
  shutdownCountdown (Some st) = Some s ->
  let out := shutdownTick (Some st) s
               ((ct - orElse (st lastUpdateTime) ct) / 1000) in
  recompute lv ct ot et st load = out load
  /\ recompute lv ct ot et st mainSteamFlow = out mainSteamFlow
  /\ recompute lv ct ot et st mainSteamPressure = out mainSteamPressure
  /\ recompute lv ct ot et st mainSteamTemp = out mainSteamTemp
  /\ recompute lv ct ot et st turbineSpeed = out turbineSpeed
  /\ recompute lv ct ot et st lastUpdateTime = Some (Num ct).
Proof.
  intros Hc out; subst out.
  unfold recompute; cbv zeta.
  rewrite (calculateSystemState_countdown _ _ _ _ s) by exact Hc.
  repeat split.
Qed.

(** X15.  One recomputation during the countdown: the remaining time
    drops by the time elapsed since the last update and stops at 0, the
    trip flag is set and the update time is the current time; when the
    elapsed time covers what remained, load, steam flow and steam pressure
    are 0 with it. *)
Theorem countdown_runs_down
  (leverValues : Lever.t) (st : PartialState)
  (currentTime oilTime earnTime s t0 : R) :
  st shutdownTime = Some (Num s) -> 0 < s ->
  st lastUpdateTime = Some (Num t0) -> t0 <> 0 -> t0 <= currentTime ->
  let st' := recompute leverValues currentTime oilTime earnTime st in
  let elapsed := (currentTime - t0) / 1000 in
  st' shutdownTime = Some (Num (Rmax 0 (s - elapsed)))
  /\ 0 <= Rmax 0 (s - elapsed) <= s
  /\ st' trip = Some true
  /\ st' lastUpdateTime = Some (Num currentTime)
  /\ (s <= elapsed ->
      st' shutdownTime = Some (Num 0)
      /\ st' load = Some (Num 0)
      /\ st' mainSteamFlow = Some (Num 0)
      /\ st' mainSteamPressure = Some (Num 0)).
Proof.
  intros Hs Hs0 Ht Ht0 Hle st' elapsed.
  pose proof (shutdownCountdown_running st s Hs Hs0) as Hc.
  assert (He : 0 <= elapsed) by (unfold elapsed; lra).
  destruct (recompute_in_countdown leverValues currentTime oilTime earnTime
              st s Hc) as (HL & HF & HP & _ & _ & Hlast).
  rewrite Ht, orElse_Num in HL, HF, HP by exact Ht0.
  fold elapsed in HL, HF, HP; fold st' in HL, HF, HP, Hlast.
  assert (Hshut : st' shutdownTime = Some (Num (Rmax 0 (s - elapsed)))).
  { unfold st'; rewrite recompute_shutdownTime, Hc, Ht, orElse_Num by exact Ht0.
    reflexivity. }
  split; [exact Hshut |].
  split; [split; [apply Rmax_l | apply Rmax_lub; lra] |].
  split.
  { unfold st', recompute; cbv zeta.
    unfold spread at 1; cbn match.
    apply spread_trip_r.
    now rewrite calculateSystemState_trip, Hc. }
  split; [exact Hlast |].
  intros Hdone.
  assert (Hk : Rmax 0 ((s - elapsed) / 10) = 0) by (apply Rmax_left; lra).
  rewrite Hshut, HL, HF, HP; unfold shutdownTick; cbv zeta; rewrite Hk.
  rewrite Rmax_left by lra.
  repeat split; do 2 f_equal; lra.
Qed.

Lemma countdown_runs_down_witness :
  recompute (leversAt 50) 13000 0 0
    shutdownRequested shutdownTime
  = Some (Num 0).
Proof.
  apply (countdown_runs_down (leversAt 50) shutdownRequested 13000 0 0 10
           1000);
    try reflexivity; lra.
Defined.

End StoreFacts.

Lemma countdown_holds_at_zero_witness :
  run 0 (resetSystem 0)
    [StartSystem 5000; Recompute (leversAt 50) 6000 6000 6000; StopSystem]
    shutdownTime
  = Some (Num 0).
Proof.
  apply (countdown_holds_at_zero 0 (resetSystem 0)).
  - reflexivity.
  - repeat constructor.
Defined.


Lemma startTimeOf_ext (a b : PartialState) :
  a startTime = b startTime -> startTimeOf a = startTimeOf b.
Proof. unfold startTimeOf; now intros ->. Qed.

Lemma startSystem_startTime (now : R) (st : PartialState) :
  startTimeOf (startSystem now st)
  = match startTimeOf st with
    | Some t => Some t
    | None => if Rzerob now then None else Some now
    end.
Proof.
  unfold startTimeOf at 1, startSystem, spread; cbn match.
  destruct (startTimeOf st) as [t |] eqn:E; [| reflexivity].
  unfold startTimeOf in E.
  destruct (st startTime) as [[t' |] |]; try discriminate.
  destruct (Rzerob t') eqn:Ez; [discriminate |].
  injection E as <-; now rewrite Ez.
Qed.

Section Stopwatch.
Variable loadTime : R.

Lemma step_keeps_startTime (st : PartialState) (a : Action) (t : R) :
  isReset a = false -> startTimeOf st = Some t ->
  startTimeOf (step loadTime st a) = Some t.
Proof.
  intros Ha H; destruct a; cbn [step]; try discriminate Ha.
  - rewrite <- H; apply startTimeOf_ext.
    unfold recompute; cbv zeta.
    unfold spread at 1; cbn match.
    unfold calculateSystemState.
    destruct (shutdownCountdown (Some st)); reflexivity.
  - now rewrite startSystem_startTime, H.
  - exact H.
  - exact H.
  - rewrite <- H; apply startTimeOf_ext, updateEarnings_other; discriminate.
Qed.

(** X16.  The stopwatch origin is set once: the first [startSystem]
    after a reset records its clock reading, and until the next reset no
    store action, a later [startSystem] included, changes it; a reset
    clears it. *)
Theorem stopwatch_origin_is_kept
  (st : PartialState) (actions : list Action) (now t : R) :
  Forall (fun a => isReset a = false) actions ->
  (startTimeOf st = Some t ->
   startTimeOf (run loadTime st actions) = Some t)
  /\ (startTimeOf st = None -> now <> 0 ->
      startTimeOf (run loadTime st (StartSystem now :: actions)) = Some now)
  /\ startTimeOf (resetSystem loadTime) = None.
Proof.
  intros Hall.
  assert (Hkeep : forall s0, startTimeOf s0 = Some t ->
                             startTimeOf (run loadTime s0 actions) = Some t).
  { unfold run; induction Hall as [| a actions Ha _ IH]; intros s0 H;
      cbn [fold_left]; [exact H |].
    apply IH, step_keeps_startTime; assumption. }
  split; [apply Hkeep | split; [| reflexivity]].
  intros Hnone Hnow.
  clear Hkeep.
  assert (Hkeep : forall s0, startTimeOf s0 = Some now ->
                             startTimeOf (run loadTime s0 actions) = Some now).
  { unfold run; induction Hall as [| a actions Ha _ IH]; intros s0 H;
      cbn [fold_left]; [exact H |].
    apply IH, step_keeps_startTime; assumption. }
  unfold run; cbn [fold_left step]; apply Hkeep.
  rewrite startSystem_startTime, Hnone.
  now rewrite (proj2 (Rzerob_false now) Hnow).
Qed.

End Stopwatch.

Lemma stopwatch_origin_is_kept_witness :
  startTimeOf
    (run 0 (resetSystem 0)
       [StartSystem 5000; StopSystem; StartSystem 9000; ShutdownSystem])
  = Some 5000.
Proof.
  apply (stopwatch_origin_is_kept 0 (resetSystem 0)
           [StopSystem; StartSystem 9000; ShutdownSystem] 5000 0).
  - repeat constructor.
  - reflexivity.
  - lra.
Defined.


(** X17.  [updateEarnings] recomputes and does not accumulate: while the
    system is stopped or was never started it returns the state it was
    given; otherwise the new total is [calculateEarnings] of the current
    power over the whole time since the origin, whatever the previous total
    was, and no other key changes. *)
Theorem updateEarnings_rederives
  (now : R) (st : PartialState) :
  (st isRunning <> Some true \/ startTimeOf st = None ->
   updateEarnings now st = st)
  /\ (forall t p, st isRunning = Some true -> startTimeOf st = Some t ->
      st powerOutput = Some (Num p) ->
      updateEarnings now st totalEarnings
      = Some (Num (calculateEarnings p ((now - t) / 1000)))
      /\ forall st' : PartialState, st' isRunning = Some true -> startTimeOf st' = Some t ->
                     st' powerOutput = Some (Num p) ->
                     updateEarnings now st' totalEarnings
                     = updateEarnings now st totalEarnings)
  /\ (forall f, f <> totalEarnings -> updateEarnings now st f = st f).
Proof.
  split; [| split].
  - intros [H | H]; unfold updateEarnings.
    + destruct (st isRunning) as [[|]|]; try reflexivity; now elim H.
    + rewrite H; destruct (st isRunning) as [[|]|]; reflexivity.
  - intros t p Hr Ht Hp.
    assert (E : forall s0 : PartialState, s0 isRunning = Some true -> startTimeOf s0 = Some t ->
                           s0 powerOutput = Some (Num p) ->
                           updateEarnings now s0 totalEarnings
                           = Some (Num (calculateEarnings p ((now - t) / 1000)))).
    { intros s0 H1 H2 H3; unfold updateEarnings; rewrite H1, H2.
      unfold spread; cbn match; now rewrite H3. }
    split; [now apply E |].
    intros st' H1 H2 H3; rewrite (E st'), (E st); auto.
  - intros f Hf; now apply updateEarnings_other.
Qed.

Lemma updateEarnings_rederives_witness :
  updateEarnings 7000 (resetSystem 0) = resetSystem 0.
Proof.
  apply (updateEarnings_rederives 7000 (resetSystem 0)).
  left; discriminate.
Defined.

(** X18.  After every recomputation the two status words agree with the
    numbers stored beside them: the turbine is [running] exactly when the
    stored speed is positive, the generator [online] exactly when the stored
    load is positive. *)
Theorem recompute_statuses_agree
  (leverValues : Lever.t) (st : PartialState)
  (currentTime oilTime earnTime : R) :
  let st' := recompute leverValues currentTime oilTime earnTime st in
  exists W L,
    st' turbineSpeed = Some (Num W)
    /\ st' load = Some (Num L)
    /\ st' turbineStatus = Some (if Rgtb W 0 then running else stopped)
    /\ st' generatorStatus = Some (if Rgtb L 0 then online else offline).
Proof.
  intros st'; subst st'.
  unfold recompute; cbv zeta.
  set (dt := (currentTime - _) / 1000).
  set (out := calculateSystemState leverValues (Some st) dt oilTime).
  assert (H : exists W L, out turbineSpeed = Some (Num W)
                          /\ out load = Some (Num L)).
  { unfold out.
    destruct (shutdownCountdown (Some st)) as [s |] eqn:Hc.
    - rewrite (calculateSystemState_countdown _ _ _ _ s) by exact Hc.
      do 2 eexists; split; reflexivity.
    - destruct (calculateSystemState_stages leverValues (Some st) dt oilTime
                  Hc) as (lv & tr & _ & ->).
      do 2 eexists; split; reflexivity. }
  destruct H as (W & L & HW & HL).
  exists W, L.
  unfold spread at 1 2 3 4; cbn match.
  unfold spread; rewrite HW, HL, !orElse_self.
  repeat split.
Qed.


(** * The lever registry *)

Lemma lever_if (b : bool) (i n d : String.string) (lo hi x y : R)
  (u c : String.string) (r s : R) :
  (if b
   then ControlLever.withValues (ControlLever.mk i n d lo hi x x u c r s) y y
   else ControlLever.mk i n d lo hi x x u c r s)
  = ControlLever.mk i n d lo hi (if b then y else x) (if b then y else x)
      u c r s.
Proof. now destruct b. Qed.

Lemma updateLever_leversOf
  (leverId : String.string) (value : R) (lv : Lever.t)
  (actual : String.string -> option R) :
  LeverStore.updateLever leverId value (LeverStore.mk (leversOf lv) actual)
  = LeverStore.mk (leversOf (moved leverId value lv)) actual.
Proof.
  unfold LeverStore.updateLever, leversOf, moved.
  cbn [LeverStore.levers LeverStore.actualSystemValues map
       ControlLever.id ControlLever.minValue ControlLever.maxValue
       Lever.coal_feed Lever.feedwater Lever.boiler_pressure
       Lever.steam_turbine Lever.condenser Lever.cooling_water
       Lever.air_supply Lever.fuel_injection Lever.steam_flow
       Lever.water_level Lever.exhaust_gas Lever.emergency_valve].
  now rewrite !lever_if.
Qed.

Lemma moved_inRange (leverId : String.string) (value : R) (lv : Lever.t) :
  leversInRange lv -> leversInRange (moved leverId value lv).
Proof.
  unfold leversInRange, moved.
  cbn [Lever.coal_feed Lever.feedwater Lever.boiler_pressure
       Lever.steam_turbine Lever.condenser Lever.cooling_water
       Lever.air_supply Lever.fuel_injection Lever.steam_flow
       Lever.water_level Lever.exhaust_gas Lever.emergency_valve].
  intros H; decompose [and] H; clear H.
  repeat match goal with
         | |- _ /\ _ => split
         | |- inRange (if ?b then _ else _) =>
             destruct b; [apply clampLever_inRange | assumption]
         end.
Qed.

Lemma offTarget_settled (lever : ControlLever.t) :
  ControlLever.currentValue lever = ControlLever.targetValue lever ->
  LeverStore.offTarget lever = false.
Proof.
  intros H; unfold LeverStore.offTarget; rewrite H.
  apply Rgtb_false.
  replace (ControlLever.targetValue lever - ControlLever.targetValue lever)
    with 0 by lra.
  rewrite Rabs_R0; lra.
Qed.

Lemma gradualPass_idle
  (snapshot : String.string -> option R) (ls : list ControlLever.t) :
  Forall (fun lever => LeverStore.offTarget lever = false) ls ->
  forall updated actual hasChanges,
    fold_left (LeverStore.gradualPass snapshot) ls
      (updated, actual, hasChanges)
    = (updated ++ ls, actual, hasChanges).
Proof.
  induction 1 as [| lever ls Hl _ IH]; intros updated actual hasChanges;
    cbn [fold_left].
  - now rewrite app_nil_r.
  - unfold LeverStore.gradualPass at 2; rewrite Hl, IH.
    now rewrite <- app_assoc.
Qed.

Lemma updateGradualMovement_idle (st : LeverStore.t) :
  Forall (fun lever => LeverStore.offTarget lever = false)
    (LeverStore.levers st) ->
  LeverStore.updateGradualMovement st = st.
Proof.
  intros H; unfold LeverStore.updateGradualMovement.
  rewrite (gradualPass_idle _ _ H); now destruct st.
Qed.

Lemma leversOf_settled (lv : Lever.t) :
  Forall (fun lever => LeverStore.offTarget lever = false) (leversOf lv).
Proof. unfold leversOf; repeat constructor; now apply offTarget_settled. Qed.

Lemma leversOf_zero : leversOf (leversAt 0) = LeverStore.initialLevers.
Proof. reflexivity. Qed.

Lemma step_leversOf (lv : Lever.t) (a : LeverStore.Action) :
  LeverStore.step (LeverStore.mk (leversOf lv) (fun _ => None)) a
  = LeverStore.mk (leversOf (vectorAfter lv a)) (fun _ => None).
Proof.
  destruct a as [leverId value | |]; cbn [LeverStore.step vectorAfter].
  - apply updateLever_leversOf.
  - reflexivity.
  - apply updateGradualMovement_idle, leversOf_settled.
Qed.

Lemma run_leversOf (actions : list LeverStore.Action) (lv : Lever.t) :
  LeverStore.run (LeverStore.mk (leversOf lv) (fun _ => None)) actions
  = LeverStore.mk (leversOf (fold_left vectorAfter actions lv))
      (fun _ => None).
Proof.
  unfold LeverStore.run; revert lv.
  induction actions as [| a actions IH]; intros lv; cbn [fold_left];
    [reflexivity |].
  now rewrite step_leversOf, IH.
Qed.

Lemma vectorAfter_inRange (lv : Lever.t) (a : LeverStore.Action) :
  leversInRange lv -> leversInRange (vectorAfter lv a).
Proof.
  destruct a; cbn [vectorAfter]; intros H.
  - now apply moved_inRange.
  - unfold leversInRange, leversAt, inRange; cbn; lra.
  - exact H.
Qed.

Lemma fold_vectorAfter_inRange
  (actions : list LeverStore.Action) (lv : Lever.t) :
  leversInRange lv -> leversInRange (fold_left vectorAfter actions lv).
Proof.
  revert lv; induction actions as [| a actions IH]; intros lv H;
    cbn [fold_left]; [exact H |].
  apply IH, vectorAfter_inRange, H.
Qed.

Lemma leverVector_leversOf (lv : Lever.t) :
  LeverStore.leverVector (LeverStore.leverValues (leversOf lv)) = Some lv.
Proof. now destruct lv. Qed.

(** X19.  From the initial registry, whatever is done to the store, the
    registry is the initial one with some values inside [0, 100] written in,
    [actualSystemValues] is empty, and the vector that the recomputation
    reduces from the registry has all twelve keys, each inside [0, 100]. *)
Theorem registry_stays_in_range (actions : list LeverStore.Action) :
  exists lv,
    leversInRange lv
    /\ LeverStore.run LeverStore.initial actions
       = LeverStore.mk (leversOf lv) (fun _ => None)
    /\ LeverStore.leverVector
         (LeverStore.leverValues
            (LeverStore.levers (LeverStore.run LeverStore.initial actions)))
       = Some lv.
Proof.
  exists (fold_left vectorAfter actions (leversAt 0)).
  assert (E : LeverStore.run LeverStore.initial actions
              = LeverStore.mk
                  (leversOf (fold_left vectorAfter actions (leversAt 0)))
                  (fun _ => None)).
  { unfold LeverStore.initial; rewrite <- leversOf_zero; apply run_leversOf. }
  split; [| split].
  - apply fold_vectorAfter_inRange.
    unfold leversInRange, leversAt, inRange; cbn; lra.
  - exact E.
  - rewrite E; apply leverVector_leversOf.
Qed.

(** X20.  [updateGradualMovement] never moves anything: in every state that
    the store can reach from its initial one, each lever already sits on its
    target, so the call returns the state it was given. *)
Theorem gradual_movement_is_idle (actions : list LeverStore.Action) :
  LeverStore.updateGradualMovement
    (LeverStore.run LeverStore.initial actions)
  = LeverStore.run LeverStore.initial actions.
Proof.
  unfold LeverStore.initial; rewrite <- leversOf_zero, run_leversOf.
  apply updateGradualMovement_idle, leversOf_settled.
Qed.

Lemma withValues_again (lever : ControlLever.t) (a b c d : R) :
  ControlLever.withValues (ControlLever.withValues lever a b) c d
  = ControlLever.withValues lever c d.
Proof. reflexivity. Qed.

Lemma clampLever_fixed (lo hi v : R) :
  lo <= v <= hi -> clampLever lo hi v = v.
Proof.
  intros [H1 H2]; unfold clampLever.
  rewrite Rmin_right by exact H2.
  now rewrite Rmax_right by exact H1.
Qed.

Lemma clampLever_between (lo hi v : R) :
  lo <= hi -> lo <= clampLever lo hi v <= hi.
Proof.
  intros H; unfold clampLever; split; [apply Rmax_l |].
  apply Rmax_lub; [exact H | apply Rmin_l].
Qed.

(** X21.  [updateLever] on any registry: a second write to the same id
    replaces the first, writes to different ids commute, and an id that no
    lever has leaves the store as it is. *)
Theorem updateLever_last_write_wins
  (st : LeverStore.t) (i j : String.string) (v w : R) :
  LeverStore.updateLever i w (LeverStore.updateLever i v st)
  = LeverStore.updateLever i w st
  /\ (i <> j ->
      LeverStore.updateLever i v (LeverStore.updateLever j w st)
      = LeverStore.updateLever j w (LeverStore.updateLever i v st))
  /\ (~ In i (map ControlLever.id (LeverStore.levers st)) ->
      LeverStore.updateLever i v st = st).
Proof.
  destruct st as [ls actual]; unfold LeverStore.updateLever;
    cbn [LeverStore.levers LeverStore.actualSystemValues].
  split; [| split].
  - f_equal; rewrite map_map; apply map_ext; intros lever.
    destruct (String.eqb (ControlLever.id lever) i) eqn:E.
    + cbn [ControlLever.withValues ControlLever.id ControlLever.minValue
           ControlLever.maxValue]; now rewrite E.
    + now rewrite E.
  - intros Hij; f_equal; rewrite !map_map; apply map_ext; intros lever.
    destruct (String.eqb (ControlLever.id lever) i) eqn:Ei;
      destruct (String.eqb (ControlLever.id lever) j) eqn:Ej;
      cbn [ControlLever.withValues ControlLever.id ControlLever.minValue
           ControlLever.maxValue]; rewrite ?Ei, ?Ej; try reflexivity.
    apply String.eqb_eq in Ei, Ej; congruence.
  - intros Hin; f_equal.
    rewrite <- (map_id ls) at 2; apply map_ext_in; intros lever Hl.
    destruct (String.eqb (ControlLever.id lever) i) eqn:E; [| reflexivity].
    apply String.eqb_eq in E; elim Hin; rewrite <- E.
    now apply in_map.
Qed.

Lemma updateLever_last_write_wins_witness :
  LeverStore.updateLever "coal_feed" 30
    (LeverStore.updateLever "feedwater" 70 LeverStore.initial)
  = LeverStore.updateLever "feedwater" 70
      (LeverStore.updateLever "coal_feed" 30 LeverStore.initial).
Proof.
  apply (updateLever_last_write_wins LeverStore.initial
           "coal_feed" "feedwater" 30 70).
  discriminate.
Defined.

(** * The lever component *)

Lemma valueFromY_formula (lo hi top height clientY : R) :
  0 < height ->
  lo + ((100 - Rmax 0 (Rmin height (clientY - top)) / height * 100) / 100)
       * (hi - lo)
  = hi - Rmax 0 (Rmin height (clientY - top)) / height * (hi - lo).
Proof. intros H; field; lra. Qed.

Lemma clampedY_range (height y : R) :
  0 < height -> 0 <= Rmax 0 (Rmin height y) / height <= 1.
Proof.
  intros H.
  assert (H0 : 0 <= Rmax 0 (Rmin height y)) by apply Rmax_l.
  assert (H1 : Rmax 0 (Rmin height y) <= height).
  { apply Rmax_lub; [lra | apply Rmin_l]. }
  split.
  - apply Rmult_le_pos; [exact H0 |].
    left; now apply Rinv_0_lt_compat.
  - apply (Rmult_le_reg_r height); [exact H |].
    unfold Rdiv; rewrite Rmult_assoc, Rinv_l by lra; lra.
Qed.

(** X22.  Dragging: with a laid-out container (height above zero) and
    [minValue <= maxValue], [calculateValueFromY] returns the point of the
    lever's range that lies the same fraction above the bottom of the
    container as the pointer does; at or above the top it is [maxValue], at
    or below the bottom [minValue]; the value is inside the range, so the
    clamp of [updateLever] stores it unchanged.  A container of height zero
    gives NaN, and without a container the lever's current value comes
    back. *)
Theorem calculateValueFromY_contract
  (lever : ControlLever.t) (top height clientY : R) :
  ControlLever.minValue lever <= ControlLever.maxValue lever ->
  0 < height ->
  let lo := ControlLever.minValue lever in
  let hi := ControlLever.maxValue lever in
  exists v,
    LeverComponent.calculateValueFromY lever (Some (top, height)) clientY
    = Num v
    /\ lo <= v <= hi
    /\ clampLever lo hi v = v
    /\ (clientY <= top -> v = hi)
    /\ (top + height <= clientY -> v = lo)
    /\ (top <= clientY <= top + height ->
        v = hi - (clientY - top) / height * (hi - lo))
    /\ LeverComponent.calculateValueFromY lever (Some (top, 0)) clientY = NaN
    /\ LeverComponent.calculateValueFromY lever None clientY
       = Num (ControlLever.currentValue lever).
Proof.
  intros Hr Hh lo hi.
  unfold LeverComponent.calculateValueFromY.
  rewrite (proj2 (Rzerob_false height)) by lra.
  rewrite (proj2 (Rzerob_true 0)) by reflexivity.
  fold lo hi.
  rewrite (valueFromY_formula lo hi top height clientY Hh).
  set (q := Rmax 0 (Rmin height (clientY - top)) / height).
  assert (Hq : 0 <= q <= 1) by (apply clampedY_range; exact Hh).
  change (lo <= hi) in Hr.
  assert (Hv : lo <= hi - q * (hi - lo) <= hi).
  { assert (0 <= q * (hi - lo)) by (apply Rmult_le_pos; lra).
    assert (0 <= (1 - q) * (hi - lo)) by (apply Rmult_le_pos; lra).
    lra. }
  assert (Hc : Rmax lo (Rmin hi (hi - q * (hi - lo)))
               = hi - q * (hi - lo)).
  { apply (clampLever_fixed lo hi); exact Hv. }
  rewrite Hc.
  exists (hi - q * (hi - lo)).
  split; [reflexivity |].
  split; [exact Hv |].
  split; [now apply clampLever_fixed |].
  split; [| split; [| split; [| split; reflexivity]]].
  - intros Hy.
    assert (q = 0); [| subst; nra].
    unfold q; rewrite Rmin_right by lra.
    rewrite Rmax_left by lra; unfold Rdiv; lra.
  - intros Hy.
    assert (q = 1); [| nra].
    unfold q; rewrite Rmin_left by lra.
    rewrite Rmax_right by lra; field; lra.
  - intros Hy.
    assert (q = (clientY - top) / height); [| congruence].
    unfold q; rewrite Rmin_right by lra.
    now rewrite Rmax_right by lra.
Qed.

Lemma calculateValueFromY_contract_witness :
  exists v,
    LeverComponent.calculateValueFromY
      coalFeedAt20
      (Some (10, 200)) 60
    = Num v
    /\ 0 <= v <= 100.
Proof.
  destruct (calculateValueFromY_contract
              coalFeedAt20
              10 200 60) as (v & E & Hv & _).
  - cbn; lra.
  - lra.
  - exists v; split; [exact E | exact Hv].
Defined.

(** X23.  The arrow buttons: from a value inside the lever's range, each
    button gives a value inside the range that the store keeps as it is; the
    step is five or whatever room is left; and pressing up and then down
    comes back to the start exactly when there were five units of room
    above. *)
Theorem arrow_buttons_contract (lever : ControlLever.t) :
  let lo := ControlLever.minValue lever in
  let hi := ControlLever.maxValue lever in
  let cur := ControlLever.currentValue lever in
  lo <= cur <= hi ->
  let up := LeverComponent.handleArrowUp lever in
  let down := LeverComponent.handleArrowDown lever in
  (cur <= up <= hi /\ up - cur = Rmin 5 (hi - cur)
   /\ clampLever lo hi up = up)
  /\ (lo <= down <= cur /\ cur - down = Rmin 5 (cur - lo)
      /\ clampLever lo hi down = down)
  /\ (LeverComponent.handleArrowDown (ControlLever.withValues lever up up)
      = cur <-> cur + 5 <= hi \/ cur = lo).
Proof.
  intros lo hi cur Hc up down.
  unfold LeverComponent.handleArrowUp in up.
  unfold LeverComponent.handleArrowDown in down.
  fold lo hi cur in up, down.
  assert (Hup : cur <= up <= hi /\ up - cur = Rmin 5 (hi - cur)).
  { unfold up.
    destruct (Rle_dec (cur + 5) hi).
    - rewrite Rmin_right by lra; rewrite Rmin_left by lra; lra.
    - rewrite Rmin_left by lra; rewrite Rmin_right by lra; lra. }
  assert (Hdown : lo <= down <= cur /\ cur - down = Rmin 5 (cur - lo)).
  { unfold down.
    destruct (Rle_dec lo (cur - 5)).
    - rewrite Rmax_right by lra; rewrite Rmin_left by lra; lra.
    - rewrite Rmax_left by lra; rewrite Rmin_right by lra; lra. }
  split; [| split].
  - repeat split; try tauto; apply clampLever_fixed; lra.
  - repeat split; try tauto; apply clampLever_fixed; lra.
  - unfold LeverComponent.handleArrowDown.
    cbn [ControlLever.withValues ControlLever.minValue
         ControlLever.currentValue]; fold lo.
    destruct Hup as [Hup1 Hup2]; revert Hup2; unfold up.
    destruct (Rle_dec (cur + 5) hi).
    + rewrite Rmin_right by lra; intros _.
      rewrite Rmax_right by lra; split; [left; lra | lra].
    + rewrite Rmin_left by lra; intros _.
      destruct (Rle_dec lo (hi - 5)).
      * rewrite Rmax_right by lra; split; [lra | intros [? | ?]; lra].
      * rewrite Rmax_left by lra; split; [intros <-; now right |].
        intros [? | ?]; lra.
Qed.

Lemma arrow_buttons_contract_witness :
  LeverComponent.handleArrowDown
    (ControlLever.withValues
       coalFeedAt20
       (LeverComponent.handleArrowUp
          coalFeedAt20)
       (LeverComponent.handleArrowUp
          coalFeedAt20))
  = 20.
Proof.
  apply (arrow_buttons_contract
           coalFeedAt20).
  - cbn; lra.
  - left; cbn; lra.
Defined.

(** * [formatTime] *)

Lemma below_100 (P : Z -> Prop) :
  (forall k : nat, (k < 100)%nat -> P (Z.of_nat k)) ->
  forall n : Z, (0 <= n < 100)%Z -> P n.
Proof.
  intros H n Hn; rewrite <- (Z2Nat.id n) by lia; apply H; lia.
Qed.

Lemma padStart_twoDigits (n : Z) :
  (0 <= n < 100)%Z -> padStart 2 "0"%char (toString n) = twoDigits n.
Proof.
  revert n; apply below_100; intros k Hk.
  do 100 (destruct k as [| k]; [vm_compute; reflexivity |]).
  lia.
Qed.

Lemma twoDigits_inj (a b : Z) :
  (0 <= a < 100)%Z -> (0 <= b < 100)%Z -> twoDigits a = twoDigits b -> a = b.
Proof.
  intros Ha Hb E; unfold twoDigits, digit in E.
  injection E as E1 E2.
  apply (f_equal Ascii.nat_of_ascii) in E1, E2.
  assert (Ha1 : (0 <= a / 10 < 10)%Z)
    by (split; [apply Z.div_pos | apply Z.div_lt_upper_bound]; lia).
  assert (Hb1 : (0 <= b / 10 < 10)%Z)
    by (split; [apply Z.div_pos | apply Z.div_lt_upper_bound]; lia).
  assert (Ha2 : (0 <= a mod 10 < 10)%Z) by (apply Z.mod_pos_bound; lia).
  assert (Hb2 : (0 <= b mod 10 < 10)%Z) by (apply Z.mod_pos_bound; lia).
  rewrite !Ascii.nat_ascii_embedding in E1, E2 by lia.
  rewrite (Z.div_mod a 10), (Z.div_mod b 10) by lia; lia.
Qed.

Lemma twoDigits_append_inj (a b : Z) (s t : String.string) :
  String.append (twoDigits a) s = String.append (twoDigits b) t ->
  twoDigits a = twoDigits b /\ s = t.
Proof.
  unfold twoDigits; cbn [String.append]; intros E.
  injection E as E1 E2 E3; now rewrite E1, E2, E3.
Qed.

Lemma colon_append_inj (s t : String.string) :
  String.append ":" s = String.append ":" t -> s = t.
Proof. cbn [String.append]; now intros [= ->]. Qed.

Lemma formatTime_parts (seconds : Z) :
  (0 <= seconds < 360000)%Z ->
  (0 <= seconds / 3600 < 100)%Z
  /\ (0 <= Z.rem seconds 3600 / 60 < 60)%Z
  /\ (0 <= Z.rem seconds 60 < 60)%Z
  /\ seconds
     = (3600 * (seconds / 3600) + 60 * (Z.rem seconds 3600 / 60)
        + Z.rem seconds 60)%Z.
Proof.
  intros H.
  rewrite !Z.rem_mod_nonneg by lia.
  Z.div_mod_to_equations; lia.
Qed.

Lemma formatTime_twoDigits (seconds : Z) :
  (0 <= seconds < 360000)%Z ->
  formatTime seconds
  = String.append (twoDigits (seconds / 3600))
      (String.append ":"
         (String.append (twoDigits (Z.rem seconds 3600 / 60))
            (String.append ":" (twoDigits (Z.rem seconds 60))))).
Proof.
  intros H; destruct (formatTime_parts seconds H) as (Hh & Hm & Hs & _).
  unfold formatTime; cbv zeta.
  now rewrite !padStart_twoDigits by lia.
Qed.

(** X24.  Below one hundred hours, [formatTime] of a whole number of seconds
    is the eight characters HH:MM:SS, where the three two-digit fields are
    the hours, the minutes below 60 and the seconds below 60 that add up to
    the argument. *)
Theorem formatTime_digits (seconds : Z) :
  (0 <= seconds < 360000)%Z ->
  exists h m s : Z,
    (0 <= h < 100 /\ 0 <= m < 60 /\ 0 <= s < 60)%Z
    /\ seconds = (3600 * h + 60 * m + s)%Z
    /\ formatTime seconds
       = String.String (digit (h / 10)) (String.String (digit (h mod 10))
          (String.String ":"%char
            (String.String (digit (m / 10)) (String.String (digit (m mod 10))
              (String.String ":"%char
                (String.String (digit (s / 10))
                  (String.String (digit (s mod 10)) String.EmptyString)))))))
    /\ String.length (formatTime seconds) = 8%nat.
Proof.
  intros H; destruct (formatTime_parts seconds H) as (Hh & Hm & Hs & E).
  exists (seconds / 3600)%Z, (Z.rem seconds 3600 / 60)%Z, (Z.rem seconds 60).
  split; [lia |]; split; [exact E |].
  rewrite formatTime_twoDigits by exact H.
  split; reflexivity.
Qed.

Lemma formatTime_digits_witness :
  String.length (formatTime 3725) = 8%nat.
Proof.
  destruct (formatTime_digits 3725 ltac:(lia)) as (h & m & s & _ & _ & _ & L).
  exact L.
Defined.

(** X25.  The display determines the time: below one hundred hours, two
    whole numbers of seconds that [formatTime] prints alike are equal. *)
Theorem formatTime_injective (a b : Z) :
  (0 <= a < 360000)%Z -> (0 <= b < 360000)%Z ->
  formatTime a = formatTime b -> a = b.
Proof.
  intros Ha Hb E.
  destruct (formatTime_parts a Ha) as (Ha1 & Ha2 & Ha3 & Ea).
  destruct (formatTime_parts b Hb) as (Hb1 & Hb2 & Hb3 & Eb).
  rewrite !formatTime_twoDigits in E by assumption.
  apply twoDigits_append_inj in E; destruct E as [Eh E].
  apply colon_append_inj, twoDigits_append_inj in E; destruct E as [Em E].
  apply colon_append_inj in E; rename E into Es.
  apply twoDigits_inj in Eh, Em, Es; lia.
Qed.

Lemma formatTime_injective_witness : 3725%Z = (3600 + 125)%Z.
Proof.
  apply (formatTime_injective 3725 (3600 + 125)); [lia | lia | reflexivity].
Defined.
